(** * epd_image_loader: the bitmap pipeline of [src/main.cpp]

    A shallow embedding of the image pipeline of the e-paper firmware:
    the packed 1-bit framebuffer ([Paint]), the row-buffered truecolor
    bitmap decoder ([bmpDraw], [pushColours]), the scanline callback of the
    compressed-image decoder ([PNGDraw]), the codec dispatch
    ([display_image]) and the snapshot encoder ([snapshot]).

    Conventions.
    - C++ integers are [Z] with the wrap-around written out ([u8], [u16],
      [u32], [i32]); bytes are [Z] in [0, 256).
    - Arrays ([sdbuffer], [lcdbuffer], the framebuffer, file contents) are
      lists, read with [at_index] and written with [set_index].
    - The file system is a finite map from names to contents.
    - Every observable effect (opening a file, seeking, drawing a pixel,
      driving the panel) is appended to a chronological [trace].
    - Loops run on a [nat] count of the iterations left, with the C++ loop
      variable carried along as a [Z]. *)

From Stdlib Require Import ZArith Lia Bool String Ascii.
From stdpp Require Import base list strings gmap.

Local Open Scope Z_scope.

(** ** Machine integers *)

Definition u8 (v : Z) : Z := v mod 256.
Definition u16 (v : Z) : Z := v mod 65536.
Definition u32 (v : Z) : Z := v mod 4294967296.
Definition i32 (v : Z) : Z := (v + 2147483648) mod 4294967296 - 2147483648.

(** [main.cpp:125-126] *)
Definition BLACK : Z := 0.
Definition WHITE : Z := 1.

(** [main.cpp:135-136] *)
Definition image_width : Z := 200.
Definition image_height : Z := 200.

(** [main.cpp:747] *)
Definition BUFFPIXEL : Z := 20.

(** [sizeof(sdbuffer)], with [sdbuffer] declared as [uint8_t[3*BUFFPIXEL]]. *)
Definition sizeof_sdbuffer : Z := 3 * BUFFPIXEL.

(** Array read; an index outside the array has no defined value in C++ and
    reads as 0 here. *)
Definition at_index (l : list Z) (i : Z) : Z :=
  if i <? 0 then 0 else default 0 (l !! Z.to_nat i).

(** Array write [l[i] = v]; out of range leaves the list alone. *)
Definition set_index (l : list Z) (i : Z) (v : Z) : list Z :=
  if i <? 0 then l else <[Z.to_nat i := v]> l.

(** ** The framebuffer *)

(** Modelled from the spec: the class [Paint] of [epd/epdpaint.h] is not
    part of the given sources.  Section 3 of the specification fixes the
    layout: one bit per pixel, row-major, most significant bit first within
    a byte, BLACK = 0 and WHITE = 1, over a backing store that is never
    reallocated. *)
Record Paint := mkPaint {
  image : list Z;
  width : Z;
  height : Z
}.

(** Modelled from the spec: the accessors of [Paint]. *)
Definition GetWidth (p : Paint) : Z := width p.
Definition GetHeight (p : Paint) : Z := height p.
Definition GetImage (p : Paint) : list Z := image p.

(** Modelled from the spec: [reset(width, height)] reconfigures the logical
    dimensions without touching the backing storage. *)
Definition SetWidth (w : Z) (p : Paint) : Paint := mkPaint (image p) w (height p).
Definition SetHeight (h : Z) (p : Paint) : Paint := mkPaint (image p) (width p) h.

(** Row-major bit number of pixel (x, y). *)
Definition pixel_index (p : Paint) (x y : Z) : Z := y * width p + x.

(** [0x80 >> (i % 8)]: most significant bit first. *)
Definition pixel_mask (i : Z) : Z := Z.shiftr 128 (i mod 8).

(** Modelled from the spec: [set_pixel(x, y, color)] is bounds-checked, an
    out-of-range coordinate is a silent no-op; WHITE sets the bit and BLACK
    clears it. *)
Definition DrawPixel (x y colored : Z) (p : Paint) : Paint :=
  if (x <? 0) || (width p <=? x) || (y <? 0) || (height p <=? y) then p
  else
    let i := pixel_index p x y in
    let b := at_index (image p) (i / 8) in
    let b' := if colored =? 0
              then Z.land b (u8 (Z.lnot (pixel_mask i)))
              else Z.lor b (pixel_mask i) in
    mkPaint (set_index (image p) (i / 8) b') (width p) (height p).

(** The colour stored for pixel (x, y). *)
Definition get_pixel (p : Paint) (x y : Z) : Z :=
  let i := pixel_index p x y in
  if Z.land (at_index (image p) (i / 8)) (pixel_mask i) =? 0 then BLACK else WHITE.

(** Modelled from the spec: [clear(color)] sets every bit of the logical
    region to the given colour. *)
Definition Clear (colored : Z) (p : Paint) : Paint :=
  let n := Z.to_nat ((width p * height p + 7) / 8) in
  let fill := if colored =? 0 then 0 else 255 in
  mkPaint (replicate (Nat.min n (length (image p))) fill ++ drop n (image p))
          (width p) (height p).

(** ** Files *)

(** An open [File] of the Arduino core: the bytes of the file and the
    current position. *)
Record File := mkFile {
  content : list Z;
  position : Z
}.

(** [f.read(buf, n)]: the bytes delivered, at most [n]. *)
Definition file_peek (n : Z) (f : File) : list Z :=
  take (Z.to_nat n) (drop (Z.to_nat (position f)) (content f)).

Definition file_advance (k : Z) (f : File) : File :=
  mkFile (content f) (position f + k).

(** [f.seek(pos)] *)
Definition file_seek (pos : Z) (f : File) : File := mkFile (content f) pos.

(** Little-endian value of a byte string ("platform order" on both
    supported targets). *)
Fixpoint le_value (bs : list Z) : Z :=
  match bs with
  | [] => 0
  | b :: bs' => b + 256 * le_value bs'
  end.

(** Computations that read from the open file.  [None] stands for a value
    the C++ code leaves indeterminate. *)
Definition Rd (A : Type) : Type := File -> option (A * File).

#[local] Instance rd_ret : MRet Rd := fun A a f => Some (a, f).
#[local] Instance rd_bind : MBind Rd := fun A B k m f =>
  match m f with
  | Some (a, f') => k a f'
  | None => None
  end.

(** [main.cpp:759-765], [template<typename T> T read(File &f)]: [result] is
    not initialised, so a file that ends early leaves it indeterminate. *)
Definition read (size : Z) : Rd Z :=
  fun f =>
    let bs := file_peek size f in
    if Z.of_nat (length bs) =? size
    then Some (le_value bs, file_advance size f)
    else None.

(** [main.cpp:773-776] *)
Definition read16 : Rd Z := read 2.

(** [main.cpp:784-787] *)
Definition read32 : Rd Z := read 4.

(** ** The observable world *)

(** Calls into the panel driver ([epd/epd1in54_V2.h], a collaborator). *)
Inductive EpdCall :=
| LDirInit
| EpdClear
| WaitUntilIdle
| DisplayPart (frame : list Z).

Inductive Event :=
| EvOpen (name : string)
| EvSeek (pos : Z)
| EvDraw (x y colored : Z)
| EvClose
| EvEpd (c : EpdCall).

(** The globals of [main.cpp] the pipeline touches ([paint], [epdState],
    [currentImage]), the flash file system and the trace of effects. *)
Record World := mkWorld {
  paint : Paint;
  files : gmap string (list Z);
  epdState : string;
  currentImage : string;
  trace : list Event
}.

Definition with_paint (p : Paint) (w : World) : World :=
  mkWorld p (files w) (epdState w) (currentImage w) (trace w).
Definition log (e : Event) (w : World) : World :=
  mkWorld (paint w) (files w) (epdState w) (currentImage w) (trace w ++ [e]).

(** The pixel writes of a trace, in order. *)
Definition draws (t : list Event) : list (Z * Z * Z) :=
  omap (fun e => match e with EvDraw x y c => Some (x, y, c) | _ => None end) t.

(** The seeks of a trace, in order. *)
Definition seeks (t : list Event) : list Z :=
  omap (fun e => match e with EvSeek p => Some p | _ => None end) t.

(** ** The bitmap decoder *)

(** The locals of [bmpDraw] that live across loop iterations
    ([main.cpp:801-815]), together with the framebuffer and the trace. *)
Record Decoder := mkDecoder {
  bmpFile : File;
  sdbuffer : list Z;
  lcdbuffer : list Z;
  buffidx : Z;
  lcdidx : Z;
  d_paint : Paint;
  d_trace : list Event
}.

(** [paint.DrawPixel(x, y, colored)] as seen by the decoder. *)
Definition draw (x y colored : Z) (d : Decoder) : Decoder :=
  mkDecoder (bmpFile d) (sdbuffer d) (lcdbuffer d) (buffidx d) (lcdidx d)
            (DrawPixel x y colored (d_paint d))
            (d_trace d ++ [EvDraw x y colored]).

Definition set_lcdidx (v : Z) (d : Decoder) : Decoder :=
  mkDecoder (bmpFile d) (sdbuffer d) (lcdbuffer d) (buffidx d) v
            (d_paint d) (d_trace d).

(** [main.cpp:736-745].  The loop [for (idx = 0; idx < lcdidx; ++idx)] runs
    [n] more times from [idx]; [anyBlack] is never read and [yield] has no
    effect on the data. *)
Fixpoint pushColours_from (n : nat) (idx row col : Z) (lcdbuffer : list Z)
    (d : Decoder) : Decoder :=
  match n with
  | O => d
  | S n' =>
      pushColours_from n' (idx + 1) row col lcdbuffer
        (draw row (col + idx)
              (if at_index lcdbuffer idx =? 0 then BLACK else WHITE) d)
  end.

Definition pushColours (row col lcdidx : Z) (lcdbuffer : list Z)
    (d : Decoder) : Decoder :=
  pushColours_from (Z.to_nat lcdidx) 0 row col lcdbuffer d.

(** [main.cpp:903], [(r << 24) | (g << 8) || b] stored into a [uint16_t]:
    [|] binds tighter than [||], so the value is the truth value of
    "some channel is non-zero". *)
Definition pack_colour (r g b : Z) : Z :=
  u16 (if negb (Z.lor (i32 (Z.shiftl r 24)) (Z.shiftl g 8) =? 0) || negb (b =? 0)
       then 1 else 0).

(** [main.cpp:895-896], [bmpFile.read(sdbuffer, sizeof(sdbuffer)); buffidx = 0]:
    the bytes delivered overwrite the front of [sdbuffer], the rest keeps
    what it held. *)
Definition reload (d : Decoder) : Decoder :=
  let bs := file_peek sizeof_sdbuffer (bmpFile d) in
  mkDecoder (file_advance (Z.of_nat (length bs)) (bmpFile d))
            (bs ++ drop (length bs) (sdbuffer d))
            (lcdbuffer d) 0 (lcdidx d) (d_paint d) (d_trace d).

(** [main.cpp:885-904], the body of [for (col = 0; col < w; col++)]. *)
Definition col_body (row col : Z) (d : Decoder) : Decoder :=
  let d1 :=
    if sizeof_sdbuffer <=? buffidx d then
      let d0 :=
        if 0 <? lcdidx d
        then set_lcdidx 0 (pushColours row (col - lcdidx d) (lcdidx d) (lcdbuffer d) d)
        else d in
      reload d0
    else d in
  let b := at_index (sdbuffer d1) (buffidx d1) in
  let g := at_index (sdbuffer d1) (u8 (buffidx d1 + 1)) in
  let r := at_index (sdbuffer d1) (u8 (u8 (buffidx d1 + 1) + 1)) in
  mkDecoder (bmpFile d1) (sdbuffer d1)
            (set_index (lcdbuffer d1) (lcdidx d1) (pack_colour r g b))
            (u8 (u8 (u8 (buffidx d1 + 1) + 1) + 1))
            (u8 (lcdidx d1 + 1))
            (d_paint d1) (d_trace d1).

(** [for (col = 0; col < w; col++)], [n] more iterations from [col]; the
    result carries the value of [col] when the loop ends. *)
Fixpoint col_loop (n : nat) (row col : Z) (d : Decoder) : Z * Decoder :=
  match n with
  | O => (col, d)
  | S n' => col_loop n' row (col + 1) (col_body row col d)
  end.

(** The header fields the scanline loop uses. *)
Record BmpHeader := mkHeader {
  bmpImageoffset : Z;   (* uint32_t *)
  bmpWidth : Z;         (* int *)
  bmpHeight : Z         (* int, as read from the file *)
}.

(** [main.cpp:851], [rowSize = (bmpWidth * 3 + 3) & ~3], a [uint32_t]. *)
Definition rowSize (bmpWidth : Z) : Z :=
  u32 (Z.land (i32 (bmpWidth * 3 + 3)) (Z.lnot 3)).

(** [main.cpp:855-858]: the flip flag and the height the loop works with. *)
Definition flip (h : BmpHeader) : bool := negb (bmpHeight h <? 0).
Definition abs_height (h : BmpHeader) : Z :=
  if bmpHeight h <? 0 then i32 (- bmpHeight h) else bmpHeight h.

(** [main.cpp:861-864], the crop. *)
Definition crop_w (h : BmpHeader) (x : Z) (p : Paint) : Z :=
  if GetWidth p <=? i32 (x + bmpWidth h - 1) then i32 (GetWidth p - x) else bmpWidth h.
Definition crop_h (h : BmpHeader) (y : Z) (p : Paint) : Z :=
  if GetHeight p <=? i32 (y + abs_height h - 1) then i32 (GetHeight p - y) else abs_height h.

(** [main.cpp:876-879], the file offset of scanline [row]. *)
Definition row_pos (h : BmpHeader) (row : Z) : Z :=
  if flip h
  then u32 (bmpImageoffset h + (abs_height h - 1 - row) * rowSize (bmpWidth h))
  else u32 (bmpImageoffset h + row * rowSize (bmpWidth h)).

(** [main.cpp:880-883], [if (bmpFile.position() != pos) { seek; buffidx = sizeof(sdbuffer); }] *)
Definition seek_if_needed (pos : Z) (d : Decoder) : Decoder :=
  if position (bmpFile d) =? pos then d
  else mkDecoder (file_seek pos (bmpFile d)) (sdbuffer d) (lcdbuffer d)
                 sizeof_sdbuffer (lcdidx d) (d_paint d)
                 (d_trace d ++ [EvSeek pos]).

(** [main.cpp:905-910], the flush after the last column. *)
Definition flush (row col : Z) (d : Decoder) : Decoder :=
  if 0 <? lcdidx d
  then set_lcdidx 0 (pushColours row (col - lcdidx d) (lcdidx d) (lcdbuffer d) d)
  else d.

(** [main.cpp:869-911], the body of [for (row = 0; row < h; row++)]. *)
Definition row_body (h : BmpHeader) (w : Z) (row : Z) (d : Decoder) : Decoder :=
  let d1 := seek_if_needed (row_pos h row) d in
  let '(col, d2) := col_loop (Z.to_nat w) row 0 d1 in
  flush row col d2.

Fixpoint row_loop (n : nat) (h : BmpHeader) (w : Z) (row : Z) (d : Decoder) : Decoder :=
  match n with
  | O => d
  | S n' => row_loop n' h w (row + 1) (row_body h w row d)
  end.

(** [main.cpp:829-843], the header.  The result is [None] when the file is
    not accepted ([goodBmp] stays false).  [bmpDepth] is a [uint8_t]: the
    16-bit field is narrowed before the comparison with 24, and the
    compression field is read only when that comparison succeeds. *)
Definition parse_header : Rd (option BmpHeader) :=
  sig ← read16;
  if sig =? 19778 (* 0x4D42 *) then
    _ ← read32;                (* file size *)
    _ ← read32;                (* creator bytes *)
    off ← read32;
    _ ← read32;                (* header size *)
    bw ← read32;
    bh ← read32;
    planes ← read16;
    if planes =? 1 then
      depth ← read16;
      let bmpDepth := u8 depth in
      if bmpDepth =? 24 then
        compression ← read32;
        if compression =? 0
        then mret (Some (mkHeader off (i32 bw) (i32 bh)))
        else mret None
      else mret None
    else mret None
  else mret None.

(** [main.cpp:844-911], the part of [bmpDraw] that runs once [goodBmp] is
    set. *)
Definition decode (h : BmpHeader) (x y : Z) (d : Decoder) : Decoder :=
  let w := crop_w h x (d_paint d) in
  let hh := crop_h h y (d_paint d) in
  row_loop (Z.to_nat hh) h w 0 d.

(** The decoder's locals when the file has just been opened; [sdbuffer] and
    [lcdbuffer] are uninitialised in the source and hold zeros here. *)
Definition start_decoder (f : File) (w : World) : Decoder :=
  mkDecoder f (replicate (Z.to_nat sizeof_sdbuffer) 0)
            (replicate (Z.to_nat BUFFPIXEL) 0)
            sizeof_sdbuffer 0 (paint w) (trace w).

Definition finish (d : Decoder) (w : World) : World :=
  mkWorld (d_paint d) (files w) (epdState w) (currentImage w)
          (d_trace d ++ [EvClose]).

(** [main.cpp:798-921].  The diagnostics on [Serial] are left out. *)
Definition bmpDraw (filename : string) (x y : Z) (w : World) : option World :=
  if (GetWidth (paint w) <=? x) || (GetHeight (paint w) <=? y) then Some w
  else
    let w1 := log (EvOpen filename) w in
    match files w !! filename with
    | None => Some w1
    | Some bytes =>
        match parse_header (mkFile bytes 0) with
        | None => None
        | Some (None, f) => Some (finish (start_decoder f w1) w1)
        | Some (Some h, f) => Some (finish (decode h x y (start_decoder f w1)) w1)
        end
    end.

(** ** The compressed-image scanline callback *)

(** The fields of the library's [PNGDRAW] that [PNGDraw] reads. *)
Record PNGDRAW := mkPNGDRAW {
  iWidth : Z;
  png_y : Z
}.

(** [paint.DrawPixel(x, y, colored)] on the global framebuffer. *)
Definition world_draw (x y colored : Z) (w : World) : World :=
  mkWorld (DrawPixel x y colored (paint w)) (files w) (epdState w)
          (currentImage w) (trace w ++ [EvDraw x y colored]).

(** [main.cpp:951-954], [n] more iterations from [i]. *)
Fixpoint PNGDraw_from (n : nat) (i : Z) (pDraw : PNGDRAW) (usPixels : list Z)
    (w : World) : World :=
  match n with
  | O => w
  | S n' =>
      PNGDraw_from n' (i + 1) pDraw usPixels
        (world_draw i (png_y pDraw)
                    (if negb (at_index usPixels i =? 0) then BLACK else WHITE) w)
  end.

(** [main.cpp:947-955].  [usPixels] is the line [png.getLineAsRGB565]
    delivered; the loop runs while [i < pDraw->iWidth && i < paint.GetWidth()]. *)
Definition PNGDraw (pDraw : PNGDRAW) (usPixels : list Z) (w : World) : World :=
  PNGDraw_from (Z.to_nat (Z.min (iWidth pDraw) (GetWidth (paint w)))) 0
               pDraw usPixels w.

(** ** The snapshot encoder *)

(** [main.cpp:1167] *)
Definition outfile : string := "/generated-qr-code.bmp".

(** [static_cast<uint8_t>(v >> k)] *)
Definition byte_of (v k : Z) : Z := u8 (Z.shiftr v k).

(** [main.cpp:1178-1185] *)
Definition bmpfileheader (filesize : Z) : list Z :=
  [66; 77; byte_of filesize 0; byte_of filesize 8; byte_of filesize 16;
   byte_of filesize 24; 0; 0; 0; 0; 54; 0; 0; 0].

(** [main.cpp:1179-1194] *)
Definition bmpinfoheader (convert_width convert_height : Z) : list Z :=
  [40; 0; 0; 0;
   byte_of convert_width 0; byte_of convert_width 8;
   byte_of convert_width 16; byte_of convert_width 24;
   byte_of convert_height 0; byte_of convert_height 8;
   byte_of convert_height 16; byte_of convert_height 24;
   1; 0; 24; 0] ++ replicate 24 0.

(** [main.cpp:1205], the gray level of one pixel: [/] and [%] are the C
    operators. *)
Definition snapshot_rgb (imageData : list Z) (convert_width row col : Z) : Z :=
  if Z.land (at_index imageData (Z.quot (row * convert_width + col) 8))
            (Z.shiftr 128 (Z.rem col 8)) =? 0
  then 0 else 255.

(** [main.cpp:1203-1210]: [rect] is rewritten in full for every row; the
    model builds its bytes in column order, [n] more columns from [col]. *)
Fixpoint snapshot_rect (n : nat) (imageData : list Z) (convert_width row col : Z)
    : list Z :=
  match n with
  | O => []
  | S n' =>
      let rgb := snapshot_rgb imageData convert_width row col in
      rgb :: rgb :: rgb :: snapshot_rect n' imageData convert_width row (col + 1)
  end.

(** [main.cpp:1212-1216], the bytes written after a row. *)
Definition snapshot_padding (convert_width : Z) : list Z :=
  if Z.rem convert_width 4 =? 0 then []
  else take (Z.to_nat (4 - Z.rem convert_width 4)) [0; 0; 0].

(** The bytes one iteration of the row loop writes. *)
Definition snapshot_row (imageData : list Z) (convert_width row : Z) : list Z :=
  snapshot_rect (Z.to_nat convert_width) imageData convert_width row 0
  ++ snapshot_padding convert_width.

(** [main.cpp:1201-1217], [for (row = convert_height - 1; row >= 0; --row)],
    [n] more iterations from [row]. *)
Fixpoint snapshot_rows (n : nat) (imageData : list Z) (convert_width row : Z)
    : list Z :=
  match n with
  | O => []
  | S n' =>
      snapshot_row imageData convert_width row
      ++ snapshot_rows n' imageData convert_width (row - 1)
  end.

(** The bytes of the file [snapshot] writes. *)
Definition snapshot_bytes (snapshotPaint : Paint) : list Z :=
  let convert_width := GetWidth snapshotPaint in
  let convert_height := GetHeight snapshotPaint in
  let filesize := i32 (14 + 40 + 3 * convert_width * convert_height) in
  bmpfileheader filesize
  ++ bmpinfoheader convert_width convert_height
  ++ snapshot_rows (Z.to_nat convert_height) (GetImage snapshotPaint)
                   convert_width (convert_height - 1).

(** [main.cpp:1165-1219], with the file opened for writing successfully. *)
Definition snapshot (snapshotPaint : Paint) (w : World) : World :=
  mkWorld (paint w) (<[outfile := snapshot_bytes snapshotPaint]> (files w))
          (epdState w) (currentImage w)
          (trace w ++ [EvOpen outfile; EvClose]).

(** ** Codec selection *)

(** [String::endsWith] of the Arduino core: the tail of the same length is
    compared byte for byte. *)
Definition endsWith (s suffix : string) : bool :=
  let n := String.length s in
  let m := String.length suffix in
  if (n <? m)%nat then false
  else String.eqb (substring (n - m) m s) suffix.

Definition epd (c : EpdCall) (w : World) : World := log (EvEpd c) w.

Definition set_epdState (s : string) (w : World) : World :=
  mkWorld (paint w) (files w) s (currentImage w) (trace w).
Definition set_currentImage (s : string) (w : World) : World :=
  mkWorld (paint w) (files w) (epdState w) s (trace w).

(** [main.cpp:969-971] and [main.cpp:986-988] *)
Definition prepare_paint (w : World) : World :=
  with_paint (Clear WHITE (SetHeight image_height (SetWidth image_width (paint w)))) w.

Section Dispatch.

(** The compressed-image library: [png.open] followed by [png.decode] on a
    file either fails or calls [PNGDraw] once per scanline with the line it
    decoded.  Its callbacks into the file system are [myOpen] and [myClose]
    ([main.cpp:929-937]): [png.open] opens the file through [myOpen] whether
    or not it then finds an image in it, and [png.close] closes it through
    [myClose]. *)
Variable png_lines : string -> gmap string (list Z) -> option (list (PNGDRAW * list Z)).

Definition png_decode (lines : list (PNGDRAW * list Z)) (w : World) : World :=
  foldl (fun w l => PNGDraw l.1 l.2 w) w lines.

(** [main.cpp:960-978], the branch of the compressed-image codec.  The
    open is attempted in every case; [png.close] is called only after a
    successful [png.open]. *)
Definition display_png (filename : string) (w : World) : option World :=
  let w0 := log (EvOpen filename) w in
  match png_lines filename (files w) with
  | Some lines =>
      let w1 := epd EpdClear (epd LDirInit (set_epdState "active" w0)) in
      let w2 := prepare_paint w1 in
      let w3 := log EvClose (png_decode lines w2) in
      let w4 := epd WaitUntilIdle w3 in
      Some (epd (DisplayPart (GetImage (paint w4))) w4)
  | None => Some w0
  end.

(** [main.cpp:980-993], the branch of the bitmap codec. *)
Definition display_bmp (filename : string) (w : World) : option World :=
  let w1 := epd EpdClear (epd LDirInit (set_epdState "active" w)) in
  let w2 := prepare_paint w1 in
  match bmpDraw filename 0 0 w2 with
  | Some w3 =>
      Some (set_currentImage filename (epd (DisplayPart (GetImage (paint w3))) w3))
  | None => None
  end.

(** [main.cpp:958-995], the build with the compressed-image codec
    (not [ESP8266]). *)
Definition display_image (filename : string) (w : World) : option World :=
  if endsWith filename ".png" then display_png filename w
  else if endsWith filename ".bmp" || endsWith filename ".BMP" then display_bmp filename w
  else Some w.

End Dispatch.

(** ** Uploads and the routes of the web server *)

(** What a handler sends back: [request->send(code, type, content)] or
    [request->redirect(url)]. *)
Inductive Response :=
| Send (code : Z) (contentType content : string)
| Redirect (url : string).

(** The part of an [AsyncWebServerRequest] the handlers use: the path of
    the file behind [_tempFile] while it is open, and the responses sent. *)
Record Request := mkRequest {
  tempFile : option string;
  responses : list Response
}.

(** The world together with the name the static [loadTicker] of
    [handleUpload] is set to call [display_image] with. *)
Record Server := mkServer {
  world : World;
  loadTicker : option string
}.

Definition with_files (fs : gmap string (list Z)) (w : World) : World :=
  mkWorld (paint w) fs (epdState w) (currentImage w) (trace w).

(** [LittleFS.open(path, "w")], opened successfully: the file is created
    or truncated. *)
Definition fs_open_w (path : string) (w : World) : World :=
  log (EvOpen path) (with_files (<[path := []]> (files w)) w).

(** [file.write(data, len)] on a handle: the bytes are appended; a handle
    that is not open writes nothing. *)
Definition fs_write (handle : option string) (data : list Z) (w : World) : World :=
  match handle with
  | Some path => with_files (alter (fun c => c ++ data) path (files w)) w
  | None => w
  end.

(** [file.close()] *)
Definition fs_close (handle : option string) (w : World) : World :=
  match handle with
  | Some _ => log EvClose w
  | None => w
  end.

(** [main.cpp:996-1036]; [len] is the length of [data]. *)
Definition handleUpload (filename : string) (index : Z) (data : list Z)
    (final : bool) (st : Server * Request) : Server * Request :=
  let s := st.1 in
  let request := st.2 in
  let opened := index =? 0 in
  let w1 := if opened then fs_open_w ("/" +:+ filename) (world s) else world s in
  let file := if opened then Some ("/" +:+ filename) else tempFile request in
  let w2 := if Z.of_nat (length data) =? 0 then w1 else fs_write file data w1 in
  if final then
    let w3 := fs_close file w2 in
    let w4 := set_epdState "displaying image" (set_currentImage filename w3) in
    (mkServer w4 (Some filename),
     mkRequest None (responses request ++ [Redirect "/"]))
  else
    (mkServer w2 (loadTicker s), mkRequest file (responses request)).

Section Routes.

Variable png_lines : string -> gmap string (list Z) -> option (list (PNGDRAW * list Z)).

(** [main.cpp:648-665], the handler of [/display]; [param] is the value of
    the [file] parameter when the request has one. *)
Definition route_display (param : option string) (w : World)
    : option (World * list Response) :=
  match param with
  | Some name =>
      if bool_decide (is_Some (files w !! name)) then
        let w1 := set_epdState "displaying image" (set_currentImage name w) in
        w2 ← display_image png_lines name w1;
        Some (w2, [Send 200 "text/plain" ("Loaded image file: " +:+ name)])
      else
        Some (w, [Send 404 "text/plain" ("Image file " +:+ name +:+ " not found")])
  | None => Some (w, [])
  end.

(** [main.cpp:617-624], the handler of [/delete]; without the parameter
    the reply dereferences a null pointer, which has no defined result. *)
Definition route_delete (param : option string) (w : World)
    : option (World * list Response) :=
  match param with
  | Some name =>
      Some (with_files (delete name (files w)) w,
            [Send 200 "text/plain" ("Deleted File: " +:+ name)])
  | None => None
  end.

End Routes.

(** ** Status messages *)

(** The fields of [sFONT] ([epd/fonts.h]). *)
Record sFONT := mkFont {
  Width : Z;
  Height : Z
}.

(** One call [paint.DrawStringAt(x, y, text, &font, colored)]. *)
Record DrawString := mkDrawString {
  ds_x : Z;
  ds_y : Z;
  ds_text : string;
  ds_font : sFONT;
  ds_colored : Z
}.

Section Status.

Variables Font24 Font16 : sFONT.

(** [main.cpp:428-450], the overloads that take an offset and a font: the
    calls of [DrawStringAt] they make for [item] and the further messages
    [args], in order. *)
Fixpoint display_status_message_at (offset : Z) (font : sFONT) (item : string)
    (args : list string) : list DrawString :=
  mkDrawString 0 offset item font BLACK ::
  match args with
  | [] => []
  | a :: rest =>
      display_status_message_at (i32 (offset + Height font)) Font16 a rest
  end.

End Status.

(** ** The geometry of the generated code *)

(** One call [paint.DrawFilledRectangle(x0, y0, x1, y1, colored)]. *)
Record FilledRectangle := mkRect {
  rx0 : Z;
  ry0 : Z;
  rx1 : Z;
  ry1 : Z;
  rcolored : Z
}.

Section QrCode.

(** The panel size of the driver ([epd.width], [epd.height]), the global
    [qr_code_scale], and the code the library generated: [qrcode.size] and
    [qrcode_getModule]. *)
Variables (epd_width epd_height : Z) (qr_code_scale : bool).
Variables (qr_size : Z) (qr_module : Z -> Z -> bool).

(** [main.cpp:1122], the code is not larger than the panel. *)
Definition qr_fits : bool :=
  negb ((epd_height <? qr_size) || (epd_width <? qr_size)).

(** [main.cpp:1128] *)
Definition blockSize : Z :=
  u16 (if qr_code_scale
       then Z.quot (i32 (Z.min epd_height epd_width)) qr_size
       else 1).

(** [main.cpp:1134-1136] *)
Definition qr_paint (p : Paint) : Paint :=
  Clear WHITE (SetWidth epd_height (SetHeight epd_width p)).

(** [main.cpp:1137-1138] *)
Definition display_x (p : Paint) : Z :=
  u16 (Z.quot (i32 (GetWidth p - qr_size * blockSize)) 2).
Definition display_y (p : Paint) : Z :=
  u16 (Z.quot (i32 (GetHeight p - qr_size * blockSize)) 2).

(** [main.cpp:1144-1145] *)
Definition rect_x (p : Paint) (x : Z) : Z := u16 (display_x p + x * blockSize).
Definition rect_y (p : Paint) (y : Z) : Z := u16 (display_y p + y * blockSize).

(** [main.cpp:1139-1149], the rectangles drawn, in loop order. *)
Definition qr_rectangles (p : Paint) : list FilledRectangle :=
  x ← seqZ 0 qr_size;
  y ← seqZ 0 qr_size;
  [mkRect (rect_x p x) (rect_y p y)
          (rect_x p x + blockSize - 1) (rect_y p y + blockSize - 1)
          (if qr_module x y then BLACK else WHITE)].

End QrCode.

(** ** The credentials of the configuration access point *)

(** The character codes of a string literal. *)
Definition codes (s : string) : list Z :=
  (fun a => Z.of_nat (nat_of_ascii a)) <$> list_ascii_of_string s.

(** [strcpy(dst, src)]: the characters and the terminating 0. *)
Definition strcpy (dst src : list Z) : list Z :=
  foldl (fun b kv => set_index b (Z.of_nat kv.1) kv.2) dst
        (imap (fun k v => (k, v)) (src ++ [0])).

(** The string a [char] buffer holds: the characters before the first 0. *)
Fixpoint c_str (buf : list Z) : list Z :=
  match buf with
  | [] => []
  | v :: rest => if v =? 0 then [] else v :: c_str rest
  end.

(** [main.cpp:154], [static char password[64] = "PassWord348"] *)
Definition password_init : list Z := codes "PassWord348" ++ replicate 53 0.

Section Credentials.

(** The value of the [k]-th call of [esp_random()]. *)
Variable esp_random : nat -> Z.

(** [esp_random() % 10 + '0'], stored in a [char] ([ESP32]). *)
Definition random_digit (k : nat) : Z := u8 (u32 (u32 (esp_random k) mod 10 + 48)).

(** [for (int i = 0; i < n; ++i) buf[i + base] = esp_random() % 10 + '0'],
    [n] more iterations from [i], the next call of [esp_random] being the
    [call]-th. *)
Fixpoint fill_random (n : nat) (i base : Z) (call : nat) (buf : list Z) : list Z :=
  match n with
  | O => buf
  | S n' =>
      fill_random n' (i + 1) base (S call)
                  (set_index buf (i + base) (random_digit call))
  end.

(** [main.cpp:565-576], the buffer [ssid] ([ESP32]). *)
Definition setup_ssid : list Z :=
  set_index (fill_random 3 0 9 0 (strcpy (replicate 64 0) (codes "ImageLoad")))
            (3 + 9) 0.

(** [main.cpp:577-585], the buffer [password] ([ESP32]). *)
Definition setup_password : list Z :=
  set_index (fill_random 8 0 0 3 password_init) 8 0.

End Credentials.


(** * Notions used in the statements *)

(** ** Pixel writes and traces *)

(** The colour [pushColours] passes to [DrawPixel] for a buffered value. *)
Definition colour_of (v : Z) : Z := if v =? 0 then BLACK else WHITE.

(** The events of one call of [pushColours]. *)
Definition pushed (idx n row col : Z) (lcd : list Z) : list Event :=
  (fun i => EvDraw row (col + i) (colour_of (at_index lcd i))) <$> seqZ idx n.

(** Replaying pixel writes on a framebuffer. *)
Definition apply_draws (l : list (Z * Z * Z)) (p : Paint) : Paint :=
  foldl (fun p d => DrawPixel d.1.1 d.1.2 d.2 p) p l.

(** The coordinates of the pixel writes of a trace, in order. *)
Definition draw_coords (t : list Event) : list (Z * Z) :=
  (fun d => (d.1.1, d.1.2)) <$> draws t.

(** The columns [col - n .. col - 1] of scanline [row]. *)
Definition pending (row col n : Z) : list (Z * Z) :=
  (fun j => (row, j)) <$> seqZ (col - n) n.

(** The coordinates of scanlines [row .. row + n - 1], [w] columns each, in
    the order the decoder visits them. *)
Definition grid (row n w : Z) : list (Z * Z) :=
  r ← seqZ row n; (fun c => (r, c)) <$> seqZ 0 w.

(** The colour [PNGDraw] passes to [DrawPixel] for a decoded value. *)
Definition png_colour (v : Z) : Z := if v =? 0 then WHITE else BLACK.

(** The pixel writes of one call of [PNGDraw], [n] columns from [i]. *)
Definition png_writes (i n y : Z) (usPixels : list Z) : list (Z * Z * Z) :=
  (fun j => (j, y, png_colour (at_index usPixels j))) <$> seqZ i n.

(** ** Pixels of a framebuffer *)

(** (x, y) lies inside the logical region. *)
Definition in_bounds (p : Paint) (x y : Z) : Prop :=
  0 <= x < width p /\ 0 <= y < height p.

(** The invariant of section 3: the logical region fits the backing store. *)
Definition fits (p : Paint) : Prop :=
  0 <= width p /\ 0 <= height p /\
  width p * height p <= 8 * Z.of_nat (length (image p)).

(** The part of the framebuffer the cropped image covers: scanline [r] goes
    to the first coordinate, column [c] to the second. *)
Definition clip_region (h : BmpHeader) (x y : Z) (p : Paint) (px py : Z) : Prop :=
  0 <= px < crop_h h y p /\ 0 <= py < crop_w h x p.

(** ** Invariants of the decode loops *)

(** The relation between the indices that every iteration maintains. *)
Definition shape_ok (d : Decoder) : Prop :=
  0 <= lcdidx d /\ 3 * lcdidx d <= buffidx d /\ buffidx d <= 60 /\
  buffidx d mod 3 = 0.

(** [d'] is reached from [d] by effects [evs], and the framebuffer of [d']
    is that of [d] with the pixel writes among [evs] applied in order. *)
Definition replays (d d' : Decoder) : Prop :=
  exists evs, d_trace d' = d_trace d ++ evs /\
              d_paint d' = apply_draws (draws evs) (d_paint d).

(** The value [bmpDraw] buffers for the pixel stored at offset [q]: blue,
    green and red follow each other in the file. *)
Definition file_pixel (bytes : list Z) (q : Z) : Z :=
  pack_colour (at_index bytes (q + 2)) (at_index bytes (q + 1)) (at_index bytes q).

(** The pixel writes of scanline [row] when its [w] pixels are those stored
    from offset [q]. *)
Definition row_draws (bytes : list Z) (row q w : Z) : list (Z * Z * Z) :=
  (fun c => (row, c, colour_of (file_pixel bytes (q + 3 * c)))) <$> seqZ 0 w.

(** The state of the decoder before column [col] of a scanline whose pixels
    are read from offset [q]; [old] are the pixel writes made before the
    scanline. *)
Definition col_inv (bytes : list Z) (row q col : Z) (old : list (Z * Z * Z))
    (d : Decoder) : Prop :=
  content (bmpFile d) = bytes /\
  length (sdbuffer d) = 60%nat /\
  length (lcdbuffer d) = 20%nat /\
  0 <= lcdidx d <= col /\
  (col - lcdidx d) mod 20 = 0 /\
  (0 < col -> 0 < lcdidx d) /\
  (buffidx d = 3 * lcdidx d \/ (col = 0 /\ lcdidx d = 0 /\ buffidx d = 60)) /\
  buffidx d <= 60 /\
  position (bmpFile d) =
    Z.min (Z.of_nat (length bytes)) (q + 3 * col + (60 - buffidx d)) /\
  (forall i, 0 <= i -> buffidx d + i < 60 ->
             q + 3 * col + i < Z.of_nat (length bytes) ->
             at_index (sdbuffer d) (buffidx d + i) = at_index bytes (q + 3 * col + i)) /\
  (forall i, 0 <= i < lcdidx d ->
             at_index (lcdbuffer d) i = file_pixel bytes (q + 3 * (col - lcdidx d + i))) /\
  draws (d_trace d) = old ++ row_draws bytes row q (col - lcdidx d).

(** The state of the decoder between two scanlines. *)
Definition row_ready (bytes : list Z) (d : Decoder) : Prop :=
  content (bmpFile d) = bytes /\
  length (sdbuffer d) = 60%nat /\
  length (lcdbuffer d) = 20%nat /\
  lcdidx d = 0 /\
  shape_ok d.

(** The number of bytes the chunk reads of a scanline of [w] pixels ask
    for. *)
Definition chunk_bytes (w : Z) : Z := 60 * ((w - 1) / 20 + 1).

(** The pixel writes of the scanlines [row .. row + n - 1], each read from
    its own offset. *)
Definition decode_draws (bytes : list Z) (h : BmpHeader) (row n w : Z)
    : list (Z * Z * Z) :=
  r ← seqZ row n; row_draws bytes r (row_pos h r) w.

(** The pixels of the scanlines [row .. row + n - 1] are in the file. *)
Definition rows_ok (bytes : list Z) (h : BmpHeader) (w row n : Z) : Prop :=
  forall r, row <= r < row + n ->
    0 <= row_pos h r /\ row_pos h r + 3 * w <= Z.of_nat (length bytes).

(** Every scanline after [row] starts with a buffer reload: the buffer is
    used up, or the file position differs from the scanline's offset. *)
Definition reloads (bytes : list Z) (h : BmpHeader) (w row n : Z) : Prop :=
  forall r, row < r < row + n ->
    w mod 20 = 0 \/
    Z.min (Z.of_nat (length bytes)) (row_pos h (r - 1) + chunk_bytes w) <> row_pos h r.

(** ** Well-formed input *)

(** The little-endian header field of [n] bytes at offset [q]. *)
Definition field (bytes : list Z) (q n : Z) : Z :=
  le_value (file_peek n (mkFile bytes q)).

(** A file that holds every scanline the header announces, with sizes in
    the range of the C++ types. *)
Definition well_formed (bytes : list Z) (h : BmpHeader) : Prop :=
  0 < bmpWidth h /\ bmpWidth h * 3 + 3 < 2147483648 /\
  -2147483648 < bmpHeight h < 2147483648 /\
  0 <= bmpImageoffset h /\
  bmpImageoffset h + Z.abs (bmpHeight h) * rowSize (bmpWidth h)
    <= Z.of_nat (length bytes) /\
  Z.of_nat (length bytes) < 4294967296.

(** The offsets lie inside a framebuffer whose dimensions are [int]s. *)
Definition offsets_ok (x y : Z) (p : Paint) : Prop :=
  0 <= x < GetWidth p /\ GetWidth p < 2147483648 /\
  0 <= y < GetHeight p /\ GetHeight p < 2147483648.

(** No scanline inherits bytes from the one before it: the file is
    bottom-up, or the cropped width is a whole number of buffers, or the
    row stride differs from the bytes a scanline reads. *)
Definition no_stale_buffer (h : BmpHeader) (w : Z) : Prop :=
  flip h = true \/ w mod 20 = 0 \/ rowSize (bmpWidth h) <> chunk_bytes w.

(** The row addressing as the specification words it: bottom-up when the
    header height is positive, top-down when it is negative. *)
Definition scanline_offset (h : BmpHeader) (r : Z) : Z :=
  let row_bytes := (bmpWidth h * 3 + 3) / 4 * 4 in
  if 0 <? bmpHeight h
  then bmpImageoffset h + (bmpHeight h - 1 - r) * row_bytes
  else bmpImageoffset h + r * row_bytes.

(** ** The reference decode

    The decoder of the seek-avoidance property as the specification words
    it: the same loops, except that every scanline starts with a seek to
    its offset (which forces the buffer to be reloaded), whatever the file
    position is. *)

Definition seek_always (pos : Z) (d : Decoder) : Decoder :=
  mkDecoder (file_seek pos (bmpFile d)) (sdbuffer d) (lcdbuffer d)
            sizeof_sdbuffer (lcdidx d) (d_paint d)
            (d_trace d ++ [EvSeek pos]).

Definition ref_row_body (h : BmpHeader) (w : Z) (row : Z) (d : Decoder) : Decoder :=
  let d1 := seek_always (row_pos h row) d in
  let '(col, d2) := col_loop (Z.to_nat w) row 0 d1 in
  flush row col d2.

Fixpoint ref_row_loop (n : nat) (h : BmpHeader) (w : Z) (row : Z) (d : Decoder)
    : Decoder :=
  match n with
  | O => d
  | S n' => ref_row_loop n' h w (row + 1) (ref_row_body h w row d)
  end.

Definition ref_decode (h : BmpHeader) (x y : Z) (d : Decoder) : Decoder :=
  let w := crop_w h x (d_paint d) in
  let hh := crop_h h y (d_paint d) in
  ref_row_loop (Z.to_nat hh) h w 0 d.

Definition ref_bmpDraw (filename : string) (x y : Z) (w : World) : option World :=
  if (GetWidth (paint w) <=? x) || (GetHeight (paint w) <=? y) then Some w
  else
    let w1 := log (EvOpen filename) w in
    match files w !! filename with
    | None => Some w1
    | Some bytes =>
        match parse_header (mkFile bytes 0) with
        | None => None
        | Some (None, f) => Some (finish (start_decoder f w1) w1)
        | Some (Some h, f) => Some (finish (ref_decode h x y (start_decoder f w1)) w1)
        end
    end.

(** ** File names *)

(** [s] ends with [t]. *)
Definition has_suffix (s t : string) : Prop := exists p, s = p +:+ t.

(** Lower case of the letters A-Z. *)
Definition lower_ascii (a : ascii) : ascii :=
  let n := nat_of_ascii a in
  if (65 <=? n)%nat && (n <=? 90)%nat then ascii_of_nat (n + 32) else a.

Fixpoint lower_string (s : string) : string :=
  match s with
  | EmptyString => EmptyString
  | String a s' => String (lower_ascii a) (lower_string s')
  end.

(** ** Sample files *)

(** The framebuffer as [main.cpp:141-142] sets it up, all white, and a world
    around it with the given files. *)
Definition white_paint : Paint := mkPaint (replicate 5000 255) 200 200.

Definition world_of (p : Paint) (fs : gmap string (list Z)) : World :=
  mkWorld p fs "Powered" "<none>" [].

(** [n] bytes of [v], least significant first. *)
Definition le_bytes (n : nat) (v : Z) : list Z :=
  (fun k => byte_of v (8 * Z.of_nat k)) <$> seq 0 n.

(** A 54-byte bitmap header with the given fields. *)
Definition bmp_header (filesize offset w h planes depth compression : Z) : list Z :=
  [66; 77] ++ le_bytes 4 filesize ++ le_bytes 4 0 ++ le_bytes 4 offset
  ++ le_bytes 4 40 ++ le_bytes 4 w ++ le_bytes 4 h
  ++ le_bytes 2 planes ++ le_bytes 2 depth ++ le_bytes 4 compression
  ++ replicate 20 0.

(** One black pixel, with a depth field of 280 = 0x0118. *)
Definition depth280_bmp : list Z :=
  bmp_header 58 54 1 1 1 280 0 ++ [0; 0; 0; 0].

(** Two all-white scanlines of 19 pixels stored top-down (height -2); each
    row is 57 pixel bytes and 3 padding bytes of 0. *)
Definition topdown19_bmp : list Z :=
  bmp_header 174 54 19 (-2) 1 24 0
  ++ replicate 57 255 ++ [0; 0; 0] ++ replicate 57 255 ++ [0; 0; 0].

(** An 8 by 8 framebuffer, white except for the pixel (1, 0). *)
Definition small_paint : Paint :=
  DrawPixel 1 0 BLACK (mkPaint (replicate 5000 255) 8 8).

(** A fresh 8 by 8 framebuffer. *)
Definition small_fresh : Paint := mkPaint (replicate 5000 255) 8 8.

(** The world after [snapshot] of [small_paint], with a fresh framebuffer
    in place for decoding the file again. *)
Definition small_world : World :=
  with_paint small_fresh (snapshot small_paint (world_of small_paint ∅)).

(** A 16 by 16 picture on file and an 8 by 8 framebuffer to decode it
    into. *)
Definition large_world : World :=
  with_paint small_fresh
    (snapshot (mkPaint (replicate 5000 170) 16 16) (world_of small_fresh ∅)).

(** A world with the sample files. *)
Definition sample_world : World :=
  world_of white_paint
    {[ "/depth280.bmp" := depth280_bmp; "/topdown19.bmp" := topdown19_bmp;
       "/photo.Bmp" := snapshot_bytes small_paint;
       "/photo.BMP" := snapshot_bytes small_paint ]}.

(** A compressed-image library that fails on every file. *)
Definition no_png : string -> gmap string (list Z) -> option (list (PNGDRAW * list Z)) :=
  fun _ _ => None.

(** ** Notions used in the further properties *)

(** Every element is a byte. *)
Definition all_bytes (bytes : list Z) : Prop :=
  Forall (fun v => 0 <= v < 256) bytes.

(** The three bytes of the pixel stored at offset [q] are all zero. *)
Definition black_triple (bytes : list Z) (q : Z) : bool :=
  (at_index bytes q =? 0) && (at_index bytes (q + 1) =? 0)
  && (at_index bytes (q + 2) =? 0).

(** The colour shown for the pixel stored at offset [q]. *)
Definition shown_colour (bytes : list Z) (q : Z) : Z :=
  if black_triple bytes q then BLACK else WHITE.

(** The part of a picture that fits the panel when drawn at the origin. *)
Definition shown_w (h : BmpHeader) : Z := Z.min (bmpWidth h) image_width.
Definition shown_h (h : BmpHeader) : Z := Z.min (Z.abs (bmpHeight h)) image_height.

(** The backing store holds a full panel. *)
Definition holds_panel (p : Paint) : Prop :=
  image_width * image_height <= 8 * Z.of_nat (length (image p)).

(** The bytes one row of a snapshot takes in the file: the pixels and the
    padding written after them ([main.cpp:1211-1216]). *)
Definition snapshot_stride (convert_width : Z) : Z :=
  3 * convert_width
  + (if Z.rem convert_width 4 =? 0 then 0 else 4 - Z.rem convert_width 4).

(** The calls the server library makes for one uploaded file: one call of
    [handleUpload] for each chunk, in order, [index] counting the bytes
    delivered before the chunk and [final] set on the last one. *)
Fixpoint upload_from (filename : string) (index : Z) (chunks : list (list Z))
    (st : Server * Request) : Server * Request :=
  match chunks with
  | [] => st
  | [c] => handleUpload filename index c true st
  | c :: rest =>
      upload_from filename (index + Z.of_nat (length c)) rest
                  (handleUpload filename index c false st)
  end.

(** An upload on a fresh request. *)
Definition upload (filename : string) (chunks : list (list Z)) (s : Server)
    : Server * Request :=
  upload_from filename 0 chunks (s, mkRequest None []).

(** What an upload in progress has stored after [index] bytes. *)
Definition upload_inv (filename : string) (index : Z) (acc : list Z)
    (st : Server * Request) : Prop :=
  index = Z.of_nat (length acc) /\
  (index <> 0 ->
   tempFile st.2 = Some ("/" +:+ filename) /\
   files (world st.1) !! ("/" +:+ filename) = Some acc).

(** The colour of the pixel [(px, py)] after the scanlines [lines] were
    drawn over the colour [c]: the last line that covers the pixel
    decides. *)
Definition png_pixel_over (c : Z) (lines : list (PNGDRAW * list Z)) (px py : Z) : Z :=
  foldl (fun c l =>
           if (py =? png_y l.1) && (px <? iWidth l.1)
           then png_colour (at_index l.2 px) else c)
        c lines.



(** ** More sample inputs *)

(** One pixel behind a header that announces 16 bits per pixel. *)
Definition depth16_bmp : list Z :=
  bmp_header 58 54 1 1 1 16 0 ++ [0; 0; 0; 0].

(** A world that holds that file. *)
Definition depth16_world : World :=
  world_of white_paint {[ "/depth16.bmp" := depth16_bmp ]}.

(** A compressed-image library that delivers one scanline of two pixels,
    the values 0 and 5, for every file. *)
Definition one_line_png
    : string -> gmap string (list Z) -> option (list (PNGDRAW * list Z)) :=
  fun _ _ => Some [(mkPNGDRAW 2 0, [0; 5])].

(** A two-chunk upload. *)
Definition sample_chunks : list (list Z) := [[66; 77; 58]; [0; 0]].

(** Fonts of 24 and 16 lines. *)
Definition sample_Font24 : sFONT := mkFont 17 24.
Definition sample_Font16 : sFONT := mkFont 11 16.

(** * Proofs *)

(** ** Traces *)

Lemma draws_app (t1 t2 : list Event) : draws (t1 ++ t2) = draws t1 ++ draws t2.
Proof. apply omap_app. Qed.

Lemma seeks_app (t1 t2 : list Event) : seeks (t1 ++ t2) = seeks t1 ++ seeks t2.
Proof. apply omap_app. Qed.

Lemma apply_draws_app l1 l2 p :
  apply_draws (l1 ++ l2) p = apply_draws l2 (apply_draws l1 p).
Proof. apply foldl_app. Qed.

Lemma pushColours_from_spec n idx row col lcd d :
  pushColours_from n idx row col lcd d =
  mkDecoder (bmpFile d) (sdbuffer d) (lcdbuffer d) (buffidx d) (lcdidx d)
            (apply_draws (draws (pushed idx (Z.of_nat n) row col lcd)) (d_paint d))
            (d_trace d ++ pushed idx (Z.of_nat n) row col lcd).
Proof.
  revert idx d. induction n as [|n IH]; intros idx d.
  - unfold pushed. rewrite seqZ_nil by lia. simpl. rewrite app_nil_r. by destruct d.
  - cbn [pushColours_from]. rewrite IH. unfold pushed.
    rewrite (seqZ_cons idx (Z.of_nat (S n))) by lia.
    replace (Z.pred (Z.of_nat (S n))) with (Z.of_nat n) by lia.
    replace (Z.succ idx) with (idx + 1) by lia.
    cbn [draw bmpFile sdbuffer lcdbuffer buffidx lcdidx d_paint d_trace fmap list_fmap].
    rewrite <- app_assoc. f_equal.
Qed.

(** ** The shape of the decode loops

    Which coordinates are written, and in which order, does not depend on
    the bytes of the file. *)

Lemma draw_coords_app t1 t2 : draw_coords (t1 ++ t2) = draw_coords t1 ++ draw_coords t2.
Proof. unfold draw_coords. by rewrite draws_app, fmap_app. Qed.

Lemma draws_pushed idx n row col lcd :
  draws (pushed idx n row col lcd) =
  (fun i => (row, col + i, colour_of (at_index lcd i))) <$> seqZ idx n.
Proof.
  unfold pushed, draws. induction (seqZ idx n) as [|a l IH]; [done|].
  cbn. by rewrite IH.
Qed.

Lemma draw_coords_pushed n row col lcd :
  draw_coords (pushed 0 n row (col - n) lcd) = pending row col n.
Proof.
  unfold draw_coords, pending. rewrite draws_pushed, <- list_fmap_compose.
  replace (seqZ (col - n) n) with (Z.add (col - n) <$> seqZ 0 n)
    by (rewrite fmap_add_seqZ; f_equal; lia).
  rewrite <- list_fmap_compose. done.
Qed.

Lemma pending_snoc row col n :
  0 <= n -> pending row (col + 1) (n + 1) = pending row col n ++ [(row, col)].
Proof.
  intros Hn. unfold pending.
  replace (col + 1 - (n + 1)) with (col - n) by lia.
  rewrite seqZ_app by lia. rewrite fmap_app. f_equal.
  rewrite seqZ_cons by lia. rewrite seqZ_nil by lia. cbn. do 2 f_equal. lia.
Qed.

Ltac u8_small :=
  unfold u8;
  repeat match goal with
         | |- context [?a mod 256] => rewrite (Z.mod_small a 256) by lia
         end.

Lemma col_body_keep row col d :
  shape_ok d -> buffidx d < 60 ->
  col_body row col d =
  mkDecoder (bmpFile d) (sdbuffer d)
    (set_index (lcdbuffer d) (lcdidx d)
       (pack_colour (at_index (sdbuffer d) (buffidx d + 2))
                    (at_index (sdbuffer d) (buffidx d + 1))
                    (at_index (sdbuffer d) (buffidx d))))
    (buffidx d + 3) (lcdidx d + 1) (d_paint d) (d_trace d).
Proof.
  intros (H1 & H2 & H3 & H4) Hlt. unfold col_body, sizeof_sdbuffer, BUFFPIXEL.
  destruct (Z.leb_spec (3 * 20) (buffidx d)); [lia|].
  u8_small.
  replace (buffidx d + 1 + 1 + 1) with (buffidx d + 3) by lia.
  replace (buffidx d + 1 + 1) with (buffidx d + 2) by lia. done.
Qed.

Lemma col_body_reload row col d :
  shape_ok d -> 60 <= buffidx d ->
  let d0 := flush row col d in
  let d1 := reload d0 in
  col_body row col d =
  mkDecoder (bmpFile d1) (sdbuffer d1)
    (set_index (lcdbuffer d) 0
       (pack_colour (at_index (sdbuffer d1) 2)
                    (at_index (sdbuffer d1) 1)
                    (at_index (sdbuffer d1) 0)))
    3 1 (d_paint d0) (d_trace d0).
Proof.
  intros (H1 & H2 & H3 & H4) Hge. unfold col_body, flush, sizeof_sdbuffer, BUFFPIXEL.
  destruct (Z.leb_spec (3 * 20) (buffidx d)); [|lia].
  destruct (Z.ltb_spec 0 (lcdidx d)) as [Hl|Hl].
  - unfold pushColours. rewrite pushColours_from_spec. cbn. done.
  - cbn. replace (lcdidx d) with 0 by lia. done.
Qed.

Lemma flush_spec row col d :
  0 <= lcdidx d ->
  flush row col d =
  mkDecoder (bmpFile d) (sdbuffer d) (lcdbuffer d) (buffidx d) 0
    (apply_draws (draws (pushed 0 (lcdidx d) row (col - lcdidx d) (lcdbuffer d)))
                 (d_paint d))
    (d_trace d ++ pushed 0 (lcdidx d) row (col - lcdidx d) (lcdbuffer d)).
Proof.
  intros Hl. unfold flush. destruct (Z.ltb_spec 0 (lcdidx d)) as [H|H].
  - unfold pushColours. rewrite pushColours_from_spec. cbn.
    by rewrite Z2Nat.id by lia.
  - replace (lcdidx d) with 0 by lia. unfold pushed. rewrite seqZ_nil by lia.
    cbn. rewrite app_nil_r. destruct d; cbn in *. f_equal. lia.
Qed.

Lemma col_body_coords row col d :
  shape_ok d ->
  shape_ok (col_body row col d) /\
  draw_coords (d_trace (col_body row col d))
    ++ pending row (col + 1) (lcdidx (col_body row col d)) =
  draw_coords (d_trace d) ++ pending row col (lcdidx d) ++ [(row, col)].
Proof.
  intros Hs. pose proof Hs as (H1 & H2 & H3 & H4).
  destruct (Z.lt_ge_cases (buffidx d) 60) as [Hlt|Hge].
  - rewrite col_body_keep by done. cbn. split.
    + unfold shape_ok; cbn [buffidx lcdidx].
      repeat split; Z.div_mod_to_equations; lia.
    + by rewrite pending_snoc.
  - rewrite col_body_reload by done. rewrite flush_spec by done.
    unfold reload, shape_ok.
    cbn [d_trace lcdidx buffidx bmpFile sdbuffer lcdbuffer d_paint]. split.
    + repeat split; try lia; done.
    + rewrite draw_coords_app, draw_coords_pushed, <- app_assoc.
      f_equal. f_equal. unfold pending.
      replace (col + 1 - 1) with col by lia.
      rewrite seqZ_cons by lia. by rewrite seqZ_nil by lia.
Qed.

Lemma col_loop_coords n row col d :
  shape_ok d ->
  (col_loop n row col d).1 = col + Z.of_nat n /\
  shape_ok (col_loop n row col d).2 /\
  draw_coords (d_trace (col_loop n row col d).2)
    ++ pending row (col + Z.of_nat n) (lcdidx (col_loop n row col d).2) =
  draw_coords (d_trace d) ++ pending row col (lcdidx d)
    ++ ((fun j => (row, j)) <$> seqZ col (Z.of_nat n)).
Proof.
  revert col d. induction n as [|n IH]; intros col d Hs.
  - cbn. rewrite Z.add_0_r. rewrite seqZ_nil by lia. cbn.
    by rewrite app_nil_r.
  - cbn [col_loop]. destruct (col_body_coords row col d Hs) as [Hs' Hc].
    destruct (IH (col + 1) _ Hs') as (E1 & E2 & E3).
    replace (col + Z.of_nat (S n)) with (col + 1 + Z.of_nat n) by lia.
    split; [done|]. split; [done|].
    rewrite E3. rewrite app_assoc, Hc.
    rewrite (seqZ_cons col (Z.of_nat (S n))) by lia.
    replace (Z.pred (Z.of_nat (S n))) with (Z.of_nat n) by lia.
    replace (Z.succ col) with (col + 1) by lia.
    cbn. rewrite <- !app_assoc. done.
Qed.

Lemma seek_if_needed_shape pos d :
  lcdidx d = 0 -> shape_ok d -> shape_ok (seek_if_needed pos d).
Proof.
  intros Hl Hs. unfold seek_if_needed. case_match; [done|].
  unfold shape_ok, sizeof_sdbuffer, BUFFPIXEL. cbn. rewrite Hl. repeat split; lia.
Qed.

Lemma seek_if_needed_lcdidx pos d : lcdidx (seek_if_needed pos d) = lcdidx d.
Proof. unfold seek_if_needed. by case_match. Qed.

Lemma seek_if_needed_coords pos d :
  draw_coords (d_trace (seek_if_needed pos d)) = draw_coords (d_trace d).
Proof.
  unfold seek_if_needed. case_match; [done|]. cbn [d_trace].
  rewrite draw_coords_app. cbn. by rewrite app_nil_r.
Qed.

Lemma row_body_coords h w row d :
  lcdidx d = 0 -> shape_ok d ->
  lcdidx (row_body h w row d) = 0 /\
  shape_ok (row_body h w row d) /\
  draw_coords (d_trace (row_body h w row d)) =
  draw_coords (d_trace d) ++ ((fun c => (row, c)) <$> seqZ 0 w).
Proof.
  intros Hl Hs. unfold row_body.
  pose proof (seek_if_needed_shape (row_pos h row) d Hl Hs) as Hs1.
  pose proof (col_loop_coords (Z.to_nat w) row 0 _ Hs1) as (E1 & E2 & E3).
  destruct (col_loop (Z.to_nat w) row 0 (seek_if_needed (row_pos h row) d))
    as [col d2] eqn:E. cbn in E1, E2, E3.
  pose proof E2 as (H1 & H2 & H3 & H4).
  rewrite flush_spec by done.
  cbn [d_trace lcdidx buffidx bmpFile sdbuffer lcdbuffer d_paint].
  split; [done|]. split.
  - unfold shape_ok. cbn. repeat split; lia.
  - rewrite draw_coords_app. subst col. rewrite draw_coords_pushed.
    rewrite E3, seek_if_needed_coords, seek_if_needed_lcdidx, Hl.
    unfold pending at 1. rewrite (seqZ_nil _ 0) by lia. cbn.
    destruct (Z.le_gt_cases 0 w).
    + by rewrite Z2Nat.id by lia.
    + rewrite Z2Nat.nonpos by lia. cbn. by rewrite (seqZ_nil _ w) by lia.
Qed.

Lemma grid_cons row n w :
  grid row (Z.of_nat (S n)) w =
  ((fun c => (row, c)) <$> seqZ 0 w) ++ grid (row + 1) (Z.of_nat n) w.
Proof.
  unfold grid. rewrite (seqZ_cons row) by lia.
  replace (Z.pred (Z.of_nat (S n))) with (Z.of_nat n) by lia.
  replace (Z.succ row) with (row + 1) by lia. done.
Qed.

Lemma row_loop_coords n h w row d :
  lcdidx d = 0 -> shape_ok d ->
  lcdidx (row_loop n h w row d) = 0 /\
  shape_ok (row_loop n h w row d) /\
  draw_coords (d_trace (row_loop n h w row d)) =
  draw_coords (d_trace d) ++ grid row (Z.of_nat n) w.
Proof.
  revert row d. induction n as [|n IH]; intros row d Hl Hs.
  - cbn [row_loop]. unfold grid. rewrite (seqZ_nil row) by lia.
    cbn. by rewrite app_nil_r.
  - cbn [row_loop].
    destruct (row_body_coords h w row d Hl Hs) as (E1 & E2 & E3).
    destruct (IH (row + 1) _ E1 E2) as (F1 & F2 & F3).
    split; [done|]. split; [done|].
    rewrite F3, E3, grid_cons, <- app_assoc. done.
Qed.

(** ** The framebuffer is the replay of the trace *)

Lemma replays_refl d : replays d d.
Proof. exists []. by rewrite app_nil_r. Qed.

Lemma replays_trans d1 d2 d3 : replays d1 d2 -> replays d2 d3 -> replays d1 d3.
Proof.
  intros (e1 & T1 & P1) (e2 & T2 & P2). exists (e1 ++ e2).
  rewrite T2, T1, P2, P1, draws_app, apply_draws_app, app_assoc. done.
Qed.

Lemma replays_flush row col d : 0 <= lcdidx d -> replays d (flush row col d).
Proof. intros H. rewrite flush_spec by done. eexists. split; done. Qed.

Lemma replays_seek pos d : replays d (seek_if_needed pos d).
Proof.
  unfold seek_if_needed. case_match; [apply replays_refl|].
  exists [EvSeek pos]. done.
Qed.

Lemma replays_col_body row col d : shape_ok d -> replays d (col_body row col d).
Proof.
  intros Hs. pose proof Hs as (H1 & H2 & H3 & H4).
  destruct (Z.lt_ge_cases (buffidx d) 60) as [Hlt|Hge].
  - rewrite col_body_keep by done. exists []. cbn. by rewrite app_nil_r.
  - rewrite col_body_reload by done.
    destruct (replays_flush row col d H1) as (evs & T & P).
    exists evs. done.
Qed.

Lemma replays_col_loop n row col d :
  shape_ok d -> replays d (col_loop n row col d).2.
Proof.
  revert col d. induction n as [|n IH]; intros col d Hs; [apply replays_refl|].
  cbn [col_loop]. eapply replays_trans; [by apply replays_col_body|].
  apply IH. by apply col_body_coords.
Qed.

Lemma replays_row_body h w row d :
  lcdidx d = 0 -> shape_ok d -> replays d (row_body h w row d).
Proof.
  intros Hl Hs. unfold row_body.
  pose proof (seek_if_needed_shape (row_pos h row) d Hl Hs) as Hs1.
  pose proof (replays_col_loop (Z.to_nat w) row 0 _ Hs1) as R.
  pose proof (col_loop_coords (Z.to_nat w) row 0 _ Hs1) as (_ & (H1 & _) & _).
  destruct (col_loop _ _ _ _) as [col d2]. cbn in R, H1.
  eapply replays_trans; [apply replays_seek|].
  eapply replays_trans; [apply R|]. by apply replays_flush.
Qed.

Lemma replays_row_loop n h w row d :
  lcdidx d = 0 -> shape_ok d -> replays d (row_loop n h w row d).
Proof.
  revert row d. induction n as [|n IH]; intros row d Hl Hs; [apply replays_refl|].
  cbn [row_loop]. destruct (row_body_coords h w row d Hl Hs) as (E1 & E2 & _).
  eapply replays_trans; [by apply replays_row_body|]. by apply IH.
Qed.

(** ** Facts about [DrawPixel] *)

Lemma DrawPixel_width x y c p : width (DrawPixel x y c p) = width p.
Proof. unfold DrawPixel. by case_match. Qed.

Lemma DrawPixel_height x y c p : height (DrawPixel x y c p) = height p.
Proof. unfold DrawPixel. by case_match. Qed.

Lemma length_set_index l i v : length (set_index l i v) = length l.
Proof. unfold set_index. case_match; [done|]. apply length_insert. Qed.

Lemma DrawPixel_length x y c p : length (image (DrawPixel x y c p)) = length (image p).
Proof. unfold DrawPixel. case_match; [done|]. cbn. apply length_set_index. Qed.

Lemma apply_draws_dims l p :
  width (apply_draws l p) = width p /\ height (apply_draws l p) = height p /\
  length (image (apply_draws l p)) = length (image p).
Proof.
  revert p. induction l as [|a l IH]; intros p; [done|]. cbn.
  destruct (IH (DrawPixel a.1.1 a.1.2 a.2 p)) as (E1 & E2 & E3).
  unfold apply_draws in *.
  rewrite E1, E2, E3, DrawPixel_width, DrawPixel_height, DrawPixel_length. done.
Qed.

(** ** Bits and pixels *)

Lemma at_index_set_index_eq l i v :
  0 <= i < Z.of_nat (length l) -> at_index (set_index l i v) i = v.
Proof.
  intros H. unfold at_index, set_index.
  destruct (Z.ltb_spec i 0); [lia|].
  rewrite list_lookup_insert_eq by lia. done.
Qed.

Lemma at_index_set_index_ne l i j v :
  i <> j -> at_index (set_index l i v) j = at_index l j.
Proof.
  intros H. unfold at_index, set_index.
  destruct (Z.ltb_spec j 0); [done|].
  destruct (Z.ltb_spec i 0); [done|].
  rewrite list_lookup_insert_ne by lia. done.
Qed.

Lemma at_index_out l i : Z.of_nat (length l) <= i -> at_index l i = 0.
Proof.
  intros H. unfold at_index. destruct (Z.ltb_spec i 0); [done|].
  rewrite lookup_ge_None_2 by lia. done.
Qed.

Lemma set_index_out l i v : Z.of_nat (length l) <= i -> set_index l i v = l.
Proof.
  intros H. unfold set_index. destruct (Z.ltb_spec i 0); [done|].
  apply list_insert_ge. lia.
Qed.

Lemma pixel_mask_pow2 i : pixel_mask i = 2 ^ (7 - i mod 8).
Proof.
  unfold pixel_mask. pose proof (Z.mod_pos_bound i 8 ltac:(lia)) as H.
  rewrite Z.shiftr_div_pow2 by lia. change 128 with (2 ^ 7).
  rewrite <- Z.pow_sub_r by lia. done.
Qed.

Lemma land_set_same b n : 0 <= n -> Z.land (Z.lor b (2 ^ n)) (2 ^ n) = 2 ^ n.
Proof.
  intros Hn. apply Z.bits_inj'. intros k Hk.
  rewrite Z.land_spec, Z.lor_spec, !Z.pow2_bits_eqb by lia.
  destruct (Z.eqb_spec n k); [by rewrite orb_true_r|by rewrite andb_false_r].
Qed.

Lemma land_clear_same b n :
  0 <= n < 8 -> Z.land (Z.land b (u8 (Z.lnot (2 ^ n)))) (2 ^ n) = 0.
Proof.
  intros Hn. apply Z.bits_inj'. intros k Hk. unfold u8. change 256 with (2 ^ 8).
  rewrite !Z.land_spec, Z.testbit_mod_pow2, Z.lnot_spec, !Z.pow2_bits_eqb,
    Z.bits_0 by lia.
  destruct (Z.eqb_spec n k); [|by rewrite andb_false_r].
  cbn. by rewrite !andb_false_r.
Qed.

Lemma land_set_other b n m :
  0 <= n -> 0 <= m -> n <> m -> Z.land (Z.lor b (2 ^ n)) (2 ^ m) = Z.land b (2 ^ m).
Proof.
  intros Hn Hm Hne. apply Z.bits_inj'. intros k Hk.
  rewrite !Z.land_spec, Z.lor_spec, !Z.pow2_bits_eqb by lia.
  destruct (Z.eqb_spec m k); [|by rewrite !andb_false_r].
  destruct (Z.eqb_spec n k); [lia|]. by rewrite orb_false_r.
Qed.

Lemma land_clear_other b n m :
  0 <= n -> 0 <= m < 8 -> n <> m ->
  Z.land (Z.land b (u8 (Z.lnot (2 ^ n)))) (2 ^ m) = Z.land b (2 ^ m).
Proof.
  intros Hn Hm Hne. apply Z.bits_inj'. intros k Hk. unfold u8. change 256 with (2 ^ 8).
  rewrite !Z.land_spec, Z.testbit_mod_pow2, Z.lnot_spec, !Z.pow2_bits_eqb by lia.
  destruct (Z.eqb_spec m k); [|by rewrite !andb_false_r].
  destruct (Z.eqb_spec n k); [lia|].
  destruct (Z.ltb_spec k 8); [|lia]. cbn. by rewrite !andb_true_r.
Qed.

Lemma pow2_nonzero n : 0 <= n -> 2 ^ n <> 0.
Proof. intros H. pose proof (Z.pow_pos_nonneg 2 n). lia. Qed.

(** The bit [DrawPixel] writes is the bit [get_pixel] reads. *)
Lemma get_pixel_DrawPixel_same x y c p :
  in_bounds p x y ->
  pixel_index p x y < 8 * Z.of_nat (length (image p)) ->
  get_pixel (DrawPixel x y c p) x y = colour_of c.
Proof.
  intros [Hx Hy] Hcap. unfold get_pixel, DrawPixel, colour_of.
  destruct (Z.ltb_spec x 0); [lia|]. destruct (Z.leb_spec (width p) x); [lia|].
  destruct (Z.ltb_spec y 0); [lia|]. destruct (Z.leb_spec (height p) y); [lia|].
  cbn [orb]. unfold pixel_index in *. cbn [image width height].
  set (i := y * width p + x) in *.
  assert (0 <= i) by (unfold i; nia).
  assert (0 <= i / 8 < Z.of_nat (length (image p))).
  { split; [apply Z.div_pos; lia|]. apply Z.div_lt_upper_bound; lia. }
  rewrite at_index_set_index_eq by done.
  rewrite pixel_mask_pow2. pose proof (Z.mod_pos_bound i 8 ltac:(lia)).
  destruct (Z.eqb_spec c 0).
  - rewrite land_clear_same by lia. done.
  - rewrite land_set_same by lia.
    destruct (Z.eqb_spec (2 ^ (7 - i mod 8)) 0) as [E|E]; [|done].
    by apply pow2_nonzero in E; [|lia].
Qed.

(** Writing one pixel leaves every pixel with another bit number alone. *)
Lemma get_pixel_DrawPixel_other x y c p x' y' :
  pixel_index p x y <> pixel_index p x' y' ->
  get_pixel (DrawPixel x y c p) x' y' = get_pixel p x' y'.
Proof.
  intros Hne. unfold get_pixel, DrawPixel.
  destruct ((x <? 0) || (width p <=? x) || (y <? 0) || (height p <=? y)); [done|].
  unfold pixel_index in *. cbn [image width height].
  set (i := y * width p + x) in *. set (j := y' * width p + x') in *.
  destruct (Z.eq_dec (i / 8) (j / 8)) as [E|E];
    [|by rewrite at_index_set_index_ne].
  rewrite <- E.
  destruct (Z.le_gt_cases (Z.of_nat (length (image p))) (i / 8)) as [Ho|Hi].
  { by rewrite set_index_out. }
  destruct (Z.lt_ge_cases (i / 8) 0) as [Hn|Hn].
  { unfold set_index. destruct (Z.ltb_spec (i / 8) 0); [done|lia]. }
  rewrite at_index_set_index_eq by lia.
  rewrite !pixel_mask_pow2.
  pose proof (Z.mod_pos_bound i 8 ltac:(lia)).
  pose proof (Z.mod_pos_bound j 8 ltac:(lia)).
  assert (i mod 8 <> j mod 8).
  { intros Em. apply Hne. rewrite (Z.div_mod i 8), (Z.div_mod j 8) by lia. lia. }
  destruct (c =? 0).
  - rewrite land_clear_other by lia. done.
  - rewrite land_set_other by lia. done.
Qed.

(** Writing one pixel leaves every other byte alone. *)
Lemma image_DrawPixel_other x y c p (k : nat) :
  (in_bounds p x y -> pixel_index p x y / 8 <> Z.of_nat k) ->
  image (DrawPixel x y c p) !! k = image p !! k.
Proof.
  intros Hne. unfold DrawPixel.
  destruct (Z.ltb_spec x 0); [done|]. destruct (Z.leb_spec (width p) x); [done|].
  destruct (Z.ltb_spec y 0); [done|]. destruct (Z.leb_spec (height p) y); [done|].
  cbn [orb image]. unfold set_index. case_match; [done|].
  apply list_lookup_insert_ne. intros E. apply Hne; [by unfold in_bounds; lia|].
  rewrite <- E. rewrite Z2Nat.id; [done|]. apply Z.div_pos; [|lia].
  unfold pixel_index. nia.
Qed.

(** Inside the logical region the bit number determines the pixel. *)
Lemma pixel_index_inj p x y x' y' :
  in_bounds p x y -> in_bounds p x' y' ->
  pixel_index p x y = pixel_index p x' y' -> x = x' /\ y = y'.
Proof.
  unfold in_bounds, pixel_index. intros [Hx Hy] [Hx' Hy'] E.
  assert (y = y') by nia. subst. lia.
Qed.

(** ** Replaying pixel writes *)

Lemma DrawPixel_out x y c p : ~ in_bounds p x y -> DrawPixel x y c p = p.
Proof.
  intros H. unfold DrawPixel, in_bounds in *.
  destruct (Z.ltb_spec x 0); [done|]. destruct (Z.leb_spec (width p) x); [done|].
  destruct (Z.ltb_spec y 0); [done|]. destruct (Z.leb_spec (height p) y); [done|].
  lia.
Qed.

Lemma in_bounds_dec p x y : in_bounds p x y \/ ~ in_bounds p x y.
Proof. unfold in_bounds. lia. Qed.

Lemma get_pixel_DrawPixel_frame x y c p x' y' :
  (in_bounds p x y -> pixel_index p x y <> pixel_index p x' y') ->
  get_pixel (DrawPixel x y c p) x' y' = get_pixel p x' y'.
Proof.
  intros H. destruct (in_bounds_dec p x y) as [Hi|Ho].
  - apply get_pixel_DrawPixel_other. by apply H.
  - by rewrite DrawPixel_out.
Qed.

Lemma in_bounds_DrawPixel x y c p x' y' :
  in_bounds (DrawPixel x y c p) x' y' <-> in_bounds p x' y'.
Proof. unfold in_bounds. by rewrite DrawPixel_width, DrawPixel_height. Qed.

Lemma pixel_index_DrawPixel x y c p x' y' :
  pixel_index (DrawPixel x y c p) x' y' = pixel_index p x' y'.
Proof. unfold pixel_index. by rewrite DrawPixel_width. Qed.

Lemma apply_draws_cons d l p :
  apply_draws (d :: l) p = apply_draws l (DrawPixel d.1.1 d.1.2 d.2 p).
Proof. done. Qed.

(** A pixel no write addresses keeps its colour. *)
Lemma get_pixel_apply_draws_frame l p x' y' :
  (forall d, d ∈ l -> in_bounds p d.1.1 d.1.2 ->
             pixel_index p d.1.1 d.1.2 <> pixel_index p x' y') ->
  get_pixel (apply_draws l p) x' y' = get_pixel p x' y'.
Proof.
  revert p. induction l as [|d l IH]; intros p H; [done|].
  rewrite apply_draws_cons, IH.
  - apply get_pixel_DrawPixel_frame. apply H. by left.
  - intros d' Hd'. rewrite in_bounds_DrawPixel, !pixel_index_DrawPixel.
    apply H. by right.
Qed.

(** A byte no write addresses keeps its value. *)
Lemma image_apply_draws_frame l p (k : nat) :
  (forall d, d ∈ l -> in_bounds p d.1.1 d.1.2 ->
             pixel_index p d.1.1 d.1.2 / 8 <> Z.of_nat k) ->
  image (apply_draws l p) !! k = image p !! k.
Proof.
  revert p. induction l as [|d l IH]; intros p H; [done|].
  rewrite apply_draws_cons, IH.
  - apply image_DrawPixel_other. apply H. by left.
  - intros d' Hd'. rewrite in_bounds_DrawPixel, !pixel_index_DrawPixel.
    apply H. by right.
Qed.

(** When no two writes share a coordinate, a written pixel has the colour
    of its write. *)
Lemma get_pixel_apply_draws_hit l p x y c :
  NoDup ((fun d => (d.1.1, d.1.2)) <$> l) ->
  (x, y, c) ∈ l ->
  in_bounds p x y ->
  pixel_index p x y < 8 * Z.of_nat (length (image p)) ->
  get_pixel (apply_draws l p) x y = colour_of c.
Proof.
  revert p. induction l as [|d l IH]; intros p Hnd Hin Hb Hcap.
  { by apply elem_of_nil in Hin. }
  rewrite fmap_cons in Hnd. apply NoDup_cons in Hnd as [Hnot Hnd].
  rewrite apply_draws_cons. apply elem_of_cons in Hin as [<-|Hin].
  - cbn [fst snd] in *. rewrite get_pixel_apply_draws_frame.
    + by apply get_pixel_DrawPixel_same.
    + intros d' Hd'. rewrite in_bounds_DrawPixel, !pixel_index_DrawPixel.
      intros Hb' E. apply Hnot.
      destruct (pixel_index_inj p _ _ _ _ Hb' Hb E) as [<- <-].
      apply list_elem_of_fmap. by exists d'.
  - apply IH; try done.
    + by apply in_bounds_DrawPixel.
    + by rewrite pixel_index_DrawPixel, DrawPixel_length.
Qed.

Lemma elem_of_grid r c row n w :
  (r, c) ∈ grid row n w <-> (row <= r < row + n) /\ (0 <= c < w).
Proof.
  unfold grid. rewrite list_elem_of_bind. split.
  - intros (r' & Hc & Hr). apply list_elem_of_fmap in Hc as (c' & E & Hc).
    inversion E; subst. apply elem_of_seqZ in Hc, Hr. lia.
  - intros [Hr Hc]. exists r. split.
    + apply list_elem_of_fmap. exists c. split; [done|]. apply elem_of_seqZ. lia.
    + apply elem_of_seqZ. lia.
Qed.

Lemma NoDup_grid row n w : NoDup (grid row n w).
Proof.
  unfold grid. apply NoDup_bind.
  - intros r1 r2 [a b] _ _ H1 H2.
    apply list_elem_of_fmap in H1 as (? & E1 & _), H2 as (? & E2 & _). congruence.
  - intros r _. apply NoDup_fmap_2; [|apply NoDup_seqZ]. intros ? ?. congruence.
  - apply NoDup_seqZ.
Qed.

(** Inside a framebuffer that fits its backing store every pixel has a byte. *)
Lemma fits_pixel_index p px py :
  fits p -> in_bounds p px py ->
  pixel_index p px py < 8 * Z.of_nat (length (image p)).
Proof. unfold fits, in_bounds, pixel_index. intros (? & ? & ?) [? ?]. nia. Qed.

(** ** The offset guard of [bmpDraw] *)

(** C9: when [x] is at or beyond the framebuffer's width, or [y] at or
    beyond its height, [bmpDraw] returns at once: the file is not opened (no
    event is added to the trace) and the framebuffer is untouched; the world
    is the same. *)
Theorem bmpDraw_offset_guard (filename : string) (x y : Z) (w : World) :
  GetWidth (paint w) <= x \/ GetHeight (paint w) <= y ->
  bmpDraw filename x y w = Some w.
Proof.
  intros H. unfold bmpDraw.
  destruct (Z.leb_spec (GetWidth (paint w)) x); [done|].
  destruct (Z.leb_spec (GetHeight (paint w)) y); [done|]. lia.
Qed.

Lemma bmpDraw_offset_guard_witness :
  (GetWidth (paint (world_of white_paint ∅)) <= 200 \/
   GetHeight (paint (world_of white_paint ∅)) <= 0) /\
  bmpDraw "/a.bmp" 200 0 (world_of white_paint ∅) = Some (world_of white_paint ∅).
Proof.
  assert (H : GetWidth (paint (world_of white_paint ∅)) <= 200 \/
              GetHeight (paint (world_of white_paint ∅)) <= 0).
  { left. cbn. lia. }
  split; [exact H|]. exact (bmpDraw_offset_guard "/a.bmp" 200 0 _ H).
Defined.

(** ** The threshold of the compressed-image codec *)

Lemma PNGDraw_from_spec n i pDraw usPixels w :
  PNGDraw_from n i pDraw usPixels w =
  mkWorld (apply_draws (png_writes i (Z.of_nat n) (png_y pDraw) usPixels) (paint w))
          (files w) (epdState w) (currentImage w)
          (trace w ++ ((fun d => EvDraw d.1.1 d.1.2 d.2)
                         <$> png_writes i (Z.of_nat n) (png_y pDraw) usPixels)).
Proof.
  revert i w. induction n as [|n IH]; intros i w.
  - unfold png_writes. rewrite seqZ_nil by lia. cbn. rewrite app_nil_r. by destruct w.
  - cbn [PNGDraw_from]. rewrite IH. unfold png_writes.
    rewrite (seqZ_cons i (Z.of_nat (S n))) by lia.
    replace (Z.pred (Z.of_nat (S n))) with (Z.of_nat n) by lia.
    replace (Z.succ i) with (i + 1) by lia.
    unfold world_draw, png_colour.
    cbn [paint files epdState currentImage trace fmap list_fmap].
    rewrite <- app_assoc. cbn.
    destruct (at_index usPixels i =? 0); done.
Qed.

Lemma draws_of_writes (l : list (Z * Z * Z)) :
  draws ((fun d => EvDraw d.1.1 d.1.2 d.2) <$> l) = l.
Proof.
  induction l as [|[[a b] c] l IH]; [done|].
  rewrite fmap_cons. change (draws (?e :: ?t)) with (draws [e] ++ draws t).
  rewrite IH. done.
Qed.

(** C3, as the code has it: [PNGDraw] writes the columns
    [0 .. min(iWidth, width) - 1] of line [y] in order, a decoded value of 0
    as WHITE and every other value as BLACK, and touches nothing else. *)
Theorem PNGDraw_threshold (pDraw : PNGDRAW) (usPixels : list Z) (w : World) :
  let n := Z.min (iWidth pDraw) (GetWidth (paint w)) in
  let writes :=
    (fun i => (i, png_y pDraw, if at_index usPixels i =? 0 then WHITE else BLACK))
      <$> seqZ 0 n in
  draws (trace (PNGDraw pDraw usPixels w)) = draws (trace w) ++ writes /\
  paint (PNGDraw pDraw usPixels w) = apply_draws writes (paint w).
Proof.
  cbn zeta. unfold PNGDraw. rewrite PNGDraw_from_spec. cbn [trace paint].
  rewrite draws_app, draws_of_writes. unfold png_writes, png_colour.
  assert (E : seqZ 0 (Z.of_nat (Z.to_nat (Z.min (iWidth pDraw) (GetWidth (paint w)))))
              = seqZ 0 (Z.min (iWidth pDraw) (GetWidth (paint w)))).
  { unfold seqZ. by rewrite Nat2Z.id. }
  rewrite E. done.
Qed.

(** C3, as the specification words it (0 as BLACK), fails on a line that
    holds the value 0: the pixel is written WHITE. *)
Lemma PNGDraw_zero_is_white :
  draws (trace (PNGDraw (mkPNGDRAW 1 0) [0] (world_of white_paint ∅)))
  <> [(0, 0, BLACK)].
Proof. vm_compute. discriminate. Qed.

(** ** Row padding of the snapshot encoder *)

Lemma length_snapshot_rect n img W row col :
  length (snapshot_rect n img W row col) = (3 * n)%nat.
Proof.
  revert col. induction n as [|n IH]; intros col; [done|].
  cbn [snapshot_rect length]. rewrite IH. lia.
Qed.

(** The byte count of a row as the encoder writes it. *)
Lemma length_snapshot_row img W row :
  0 <= W ->
  Z.of_nat (length (snapshot_row img W row)) =
  3 * W + (if W mod 4 =? 0 then 0 else 4 - W mod 4).
Proof.
  intros HW. unfold snapshot_row, snapshot_padding.
  rewrite length_app, length_snapshot_rect, Z.rem_mod_nonneg by lia.
  pose proof (Z.mod_pos_bound W 4 ltac:(lia)).
  destruct (Z.eqb_spec (W mod 4) 0) as [E|E]; cbn [length].
  - lia.
  - rewrite length_take. cbn [length]. lia.
Qed.


(** For an odd width, which no call passes, the padding
    [4 - width % 4] leaves the row two bytes past a multiple of 4; at
    width 1 the row is 3 pixel bytes and 3 padding bytes. *)
Lemma snapshot_row_odd img W row :
  0 <= W -> W mod 2 = 1 -> Z.of_nat (length (snapshot_row img W row)) mod 4 = 2.
Proof.
  intros HW Ho. rewrite length_snapshot_row by done.
  destruct (Z.eqb_spec (W mod 4) 0); Z.div_mod_to_equations; lia.
Qed.

Lemma snapshot_row_width1 (img : list Z) (row : Z) :
  Z.of_nat (length (snapshot_row img 1 row)) = 6 /\ 6 mod 4 <> 0.
Proof. split; [by rewrite length_snapshot_row|done]. Qed.

(** ** Codec selection *)

Lemma length_string_app (p t : string) :
  String.length (p +:+ t) = (String.length p + String.length t)%nat.
Proof.
  induction p as [|a p IH]; [done|].
  change (String a p +:+ t) with (String a (p +:+ t)). cbn. by rewrite IH.
Qed.

Lemma substring_whole (t : string) : substring 0 (String.length t) t = t.
Proof. induction t as [|a t IH]; [done|]. cbn. by rewrite IH. Qed.

Lemma substring_after (p t : string) :
  substring (String.length p) (String.length t) (p +:+ t) = t.
Proof.
  induction p as [|a p IH]; [apply substring_whole|].
  change (String a p +:+ t) with (String a (p +:+ t)). cbn. apply IH.
Qed.

Lemma substring_split (s : string) (k : nat) :
  (k <= String.length s)%nat ->
  s = substring 0 k s +:+ substring k (String.length s - k) s.
Proof.
  revert k. induction s as [|a s IH]; intros k Hk.
  - cbn in Hk. assert (k = 0%nat) as -> by lia. done.
  - destruct k as [|k].
    + rewrite Nat.sub_0_r, substring_whole. reflexivity.
    + cbn in Hk. cbn [substring String.length Nat.sub].
      change (String a ?x +:+ ?y) with (String a (x +:+ y)).
      f_equal. apply IH. lia.
Qed.

(** [endsWith] decides "ends with". *)
Lemma endsWith_spec (s t : string) : endsWith s t = true <-> has_suffix s t.
Proof.
  unfold endsWith, has_suffix. split.
  - destruct (Nat.ltb_spec (String.length s) (String.length t)) as [H|H]; [done|].
    intros E%String.eqb_eq.
    exists (substring 0 (String.length s - String.length t) s).
    pose proof (substring_split s (String.length s - String.length t)
                  ltac:(lia)) as Hs.
    replace (String.length s - (String.length s - String.length t))%nat
      with (String.length t) in Hs by lia.
    by rewrite E in Hs.
  - intros [p ->]. rewrite length_string_app.
    destruct (Nat.ltb_spec (String.length p + String.length t) (String.length t));
      [lia|].
    replace (String.length p + String.length t - String.length t)%nat
      with (String.length p) by lia.
    rewrite substring_after. apply String.eqb_refl.
Qed.

Lemma endsWith_false (s t : string) : endsWith s t = false <-> ~ has_suffix s t.
Proof.
  rewrite <- endsWith_spec. by destruct (endsWith s t).
Qed.

(** C8, as the code has it: a name that ends in ".png" takes the
    compressed-image branch; any other name that ends in ".bmp" or in
    ".BMP" takes the bitmap branch; every other name, a mixed-case ".Bmp"
    among them, leaves the world as it is: nothing is decoded and the panel
    is not driven. *)
Theorem display_image_dispatch
    (png_lines : string -> gmap string (list Z) -> option (list (PNGDRAW * list Z)))
    (filename : string) (w : World) :
  (has_suffix filename ".png" ->
   display_image png_lines filename w = display_png png_lines filename w) /\
  (~ has_suffix filename ".png" ->
   has_suffix filename ".bmp" \/ has_suffix filename ".BMP" ->
   display_image png_lines filename w = display_bmp filename w) /\
  (~ has_suffix filename ".png" -> ~ has_suffix filename ".bmp" ->
   ~ has_suffix filename ".BMP" ->
   display_image png_lines filename w = Some w).
Proof.
  unfold display_image. repeat split.
  - intros H%endsWith_spec. by rewrite H.
  - intros H1%endsWith_false [H2%endsWith_spec|H2%endsWith_spec]; rewrite H1, H2; [done|].
    by rewrite orb_true_r.
  - intros H1%endsWith_false H2%endsWith_false H3%endsWith_false.
    by rewrite H1, H2, H3.
Qed.

(** ** [bmpDraw] as a whole *)

Lemma grid_to_nat row n w : grid row (Z.of_nat (Z.to_nat n)) w = grid row n w.
Proof. unfold grid, seqZ. by rewrite Nat2Z.id. Qed.

Lemma start_decoder_shape f w :
  lcdidx (start_decoder f w) = 0 /\ shape_ok (start_decoder f w).
Proof. split; [done|]. unfold shape_ok. cbn. repeat split; try lia; done. Qed.

Lemma decode_coords h x y d :
  lcdidx d = 0 -> shape_ok d ->
  draw_coords (d_trace (decode h x y d)) =
  draw_coords (d_trace d) ++ grid 0 (crop_h h y (d_paint d)) (crop_w h x (d_paint d)).
Proof.
  intros Hl Hs. unfold decode.
  destruct (row_loop_coords (Z.to_nat (crop_h h y (d_paint d))) h
              (crop_w h x (d_paint d)) 0 d Hl Hs) as (_ & _ & E).
  by rewrite E, grid_to_nat.
Qed.

Lemma replays_decode h x y d :
  lcdidx d = 0 -> shape_ok d -> replays d (decode h x y d).
Proof. intros Hl Hs. by apply replays_row_loop. Qed.

(** What [bmpDraw] does once the offsets pass the guard and the header is
    accepted. *)
Lemma bmpDraw_accepted filename x y w bytes h f :
  x < GetWidth (paint w) -> y < GetHeight (paint w) ->
  files w !! filename = Some bytes ->
  parse_header (mkFile bytes 0) = Some (Some h, f) ->
  bmpDraw filename x y w =
  Some (finish (decode h x y (start_decoder f (log (EvOpen filename) w)))
               (log (EvOpen filename) w)).
Proof.
  intros Hx Hy Hf Hp. unfold bmpDraw.
  destruct (Z.leb_spec (GetWidth (paint w)) x); [lia|].
  destruct (Z.leb_spec (GetHeight (paint w)) y); [lia|].
  cbn [orb]. by rewrite Hf, Hp.
Qed.

(** What [bmpDraw] does when the header is not accepted. *)
Lemma bmpDraw_rejected filename x y w bytes f :
  x < GetWidth (paint w) -> y < GetHeight (paint w) ->
  files w !! filename = Some bytes ->
  parse_header (mkFile bytes 0) = Some (None, f) ->
  bmpDraw filename x y w =
  Some (mkWorld (paint w) (files w) (epdState w) (currentImage w)
                (trace w ++ [EvOpen filename; EvClose])).
Proof.
  intros Hx Hy Hf Hp. unfold bmpDraw.
  destruct (Z.leb_spec (GetWidth (paint w)) x); [lia|].
  destruct (Z.leb_spec (GetHeight (paint w)) y); [lia|].
  cbn [orb]. rewrite Hf, Hp. unfold finish, start_decoder, log. cbn.
  by rewrite <- app_assoc.
Qed.

Lemma bmpDraw_draw_coords filename x y w bytes h f :
  x < GetWidth (paint w) -> y < GetHeight (paint w) ->
  files w !! filename = Some bytes ->
  parse_header (mkFile bytes 0) = Some (Some h, f) ->
  exists w',
    bmpDraw filename x y w = Some w' /\
    draw_coords (trace w') =
    draw_coords (trace w) ++ grid 0 (crop_h h y (paint w)) (crop_w h x (paint w)).
Proof.
  intros Hx Hy Hf Hp. eexists. split; [by eapply bmpDraw_accepted|].
  destruct (start_decoder_shape f (log (EvOpen filename) w)) as [Hl Hs].
  unfold finish. cbn [trace]. rewrite draw_coords_app, decode_coords by done.
  cbn [d_trace d_paint start_decoder log trace paint].
  rewrite draw_coords_app. cbn. by rewrite !app_nil_r.
Qed.


(** The effect of an accepted [bmpDraw] on the world: the pixel writes
    [new], at the coordinates of the cropped grid, replayed on the
    framebuffer. *)
Lemma bmpDraw_effect filename x y w bytes h f :
  x < GetWidth (paint w) -> y < GetHeight (paint w) ->
  files w !! filename = Some bytes ->
  parse_header (mkFile bytes 0) = Some (Some h, f) ->
  exists w' new,
    bmpDraw filename x y w = Some w' /\
    draws (trace w') = draws (trace w) ++ new /\
    (fun d => (d.1.1, d.1.2)) <$> new
      = grid 0 (crop_h h y (paint w)) (crop_w h x (paint w)) /\
    paint w' = apply_draws new (paint w) /\
    files w' = files w.
Proof.
  intros Hx Hy Hf Hp.
  destruct (start_decoder_shape f (log (EvOpen filename) w)) as [Hl Hs].
  destruct (replays_decode h x y _ Hl Hs) as (evs & T & P).
  pose proof (decode_coords h x y _ Hl Hs) as C.
  rewrite T, draw_coords_app in C. apply app_inv_head in C.
  eexists. exists (draws evs). split; [by eapply bmpDraw_accepted|].
  unfold finish. cbn [trace paint files]. rewrite T, P.
  cbn [d_trace d_paint start_decoder log trace paint files].
  rewrite !draws_app. cbn [draws omap list_omap]. rewrite !app_nil_r.
  repeat split; done.
Qed.

Lemma i32_small v : -2147483648 <= v < 2147483648 -> i32 v = v.
Proof. intros H. unfold i32. rewrite Z.mod_small by lia. lia. Qed.

Lemma crop_w_le h x p :
  0 <= x < GetWidth p -> GetWidth p < 2147483648 ->
  x + bmpWidth h <= 2147483648 ->
  crop_w h x p <= GetWidth p - x.
Proof.
  intros Hx Hp Ho. unfold crop_w.
  destruct (Z.leb_spec (GetWidth p) (i32 (x + bmpWidth h - 1))) as [H|H].
  - rewrite i32_small by lia. lia.
  - destruct (Z.le_gt_cases (-2147483648) (x + bmpWidth h - 1)).
    + rewrite i32_small in H by lia. lia.
    + lia.
Qed.

Lemma crop_h_le h y p :
  0 <= y < GetHeight p -> GetHeight p < 2147483648 ->
  y + abs_height h <= 2147483648 ->
  crop_h h y p <= GetHeight p - y.
Proof.
  intros Hy Hp Ho. unfold crop_h.
  destruct (Z.leb_spec (GetHeight p) (i32 (y + abs_height h - 1))) as [H|H].
  - rewrite i32_small by lia. lia.
  - destruct (Z.le_gt_cases (-2147483648) (y + abs_height h - 1)).
    + rewrite i32_small in H by lia. lia.
    + lia.
Qed.

(** C6: with offsets inside the framebuffer, every scanline [r] and column
    [c] the decoder writes satisfies [r < height - y] and [c < width - x]:
    rows and columns of the image at or beyond the framebuffer's bounds are
    never written.  The framebuffer keeps its dimensions and its size; a
    byte that holds no pixel of the clipped region keeps its value, and so
    does every pixel outside the clipped region. *)
Theorem bmpDraw_clipping (filename : string) (x y : Z) (w : World)
    (bytes : list Z) (h : BmpHeader) (f : File) :
  0 <= x < GetWidth (paint w) -> 0 <= y < GetHeight (paint w) ->
  GetWidth (paint w) < 2147483648 -> GetHeight (paint w) < 2147483648 ->
  x + bmpWidth h <= 2147483648 -> y + abs_height h <= 2147483648 ->
  files w !! filename = Some bytes ->
  parse_header (mkFile bytes 0) = Some (Some h, f) ->
  exists w' new,
    bmpDraw filename x y w = Some w' /\
    draws (trace w') = draws (trace w) ++ new /\
    (forall r c colour, (r, c, colour) ∈ new ->
       0 <= r < GetHeight (paint w) - y /\ 0 <= c < GetWidth (paint w) - x) /\
    GetWidth (paint w') = GetWidth (paint w) /\
    GetHeight (paint w') = GetHeight (paint w) /\
    length (GetImage (paint w')) = length (GetImage (paint w)) /\
    (forall k : nat,
       (forall px py, in_bounds (paint w) px py ->
                      clip_region h x y (paint w) px py ->
                      pixel_index (paint w) px py / 8 <> Z.of_nat k) ->
       GetImage (paint w') !! k = GetImage (paint w) !! k) /\
    (forall px py, in_bounds (paint w) px py ->
                   ~ clip_region h x y (paint w) px py ->
                   get_pixel (paint w') px py = get_pixel (paint w) px py).
Proof.
  intros Hx Hy Hw Hh Hbw Hbh Hf Hp.
  destruct (bmpDraw_effect filename x y w bytes h f) as (w' & new & E & D & G & P & _);
    [lia|lia|done|done|].
  pose proof (crop_w_le h x (paint w) Hx Hw Hbw) as Cw.
  pose proof (crop_h_le h y (paint w) Hy Hh Hbh) as Ch.
  assert (Hin : forall d, d ∈ new -> clip_region h x y (paint w) d.1.1 d.1.2).
  { intros d Hd. unfold clip_region.
    assert ((d.1.1, d.1.2) ∈ grid 0 (crop_h h y (paint w)) (crop_w h x (paint w))) as Hg.
    { rewrite <- G. apply list_elem_of_fmap. by exists d. }
    apply elem_of_grid in Hg. lia. }
  exists w', new. split; [done|]. split; [done|].
  destruct (apply_draws_dims new (paint w)) as (E1 & E2 & E3).
  unfold GetWidth, GetHeight, GetImage in *. rewrite P.
  split; [|split; [done|split; [done|split; [done|split]]]].
  - intros r c colour Hd. specialize (Hin _ Hd). unfold clip_region in Hin.
    cbn in Hin. lia.
  - intros k Hk. apply image_apply_draws_frame. intros d Hd Hb.
    apply Hk; [done|]. by apply Hin.
  - intros px py Hb Hout. apply get_pixel_apply_draws_frame.
    intros d Hd Hb' Ei. apply Hout.
    destruct (pixel_index_inj _ _ _ _ _ Hb' Hb Ei) as [<- <-]. by apply Hin.
Qed.


(** ** Where the pixels are written *)

(** C10: once the header is accepted, the pixel writes of [bmpDraw] go, in
    order, to the coordinates (r, c) for the scanlines r = 0 .. h-1 and the
    columns c = 0 .. w-1 of the cropped image: the scanline number is the
    first coordinate passed to [DrawPixel] and the column the second.  The
    framebuffer afterwards is the one these [DrawPixel] calls leave: in a
    framebuffer that fits its backing store, the pixel with x = r and y = c
    holds the colour written for scanline r, column c.  The offsets [x] and
    [y] occur in the crop ([crop_w], [crop_h]) and nowhere in the
    coordinates: other offsets with the same crop write to the same
    coordinates of the framebuffer, in the same order. *)
Theorem bmpDraw_coordinates (filename : string) (x y : Z) (w : World)
    (bytes : list Z) (h : BmpHeader) (f : File) :
  x < GetWidth (paint w) -> y < GetHeight (paint w) ->
  files w !! filename = Some bytes ->
  parse_header (mkFile bytes 0) = Some (Some h, f) ->
  exists w' new,
    bmpDraw filename x y w = Some w' /\
    draws (trace w') = draws (trace w) ++ new /\
    (fun d => (d.1.1, d.1.2)) <$> new
      = grid 0 (crop_h h y (paint w)) (crop_w h x (paint w)) /\
    draw_coords (trace w') =
      draw_coords (trace w) ++ grid 0 (crop_h h y (paint w)) (crop_w h x (paint w)) /\
    paint w' = apply_draws new (paint w) /\
    (fits (paint w) ->
     forall r c colour, (r, c, colour) ∈ new -> in_bounds (paint w) r c ->
       get_pixel (paint w') r c = colour_of colour) /\
    forall x' y',
      x' < GetWidth (paint w) -> y' < GetHeight (paint w) ->
      crop_w h x' (paint w) = crop_w h x (paint w) ->
      crop_h h y' (paint w) = crop_h h y (paint w) ->
      exists w'' new',
        bmpDraw filename x' y' w = Some w'' /\
        draws (trace w'') = draws (trace w) ++ new' /\
        (fun d => (d.1.1, d.1.2)) <$> new' = (fun d => (d.1.1, d.1.2)) <$> new /\
        draw_coords (trace w'') = draw_coords (trace w') /\
        paint w'' = apply_draws new' (paint w).
Proof.
  intros Hx Hy Hf Hp.
  destruct (bmpDraw_effect filename x y w bytes h f)
    as (w' & new & E & D & C & P & _); try done.
  exists w', new. split_and!; try done.
  - unfold draw_coords. by rewrite D, fmap_app, C.
  - intros Hfit r c colour Hin Hb. rewrite P.
    apply get_pixel_apply_draws_hit; try done.
    + rewrite C. apply NoDup_grid.
    + by apply fits_pixel_index.
  - intros x' y' Hx' Hy' Ew Eh.
    destruct (bmpDraw_effect filename x' y' w bytes h f)
      as (w'' & new' & E' & D' & C' & P' & _); try done.
    exists w'', new'. split_and!; try done.
    + by rewrite C', C, Ew, Eh.
    + unfold draw_coords. by rewrite D', D, !fmap_app, C', C, Ew, Eh.
Qed.

(** ** The bytes the decoder consumes *)

Lemma col_inv_shape bytes row q col old d :
  col_inv bytes row q col old d -> shape_ok d.
Proof.
  intros (_ & _ & _ & Hl & _ & _ & Hb & Hle & _). unfold shape_ok.
  destruct Hb as [E|(_ & E1 & E2)].
  - rewrite E. repeat split; try lia. by rewrite Z.mul_comm, Z.mod_mul.
  - rewrite E1, E2. repeat split; try lia; done.
Qed.

(** A chunk read at position [q] puts the bytes from [q] on at the front of
    the buffer. *)
Lemma at_index_peek bytes q rest i :
  0 <= q -> 0 <= i < 60 -> q + i < Z.of_nat (length bytes) ->
  at_index (file_peek sizeof_sdbuffer (mkFile bytes q) ++ rest) i =
  at_index bytes (q + i).
Proof.
  intros Hq Hi Hlen. unfold at_index, file_peek, sizeof_sdbuffer, BUFFPIXEL.
  cbn [content position].
  destruct (Z.ltb_spec i 0); [lia|]. destruct (Z.ltb_spec (q + i) 0); [lia|].
  rewrite lookup_app_l.
  - rewrite lookup_take_lt by lia. rewrite lookup_drop. do 2 f_equal. lia.
  - rewrite length_take, length_drop. lia.
Qed.

Lemma length_peek bytes q :
  0 <= q ->
  Z.of_nat (length (file_peek sizeof_sdbuffer (mkFile bytes q))) =
  Z.max 0 (Z.min 60 (Z.of_nat (length bytes) - q)).
Proof.
  intros Hq. unfold file_peek, sizeof_sdbuffer, BUFFPIXEL. cbn [content position].
  rewrite length_take, length_drop. lia.
Qed.

Lemma draws_pushed_row bytes row q m n lcd :
  0 <= m -> 0 <= n ->
  (forall i, 0 <= i < n -> at_index lcd i = file_pixel bytes (q + 3 * (m + i))) ->
  row_draws bytes row q m ++ draws (pushed 0 n row m lcd) =
  row_draws bytes row q (m + n).
Proof.
  intros Hm Hn Hlcd. rewrite draws_pushed. unfold row_draws.
  rewrite (seqZ_app 0 m n) by lia. rewrite fmap_app. f_equal.
  rewrite Z.add_0_l.
  replace (seqZ m n) with (Z.add m <$> seqZ 0 n)
    by (rewrite fmap_add_seqZ; f_equal; lia).
  rewrite <- list_fmap_compose. apply list_fmap_ext.
  intros k i Hk. apply lookup_seqZ in Hk as [-> Hk]. cbn.
  rewrite Hlcd by lia. done.
Qed.

Ltac decoder_fields :=
  cbn [bmpFile sdbuffer lcdbuffer buffidx lcdidx d_paint d_trace content position
       file_advance file_seek].

(** One iteration of the column loop keeps [col_inv]. *)
Lemma col_body_inv bytes row q col old d :
  0 <= q -> 0 <= col -> q + 3 * (col + 1) <= Z.of_nat (length bytes) ->
  col_inv bytes row q col old d ->
  col_inv bytes row q (col + 1) old (col_body row col d).
Proof.
  intros Hq Hc Hlen Hinv. pose proof (col_inv_shape _ _ _ _ _ _ Hinv) as Hs.
  destruct Hinv as (Hcont & Hsd & Hlcd & Hl & Hm & Hp & Hb & Hle & Hpos & Hbuf
                    & Hpix & Hdr).
  destruct (Z.lt_ge_cases (buffidx d) 60) as [Hlt|Hge].
  - rewrite col_body_keep by done.
    destruct Hb as [Eb|(_ & _ & ?)]; [|lia].
    unfold col_inv. decoder_fields. split_and!; try done; try lia.
    + by rewrite length_set_index.
    + rewrite <- Hm. f_equal. lia.
    + intros i Hi Hi60 Hilen.
      replace (buffidx d + 3 + i) with (buffidx d + (3 + i)) by lia.
      rewrite Hbuf by lia. f_equal. lia.
    + intros i Hi. destruct (Z.eq_dec i (lcdidx d)) as [->|Hne].
      * rewrite at_index_set_index_eq by lia. unfold file_pixel.
        replace (q + 3 * (col + 1 - (lcdidx d + 1) + lcdidx d)) with (q + 3 * col)
          by lia.
        rewrite <- (Z.add_0_r (buffidx d)) at 3.
        rewrite !Hbuf by lia. by rewrite Z.add_0_r.
      * rewrite at_index_set_index_ne by lia. rewrite Hpix by lia. f_equal. lia.
    + rewrite Hdr. do 2 f_equal. lia.
  - rewrite col_body_reload by done. rewrite flush_spec by lia. unfold reload.
    decoder_fields.
    assert (buffidx d = 60) as Eb60 by lia.
    assert (Ef : bmpFile d = mkFile bytes (q + 3 * col)).
    { destruct (bmpFile d) as [cb pb]. cbn in Hcont, Hpos. subst cb.
      f_equal. rewrite Hpos, Eb60. lia. }
    rewrite Ef. decoder_fields.
    pose proof (length_peek bytes (q + 3 * col) ltac:(lia)) as Hpk.
    set (bs := file_peek sizeof_sdbuffer (mkFile bytes (q + 3 * col))) in *.
    unfold col_inv. decoder_fields. split_and!; try done; try lia.
    + rewrite length_app, length_drop. lia.
    + by rewrite length_set_index.
    + replace (col + 1 - 1) with col by lia.
      destruct Hb as [E|(-> & _)]; [|done].
      revert Hm. replace (lcdidx d) with 20 by lia. intros Hm.
      Z.div_mod_to_equations. lia.
    + intros i Hi Hi60 Hilen. unfold bs.
      rewrite at_index_peek by lia. f_equal. lia.
    + intros i Hi. assert (i = 0) as -> by lia.
      rewrite at_index_set_index_eq by lia. unfold file_pixel, bs.
      replace (q + 3 * (col + 1 - 1 + 0)) with (q + 3 * col) by lia.
      rewrite !at_index_peek by lia. by rewrite Z.add_0_r.
    + rewrite draws_app, Hdr, <- app_assoc, draws_pushed_row; try lia.
      * f_equal. f_equal. lia.
      * intros i Hi. rewrite Hpix by lia. done.
Qed.

Lemma col_loop_inv n bytes row q col old d :
  0 <= q -> 0 <= col ->
  q + 3 * (col + Z.of_nat n) <= Z.of_nat (length bytes) ->
  col_inv bytes row q col old d ->
  col_inv bytes row q (col + Z.of_nat n) old (col_loop n row col d).2.
Proof.
  revert col d. induction n as [|n IH]; intros col d Hq Hc Hlen Hinv.
  - cbn. by rewrite Z.add_0_r.
  - cbn [col_loop]. replace (col + Z.of_nat (S n)) with (col + 1 + Z.of_nat n) by lia.
    apply IH; try lia. apply col_body_inv; try done. lia.
Qed.

Lemma row_ready_col_inv bytes row q d :
  row_ready bytes d -> buffidx d = 60 -> position (bmpFile d) = q ->
  q <= Z.of_nat (length bytes) ->
  col_inv bytes row q 0 (draws (d_trace d)) d.
Proof.
  intros (Hc & Hsd & Hlcd & Hl & Hs) Hb Hp Hq. unfold col_inv.
  rewrite Hl, Hb. split_and!; try done; try lia; try (by right).
  unfold row_draws. rewrite seqZ_nil by lia. cbn. by rewrite app_nil_r.
Qed.

(** A scanline whose buffer is reloaded at its first column: the [w] pixels
    stored from offset [q] are written, in order. *)
Lemma scan_row bytes row q w d :
  0 <= q -> 0 <= w -> q + 3 * w <= Z.of_nat (length bytes) ->
  row_ready bytes d -> buffidx d = 60 -> position (bmpFile d) = q ->
  let r := col_loop (Z.to_nat w) row 0 d in
  let d' := flush row r.1 r.2 in
  draws (d_trace d') = draws (d_trace d) ++ row_draws bytes row q w /\
  row_ready bytes d' /\
  (0 < w ->
   position (bmpFile d') = Z.min (Z.of_nat (length bytes)) (q + chunk_bytes w) /\
   (buffidx d' = 60 <-> w mod 20 = 0)).
Proof.
  intros Hq Hw Hlen Hr Hb Hp r d'.
  pose proof (row_ready_col_inv bytes row q d Hr Hb Hp ltac:(lia)) as Hinv.
  apply (col_loop_inv (Z.to_nat w)) in Hinv; [|lia..].
  pose proof (col_inv_shape _ _ _ _ _ _ Hinv) as Hs.
  destruct (col_loop_coords (Z.to_nat w) row 0 d) as (E1 & _ & _).
  { by destruct Hr as (_ & _ & _ & _ & ?). }
  fold r in Hinv, Hs, E1. rewrite Z2Nat.id in Hinv, E1 by lia.
  rewrite Z.add_0_l in Hinv, E1.
  destruct Hinv as (Hcont & Hsd & Hlcd & Hl & Hm & Hpz & Hbi & Hle & Hpos & Hbuf
                    & Hpix & Hdr).
  unfold d'. rewrite flush_spec by lia. rewrite E1. decoder_fields.
  split; [|split].
  - rewrite draws_app, Hdr, <- app_assoc, draws_pushed_row; try lia.
    + do 2 f_equal. lia.
    + intros i Hi. rewrite Hpix by lia. done.
  - unfold row_ready, shape_ok. decoder_fields.
    destruct Hs as (? & ? & ? & ?). split_and!; try done; lia.
  - intros Hpos'. specialize (Hpz Hpos').
    destruct Hbi as [Eb|(? & _)]; [|lia]. unfold chunk_bytes. split.
    + rewrite Hpos. f_equal. Z.div_mod_to_equations. lia.
    + Z.div_mod_to_equations. lia.
Qed.

Lemma seek_if_needed_ready bytes q d :
  row_ready bytes d -> position (bmpFile d) <> q \/ buffidx d = 60 ->
  row_ready bytes (seek_if_needed q d) /\
  buffidx (seek_if_needed q d) = 60 /\
  position (bmpFile (seek_if_needed q d)) = q /\
  draws (d_trace (seek_if_needed q d)) = draws (d_trace d).
Proof.
  intros Hr Hc. unfold seek_if_needed.
  destruct (Z.eqb_spec (position (bmpFile d)) q) as [E|E].
  - destruct Hc; done.
  - destruct Hr as (? & ? & ? & Hl & ?). unfold row_ready, shape_ok.
    decoder_fields. rewrite draws_app, Hl. cbn. rewrite app_nil_r.
    split_and!; done.
Qed.

Lemma seek_always_ready bytes q d :
  row_ready bytes d ->
  row_ready bytes (seek_always q d) /\
  buffidx (seek_always q d) = 60 /\
  position (bmpFile (seek_always q d)) = q /\
  draws (d_trace (seek_always q d)) = draws (d_trace d).
Proof.
  intros (? & ? & ? & Hl & ?). unfold seek_always, row_ready, shape_ok.
  decoder_fields. rewrite draws_app, Hl. cbn. rewrite app_nil_r.
  split_and!; done.
Qed.

Lemma row_body_content bytes h w row d :
  0 <= w -> 0 <= row_pos h row ->
  row_pos h row + 3 * w <= Z.of_nat (length bytes) ->
  row_ready bytes d ->
  position (bmpFile d) <> row_pos h row \/ buffidx d = 60 ->
  let d' := row_body h w row d in
  draws (d_trace d') = draws (d_trace d) ++ row_draws bytes row (row_pos h row) w /\
  row_ready bytes d' /\
  (0 < w ->
   position (bmpFile d') =
     Z.min (Z.of_nat (length bytes)) (row_pos h row + chunk_bytes w) /\
   (buffidx d' = 60 <-> w mod 20 = 0)).
Proof.
  intros Hw Hq Hlen Hr Hc.
  destruct (seek_if_needed_ready bytes (row_pos h row) d Hr Hc) as (R1 & B1 & P1 & D1).
  pose proof (scan_row bytes row (row_pos h row) w _ Hq Hw Hlen R1 B1 P1) as S.
  cbn zeta in S. unfold row_body. cbn zeta.
  destruct (col_loop (Z.to_nat w) row 0 (seek_if_needed (row_pos h row) d)) as [c d2].
  cbn [fst snd] in S. by rewrite D1 in S.
Qed.

Lemma ref_row_body_content bytes h w row d :
  0 <= w -> 0 <= row_pos h row ->
  row_pos h row + 3 * w <= Z.of_nat (length bytes) ->
  row_ready bytes d ->
  let d' := ref_row_body h w row d in
  draws (d_trace d') = draws (d_trace d) ++ row_draws bytes row (row_pos h row) w /\
  row_ready bytes d'.
Proof.
  intros Hw Hq Hlen Hr.
  destruct (seek_always_ready bytes (row_pos h row) d Hr) as (R1 & B1 & P1 & D1).
  pose proof (scan_row bytes row (row_pos h row) w _ Hq Hw Hlen R1 B1 P1) as S.
  cbn zeta in S. unfold ref_row_body. cbn zeta.
  destruct (col_loop (Z.to_nat w) row 0 (seek_always (row_pos h row) d)) as [c d2].
  cbn [fst snd] in S. rewrite D1 in S. by destruct S as (? & ? & _).
Qed.

Lemma decode_draws_cons bytes h row n w :
  decode_draws bytes h row (Z.of_nat (S n)) w =
  row_draws bytes row (row_pos h row) w ++ decode_draws bytes h (row + 1) (Z.of_nat n) w.
Proof.
  unfold decode_draws. rewrite (seqZ_cons row) by lia.
  replace (Z.pred (Z.of_nat (S n))) with (Z.of_nat n) by lia.
  replace (Z.succ row) with (row + 1) by lia. done.
Qed.

Lemma row_loop_content n bytes h w row d :
  0 < w -> row_ready bytes d ->
  (n <> 0%nat -> position (bmpFile d) <> row_pos h row \/ buffidx d = 60) ->
  rows_ok bytes h w row (Z.of_nat n) ->
  reloads bytes h w row (Z.of_nat n) ->
  draws (d_trace (row_loop n h w row d)) =
  draws (d_trace d) ++ decode_draws bytes h row (Z.of_nat n) w.
Proof.
  revert row d. induction n as [|n IH]; intros row d Hw Hr Hc Hok Hre.
  - cbn [row_loop]. unfold decode_draws. rewrite (seqZ_nil row) by lia.
    cbn. by rewrite app_nil_r.
  - cbn [row_loop]. destruct (Hok row ltac:(lia)) as [Hq Hlen].
    destruct (row_body_content bytes h w row d) as (D & R & P);
      [lia|done|done|done|by apply Hc|].
    destruct (P Hw) as [Pp Pb].
    rewrite IH, D, decode_draws_cons, <- app_assoc; try done.
    + intros Hn. destruct (Hre (row + 1) ltac:(lia)) as [Hm|Hne].
      * right. by apply Pb.
      * left. rewrite Pp. by replace (row + 1 - 1) with row in Hne by lia.
    + intros r Hrr. apply Hok. lia.
    + intros r Hrr. apply Hre. lia.
Qed.

Lemma ref_row_loop_content n bytes h w row d :
  0 <= w -> row_ready bytes d ->
  rows_ok bytes h w row (Z.of_nat n) ->
  draws (d_trace (ref_row_loop n h w row d)) =
  draws (d_trace d) ++ decode_draws bytes h row (Z.of_nat n) w.
Proof.
  revert row d. induction n as [|n IH]; intros row d Hw Hr Hok.
  - cbn [ref_row_loop]. unfold decode_draws. rewrite (seqZ_nil row) by lia.
    cbn. by rewrite app_nil_r.
  - cbn [ref_row_loop]. destruct (Hok row ltac:(lia)) as [Hq Hlen].
    destruct (ref_row_body_content bytes h w row d) as (D & R); try done.
    rewrite IH, D, decode_draws_cons, <- app_assoc; try done.
    intros r Hrr. apply Hok. lia.
Qed.

(** ** Well-formed files *)

Lemma u32_small v : 0 <= v < 4294967296 -> u32 v = v.
Proof. intros H. unfold u32. by rewrite Z.mod_small. Qed.

Lemma land_lnot3 v : Z.land v (Z.lnot 3) = v / 4 * 4.
Proof.
  rewrite <- Z.ldiff_land. change 3 with (Z.ones 2).
  rewrite Z.ldiff_ones_r by lia.
  rewrite Z.shiftl_mul_pow2, Z.shiftr_div_pow2 by lia. done.
Qed.

(** The row stride is the pixel bytes rounded up to a multiple of 4. *)
Lemma rowSize_exact W :
  0 <= W -> W * 3 + 3 < 2147483648 -> rowSize W = (W * 3 + 3) / 4 * 4.
Proof.
  intros H0 H1. unfold rowSize. rewrite i32_small by lia. rewrite land_lnot3.
  apply u32_small. Z.div_mod_to_equations. lia.
Qed.

Lemma rowSize_bounds W :
  0 <= W -> W * 3 + 3 < 2147483648 ->
  3 * W <= rowSize W < 3 * W + 4 /\ rowSize W mod 4 = 0.
Proof.
  intros H0 H1. rewrite rowSize_exact by done. split.
  - Z.div_mod_to_equations. lia.
  - apply Z.mod_mul. lia.
Qed.

Lemma abs_height_exact h :
  -2147483648 < bmpHeight h < 2147483648 -> abs_height h = Z.abs (bmpHeight h).
Proof.
  intros H. unfold abs_height. destruct (Z.ltb_spec (bmpHeight h) 0).
  - rewrite i32_small by lia. lia.
  - lia.
Qed.

Lemma i32_high v :
  2147483648 <= v < 6442450944 -> i32 v = v - 4294967296.
Proof.
  intros H. unfold i32.
  replace (v + 2147483648) with (v - 2147483648 + 1 * 4294967296) by lia.
  rewrite Z.mod_add by lia. rewrite Z.mod_small by lia. lia.
Qed.

Lemma crop_w_bounds h x p :
  0 < bmpWidth h -> bmpWidth h * 3 + 3 < 2147483648 ->
  0 <= x < GetWidth p -> GetWidth p < 2147483648 ->
  0 < crop_w h x p <= bmpWidth h.
Proof.
  intros H0 H1 Hx Hp. unfold crop_w.
  destruct (Z.lt_ge_cases (x + bmpWidth h - 1) 2147483648).
  - rewrite (i32_small (x + bmpWidth h - 1)) by lia.
    destruct (Z.leb_spec (GetWidth p) (x + bmpWidth h - 1)).
    + rewrite i32_small by lia. lia.
    + lia.
  - rewrite (i32_high (x + bmpWidth h - 1)) by lia.
    destruct (Z.leb_spec (GetWidth p) (x + bmpWidth h - 1 - 4294967296)); lia.
Qed.

Lemma crop_h_bounds h y p :
  -2147483648 < bmpHeight h < 2147483648 ->
  0 <= y < GetHeight p -> GetHeight p < 2147483648 ->
  crop_h h y p <= Z.abs (bmpHeight h).
Proof.
  intros H0 Hy Hp. unfold crop_h. rewrite abs_height_exact by done.
  destruct (Z.lt_ge_cases (y + Z.abs (bmpHeight h) - 1) 2147483648).
  - rewrite (i32_small (y + Z.abs (bmpHeight h) - 1)) by lia.
    destruct (Z.leb_spec (GetHeight p) (y + Z.abs (bmpHeight h) - 1)).
    + rewrite i32_small by lia. lia.
    + lia.
  - rewrite (i32_high (y + Z.abs (bmpHeight h) - 1)) by lia.
    destruct (Z.leb_spec (GetHeight p) (y + Z.abs (bmpHeight h) - 1 - 4294967296)); lia.
Qed.

Section WellFormed.

(** A file and its accepted header. *)
Variable bytes : list Z.
Variable h : BmpHeader.
Hypothesis Hwf : well_formed bytes h.

(** No offset wraps around: the scanline offsets are the exact sums. *)
Lemma row_pos_exact r :
  0 <= r < Z.abs (bmpHeight h) ->
  row_pos h r =
  bmpImageoffset h +
  (if flip h then Z.abs (bmpHeight h) - 1 - r else r) * rowSize (bmpWidth h).
Proof using Hwf.
  intros Hr. destruct Hwf as (HW & HW3 & HH & Ho & Hlen & Hl32).
  destruct (rowSize_bounds (bmpWidth h)) as [Hrs _]; [lia..|].
  unfold row_pos. rewrite abs_height_exact by done.
  destruct (flip h); apply u32_small; nia.
Qed.

(** The pixels of every scanline the loop visits are in the file. *)
Lemma well_formed_rows_ok w n :
  0 < w <= bmpWidth h -> n <= Z.abs (bmpHeight h) ->
  rows_ok bytes h w 0 n.
Proof using Hwf.
  intros Hw Hn r Hr. rewrite row_pos_exact by lia.
  destruct Hwf as (HW & HW3 & HH & Ho & Hlen & Hl32).
  destruct (rowSize_bounds (bmpWidth h)) as [Hrs _]; [lia..|].
  destruct (flip h); nia.
Qed.

Lemma chunk_bytes_pos w : 0 < w -> 3 * w <= chunk_bytes w.
Proof. intros H. unfold chunk_bytes. Z.div_mod_to_equations. lia. Qed.

(** After a scanline the file position is beyond its pixels; it meets the
    offset of the next scanline only in the excluded top-down case. *)
Lemma well_formed_reloads w n :
  0 < w <= bmpWidth h -> n <= Z.abs (bmpHeight h) ->
  no_stale_buffer h w ->
  reloads bytes h w 0 n.
Proof using Hwf.
  intros Hw Hn Hns r Hr.
  destruct (well_formed_rows_ok w n Hw Hn (r - 1) ltac:(lia)) as [A1 A2].
  destruct (well_formed_rows_ok w n Hw Hn r ltac:(lia)) as [B1 B2].
  revert A1 A2 B1 B2.
  rewrite !row_pos_exact by lia.
  destruct Hwf as (HW & HW3 & HH & Ho & Hlen & Hl32).
  destruct (rowSize_bounds (bmpWidth h)) as [Hrs _]; [lia..|].
  pose proof (chunk_bytes_pos w ltac:(lia)) as Hcb.
  intros A1 A2 B1 B2.
  destruct Hns as [Hf|[Hm|Hne]].
  - right. rewrite Hf in *. lia.
  - by left.
  - right. destruct (flip h); lia.
Qed.

End WellFormed.

(** ** The pixels [bmpDraw] writes *)

Lemma decode_draws_to_nat bytes h row n w :
  decode_draws bytes h row (Z.of_nat (Z.to_nat n)) w = decode_draws bytes h row n w.
Proof. unfold decode_draws, seqZ. by rewrite Nat2Z.id. Qed.

Lemma decode_content bytes h x y d :
  well_formed bytes h -> offsets_ok x y (d_paint d) ->
  row_ready bytes d -> buffidx d = 60 ->
  no_stale_buffer h (crop_w h x (d_paint d)) ->
  draws (d_trace (decode h x y d)) =
  draws (d_trace d)
    ++ decode_draws bytes h 0 (crop_h h y (d_paint d)) (crop_w h x (d_paint d)).
Proof.
  intros Hwf (Hx & Hpw & Hy & Hph) Hr Hb Hns. unfold decode.
  pose proof Hwf as (HW & HW3 & HH & _).
  pose proof (crop_w_bounds h x (d_paint d) HW HW3 Hx Hpw) as Hcw.
  pose proof (crop_h_bounds h y (d_paint d) HH Hy Hph) as Hch.
  rewrite (row_loop_content _ bytes); try done; try lia.
  - by rewrite decode_draws_to_nat.
  - apply well_formed_rows_ok; [done|lia|lia].
  - apply well_formed_reloads; [done|lia|lia|done].
Qed.

Lemma ref_decode_content bytes h x y d :
  well_formed bytes h -> offsets_ok x y (d_paint d) ->
  row_ready bytes d ->
  draws (d_trace (ref_decode h x y d)) =
  draws (d_trace d)
    ++ decode_draws bytes h 0 (crop_h h y (d_paint d)) (crop_w h x (d_paint d)).
Proof.
  intros Hwf (Hx & Hpw & Hy & Hph) Hr. unfold ref_decode.
  pose proof Hwf as (HW & HW3 & HH & _).
  pose proof (crop_w_bounds h x (d_paint d) HW HW3 Hx Hpw) as Hcw.
  pose proof (crop_h_bounds h y (d_paint d) HH Hy Hph) as Hch.
  rewrite (ref_row_loop_content _ bytes); try done; try lia.
  - by rewrite decode_draws_to_nat.
  - apply well_formed_rows_ok; [done|lia|lia].
Qed.

Lemma read_content n f v f' : read n f = Some (v, f') -> content f' = content f.
Proof.
  unfold read. case_match; [|done]. intros [= _ <-]. done.
Qed.

Ltac rd_step H :=
  match type of H with
  | (?m ≫= ?k) ?f = Some _ =>
      let E := fresh "E" in
      change ((m ≫= k) f) with (rd_bind _ _ k m f) in H; unfold rd_bind in H;
      destruct (m f) as [[? ?]|] eqn:E; [apply read_content in E|discriminate H]
  | (if ?c then _ else _) ?f = Some _ => destruct c
  | mret _ _ = Some _ => injection H as <- <-
  end.

Lemma parse_header_content f r f' :
  parse_header f = Some (r, f') -> content f' = content f.
Proof.
  unfold parse_header, read16, read32. intros H.
  repeat rd_step H; congruence.
Qed.

Lemma start_decoder_ready bytes pos w :
  row_ready bytes (start_decoder (mkFile bytes pos) w) /\
  buffidx (start_decoder (mkFile bytes pos) w) = 60.
Proof.
  split; [|done]. unfold row_ready. split_and!; try done.
Qed.

Lemma ref_bmpDraw_accepted filename x y w bytes h f :
  x < GetWidth (paint w) -> y < GetHeight (paint w) ->
  files w !! filename = Some bytes ->
  parse_header (mkFile bytes 0) = Some (Some h, f) ->
  ref_bmpDraw filename x y w =
  Some (finish (ref_decode h x y (start_decoder f (log (EvOpen filename) w)))
               (log (EvOpen filename) w)).
Proof.
  intros Hx Hy Hf Hp. unfold ref_bmpDraw.
  destruct (Z.leb_spec (GetWidth (paint w)) x); [lia|].
  destruct (Z.leb_spec (GetHeight (paint w)) y); [lia|].
  cbn [orb]. by rewrite Hf, Hp.
Qed.

(** On a well-formed file whose scanlines all start with a buffer reload,
    [bmpDraw] writes at (r, c) the colour of the three bytes stored at the
    offset of scanline r plus 3c, and the framebuffer is the replay of
    these writes. *)
Lemma bmpDraw_pixels filename x y w bytes h f :
  offsets_ok x y (paint w) ->
  files w !! filename = Some bytes ->
  parse_header (mkFile bytes 0) = Some (Some h, f) ->
  well_formed bytes h ->
  no_stale_buffer h (crop_w h x (paint w)) ->
  exists w',
    bmpDraw filename x y w = Some w' /\
    draws (trace w') =
      draws (trace w)
        ++ decode_draws bytes h 0 (crop_h h y (paint w)) (crop_w h x (paint w)) /\
    paint w' =
      apply_draws
        (decode_draws bytes h 0 (crop_h h y (paint w)) (crop_w h x (paint w)))
        (paint w).
Proof.
  intros Hoff Hf Hp Hwf Hns. pose proof Hoff as (Hx & _ & Hy & _).
  destruct (bmpDraw_effect filename x y w bytes h f) as (w' & new & E & D & _ & P & _);
    [lia|lia|done|done|].
  exists w'. split; [done|].
  assert (new = decode_draws bytes h 0 (crop_h h y (paint w)) (crop_w h x (paint w)))
    as ->; [|done].
  rewrite (bmpDraw_accepted filename x y w bytes h f) in E by (done || lia).
  injection E as <-.
  pose proof (parse_header_content _ _ _ Hp) as Hc. cbn in Hc.
  destruct f as [cf pf]. cbn in Hc. subst cf.
  destruct (start_decoder_ready bytes pf (log (EvOpen filename) w)) as [Hr Hb].
  unfold finish in D. cbn [trace] in D.
  rewrite draws_app, (decode_content bytes) in D by done.
  cbn [d_trace d_paint start_decoder log trace paint] in D.
  rewrite !draws_app in D. cbn [draws omap list_omap] in D.
  rewrite !app_nil_r in D. by apply app_inv_head in D.
Qed.

(** The reference decode writes the same pixels on every well-formed
    file. *)
Lemma ref_bmpDraw_pixels filename x y w bytes h f :
  offsets_ok x y (paint w) ->
  files w !! filename = Some bytes ->
  parse_header (mkFile bytes 0) = Some (Some h, f) ->
  well_formed bytes h ->
  exists w',
    ref_bmpDraw filename x y w = Some w' /\
    draws (trace w') =
      draws (trace w)
        ++ decode_draws bytes h 0 (crop_h h y (paint w)) (crop_w h x (paint w)).
Proof.
  intros Hoff Hf Hp Hwf. pose proof Hoff as (Hx & _ & Hy & _).
  eexists. split; [apply (ref_bmpDraw_accepted filename x y w bytes h f); done || lia|].
  pose proof (parse_header_content _ _ _ Hp) as Hc. cbn in Hc.
  destruct f as [cf pf]. cbn in Hc. subst cf.
  destruct (start_decoder_ready bytes pf (log (EvOpen filename) w)) as [Hr Hb].
  unfold finish. cbn [trace].
  rewrite draws_app, (ref_decode_content bytes) by done.
  cbn [d_trace d_paint start_decoder log trace paint].
  rewrite !draws_app. cbn [draws omap list_omap]. by rewrite !app_nil_r.
Qed.

(** X1: where no scanline inherits bytes from the one before it, the
    bottom-up files in particular, avoiding the seek changes nothing:
    [bmpDraw] and the reference decode, which seeks before every scanline,
    make the same pixel writes. *)
Lemma bmpDraw_seek_avoidance filename x y w bytes h f :
  offsets_ok x y (paint w) ->
  files w !! filename = Some bytes ->
  parse_header (mkFile bytes 0) = Some (Some h, f) ->
  well_formed bytes h ->
  no_stale_buffer h (crop_w h x (paint w)) ->
  exists w1 w2,
    bmpDraw filename x y w = Some w1 /\
    ref_bmpDraw filename x y w = Some w2 /\
    draws (trace w1) = draws (trace w2).
Proof.
  intros Hoff Hf Hp Hwf Hns.
  destruct (bmpDraw_pixels filename x y w bytes h f) as (w1 & E1 & D1 & _); try done.
  destruct (ref_bmpDraw_pixels filename x y w bytes h f) as (w2 & E2 & D2); try done.
  exists w1, w2. by rewrite D1, D2.
Qed.

(** ** The file the snapshot encoder writes *)

Lemma at_index_app_r l1 l2 i :
  0 <= i -> at_index (l1 ++ l2) (Z.of_nat (length l1) + i) = at_index l2 i.
Proof.
  intros Hi. unfold at_index.
  destruct (Z.ltb_spec (Z.of_nat (length l1) + i) 0); [lia|].
  destruct (Z.ltb_spec i 0); [lia|].
  rewrite lookup_app_r by lia. do 2 f_equal. lia.
Qed.

Lemma at_index_app_l l1 l2 i :
  i < Z.of_nat (length l1) -> at_index (l1 ++ l2) i = at_index l1 i.
Proof.
  intros Hi. unfold at_index. destruct (Z.ltb_spec i 0); [done|].
  rewrite lookup_app_l by lia. done.
Qed.

Lemma at_index_cons a l i : 0 < i -> at_index (a :: l) i = at_index l (i - 1).
Proof.
  intros Hi. unfold at_index.
  destruct (Z.ltb_spec i 0); [lia|]. destruct (Z.ltb_spec (i - 1) 0); [lia|].
  replace (Z.to_nat i) with (S (Z.to_nat (i - 1))) by lia. done.
Qed.

(** The three bytes of column [col + c] in a row buffer. *)
Lemma at_index_snapshot_rect n img W row col c j :
  0 <= c < Z.of_nat n -> 0 <= j < 3 ->
  at_index (snapshot_rect n img W row col) (3 * c + j) =
  snapshot_rgb img W row (col + c).
Proof.
  revert col c. induction n as [|n IH]; intros col c Hc Hj; [lia|].
  cbn [snapshot_rect]. destruct (Z.eq_dec c 0) as [->|Hne].
  - rewrite Z.add_0_r. assert (j = 0 \/ j = 1 \/ j = 2) as [->|[->| ->]] by lia; done.
  - rewrite !at_index_cons by lia.
    replace (3 * c + j - 1 - 1 - 1) with (3 * (c - 1) + j) by lia.
    rewrite IH by lia. f_equal. lia.
Qed.

Lemma snapshot_padding_none W : 0 <= W -> W mod 4 = 0 -> snapshot_padding W = [].
Proof.
  intros H0 H. unfold snapshot_padding. rewrite Z.rem_mod_nonneg, H by lia. done.
Qed.

Lemma length_snapshot_rows n img W top :
  0 <= W -> W mod 4 = 0 ->
  Z.of_nat (length (snapshot_rows n img W top)) = Z.of_nat n * (3 * W).
Proof.
  intros H0 H4. revert top. induction n as [|n IH]; intros top; [done|].
  cbn [snapshot_rows]. rewrite length_app, Nat2Z.inj_add, IH.
  rewrite length_snapshot_row by done. rewrite H4. cbn. lia.
Qed.

(** Row [k] of the file, counted from its start, is the framebuffer row
    [top - k]. *)
Lemma at_index_snapshot_rows n img W top k c j :
  0 <= W -> W mod 4 = 0 ->
  0 <= k < Z.of_nat n -> 0 <= c < W -> 0 <= j < 3 ->
  at_index (snapshot_rows n img W top) (k * (3 * W) + 3 * c + j) =
  snapshot_rgb img W (top - k) c.
Proof.
  intros H0 H4. revert top k. induction n as [|n IH]; intros top k Hk Hc Hj; [lia|].
  cbn [snapshot_rows].
  assert (Hlen : Z.of_nat (length (snapshot_row img W top)) = 3 * W).
  { rewrite length_snapshot_row by done. rewrite H4. cbn. lia. }
  destruct (Z.eq_dec k 0) as [->|Hne].
  - rewrite at_index_app_l by lia. unfold snapshot_row.
    rewrite snapshot_padding_none, app_nil_r by done.
    replace (0 * (3 * W) + 3 * c + j) with (3 * c + j) by lia.
    rewrite at_index_snapshot_rect by lia. f_equal; lia.
  - replace (k * (3 * W) + 3 * c + j)
      with (Z.of_nat (length (snapshot_row img W top))
            + ((k - 1) * (3 * W) + 3 * c + j)) by lia.
    rewrite at_index_app_r by nia. rewrite IH by lia. f_equal. lia.
Qed.

Lemma length_bmpfileheader fs : length (bmpfileheader fs) = 14%nat.
Proof. done. Qed.

Lemma length_bmpinfoheader W H : length (bmpinfoheader W H) = 40%nat.
Proof. done. Qed.

(** The pixel bytes of the file: the byte at [54 + k * 3W + 3c + j] is the
    gray level of the framebuffer pixel in row [H - 1 - k], column [c]. *)
Lemma at_index_snapshot_bytes p k c j :
  0 <= GetWidth p -> GetWidth p mod 4 = 0 ->
  0 <= k < GetHeight p -> 0 <= c < GetWidth p -> 0 <= j < 3 ->
  at_index (snapshot_bytes p) (54 + k * (3 * GetWidth p) + 3 * c + j) =
  snapshot_rgb (GetImage p) (GetWidth p) (GetHeight p - 1 - k) c.
Proof.
  intros H0 H4 Hk Hc Hj. unfold snapshot_bytes. cbn zeta.
  set (fh := bmpfileheader _). set (ih := bmpinfoheader _ _).
  rewrite app_assoc.
  replace (54 + k * (3 * GetWidth p) + 3 * c + j)
    with (Z.of_nat (length (fh ++ ih)) + (k * (3 * GetWidth p) + 3 * c + j)).
  2: { rewrite length_app. unfold fh, ih.
       rewrite length_bmpfileheader, length_bmpinfoheader. lia. }
  rewrite at_index_app_r by nia.
  rewrite at_index_snapshot_rows by lia. done.
Qed.

Lemma length_snapshot_bytes p :
  0 <= GetWidth p -> GetWidth p mod 4 = 0 -> 0 <= GetHeight p ->
  Z.of_nat (length (snapshot_bytes p)) = 54 + GetHeight p * (3 * GetWidth p).
Proof.
  intros H0 H4 Hh. unfold snapshot_bytes. cbn zeta.
  rewrite !length_app, length_bmpfileheader, length_bmpinfoheader.
  rewrite !Nat2Z.inj_add, length_snapshot_rows by done. lia.
Qed.

(** ** Snapshot, then decode *)

Lemma byte_of_le v :
  0 <= v < 4294967296 ->
  byte_of v 0 + 256 * (byte_of v 8 + 256 * (byte_of v 16 + 256 * (byte_of v 24 + 256 * 0))) = v.
Proof.
  intros H. unfold byte_of, u8. rewrite !Z.shiftr_div_pow2 by lia.
  change (2 ^ 0) with 1. change (2 ^ 8) with 256. change (2 ^ 16) with 65536.
  change (2 ^ 24) with 16777216.
  Z.div_mod_to_equations. lia.
Qed.

Lemma read16_at bytes q b0 b1 :
  0 <= q ->
  bytes !! Z.to_nat q = Some b0 -> bytes !! S (Z.to_nat q) = Some b1 ->
  read16 (mkFile bytes q) = Some (b0 + 256 * (b1 + 256 * 0), mkFile bytes (q + 2)).
Proof.
  intros Hq H0 H1. unfold read16, read, file_peek. cbn [content position].
  change (Z.to_nat 2) with 2%nat.
  rewrite (take_S_r _ 1 b1) by (by rewrite lookup_drop, Nat.add_1_r).
  rewrite (take_S_r _ 0 b0) by (by rewrite lookup_drop, Nat.add_0_r).
  done.
Qed.

Lemma read32_at bytes q b0 b1 b2 b3 :
  0 <= q ->
  bytes !! Z.to_nat q = Some b0 -> bytes !! S (Z.to_nat q) = Some b1 ->
  bytes !! S (S (Z.to_nat q)) = Some b2 -> bytes !! S (S (S (Z.to_nat q))) = Some b3 ->
  read32 (mkFile bytes q) =
  Some (b0 + 256 * (b1 + 256 * (b2 + 256 * (b3 + 256 * 0))), mkFile bytes (q + 4)).
Proof.
  intros Hq H0 H1 H2 H3. unfold read32, read, file_peek. cbn [content position].
  change (Z.to_nat 4) with 4%nat.
  rewrite (take_S_r _ 3 b3) by (rewrite lookup_drop; by replace (Z.to_nat q + 3)%nat with (S (S (S (Z.to_nat q)))) by lia).
  rewrite (take_S_r _ 2 b2) by (rewrite lookup_drop; by replace (Z.to_nat q + 2)%nat with (S (S (Z.to_nat q))) by lia).
  rewrite (take_S_r _ 1 b1) by (by rewrite lookup_drop, Nat.add_1_r).
  rewrite (take_S_r _ 0 b0) by (by rewrite lookup_drop, Nat.add_0_r).
  done.
Qed.

Lemma rd_bind_some {A B} (m : Rd A) (k : A -> Rd B) f a f' :
  m f = Some (a, f') -> (m ≫= k) f = k a f'.
Proof. intros H. unfold mbind, rd_bind. by rewrite H. Qed.

Lemma parse_header_snapshot p :
  0 <= GetWidth p < 2147483648 -> 0 <= GetHeight p < 2147483648 ->
  parse_header (mkFile (snapshot_bytes p) 0) =
  Some (Some (mkHeader 54 (GetWidth p) (GetHeight p)), mkFile (snapshot_bytes p) 34).
Proof.
  intros HW HH. unfold parse_header.
  erewrite rd_bind_some; [|by apply read16_at].
  change (66 + 256 * (77 + 256 * 0) =? 19778) with true. cbv iota.
  do 6 (erewrite rd_bind_some; [|by apply read32_at]).
  erewrite rd_bind_some; [|by apply read16_at].
  change (1 + 256 * (0 + 256 * 0) =? 1) with true. cbv iota.
  erewrite rd_bind_some; [|by apply read16_at].
  change (u8 (24 + 256 * (0 + 256 * 0)) =? 24) with true. cbv iota.
  erewrite rd_bind_some; [|by apply read32_at].
  change (0 + 256 * (0 + 256 * (0 + 256 * (0 + 256 * 0))) =? 0) with true. cbv iota.
  unfold mret, rd_ret.
  rewrite !byte_of_le by lia. rewrite !i32_small by lia. done.
Qed.

Lemma decode_draws_coords bytes h row n w :
  (fun d => (d.1.1, d.1.2)) <$> decode_draws bytes h row n w = grid row n w.
Proof.
  unfold decode_draws, grid. induction (seqZ row n) as [|r l IH]; [done|].
  cbn [mbind list_bind]. rewrite fmap_app, IH. f_equal.
  unfold row_draws. rewrite <- list_fmap_compose. done.
Qed.

Lemma elem_of_decode_draws bytes h row n w r c :
  row <= r < row + n -> 0 <= c < w ->
  (r, c, colour_of (file_pixel bytes (row_pos h r + 3 * c)))
    ∈ decode_draws bytes h row n w.
Proof.
  intros Hr Hc. unfold decode_draws. apply list_elem_of_bind. exists r. split.
  - unfold row_draws. apply list_elem_of_fmap. exists c. split; [done|].
    apply elem_of_seqZ. lia.
  - apply elem_of_seqZ. lia.
Qed.

Lemma colour_of_idem v : colour_of (colour_of v) = colour_of v.
Proof. unfold colour_of. by destruct (v =? 0). Qed.

Lemma colour_of_pack_gray v :
  v = 0 \/ v = 255 ->
  colour_of (pack_colour v v v) = if v =? 0 then BLACK else WHITE.
Proof. intros [-> | ->]; done. Qed.

Lemma snapshot_rgb_gray img W row col :
  snapshot_rgb img W row col = 0 \/ snapshot_rgb img W row col = 255.
Proof. unfold snapshot_rgb. case_match; auto. Qed.

(** With a width that is a multiple of 8, the gray level the encoder emits
    for row [row], column [col] is the colour of the pixel (col, row). *)
Lemma snapshot_rgb_get_pixel p row col :
  0 <= GetWidth p -> GetWidth p mod 8 = 0 -> 0 <= row -> 0 <= col ->
  (if snapshot_rgb (GetImage p) (GetWidth p) row col =? 0 then BLACK else WHITE)
  = get_pixel p col row.
Proof.
  intros HW H8 Hr Hc. unfold snapshot_rgb, get_pixel, pixel_index, pixel_mask,
    GetImage, GetWidth in *.
  rewrite Z.quot_div_nonneg, Z.rem_mod_nonneg by nia.
  replace ((row * width p + col) mod 8) with (col mod 8).
  2: { revert H8. generalize (width p). intros W H8.
       Z.div_mod_to_equations. lia. }
  by destruct (Z.land _ _ =? 0).
Qed.

Lemma rowSize_mult4 W :
  0 <= W -> W * 3 + 3 < 2147483648 -> W mod 4 = 0 -> rowSize W = 3 * W.
Proof.
  intros H0 H1 H4. rewrite rowSize_exact by done. Z.div_mod_to_equations. lia.
Qed.

(** X19: what [snapshot] followed by [bmpDraw] gives as the code stands.
    For a framebuffer whose width is a multiple of 8 (so that rows need no
    padding), encoding it with [snapshot] and decoding the file with
    [bmpDraw] at offset (0, 0) into a fresh framebuffer of the same
    dimensions yields the transposed picture: the pixel (x, y) of the
    result is the pixel (y, x) of the original wherever (y, x) lies in the
    picture, which is everywhere for a square framebuffer; every other
    pixel keeps the colour it had. *)
Theorem snapshot_bmpDraw_transposes (p fresh : Paint) (w : World) :
  0 < GetWidth p -> GetWidth p mod 8 = 0 -> 0 < GetHeight p ->
  54 + 3 * GetWidth p * GetHeight p < 2147483648 ->
  fits p -> fits fresh ->
  GetWidth fresh = GetWidth p -> GetHeight fresh = GetHeight p ->
  exists w',
    bmpDraw outfile 0 0 (with_paint fresh (snapshot p w)) = Some w' /\
    forall x y, in_bounds fresh x y ->
      get_pixel (paint w') x y =
      if (x <? GetHeight p) && (y <? GetWidth p)
      then get_pixel p y x else get_pixel fresh x y.
Proof.
  intros HW H8 HH Hsz Hfp Hff EW EH.
  set (bytes := snapshot_bytes p).
  set (h := mkHeader 54 (GetWidth p) (GetHeight p)).
  set (w1 := with_paint fresh (snapshot p w)).
  assert (H4 : GetWidth p mod 4 = 0) by (Z.div_mod_to_equations; lia).
  assert (HW3 : GetWidth p * 3 + 3 < 2147483648) by nia.
  assert (HH31 : GetHeight p < 2147483648) by nia.
  assert (Hlen : Z.of_nat (length bytes) = 54 + GetHeight p * (3 * GetWidth p)).
  { apply length_snapshot_bytes; lia. }
  assert (Hrs : rowSize (GetWidth p) = 3 * GetWidth p).
  { apply rowSize_mult4; lia. }
  assert (Hwf : well_formed bytes h).
  { unfold well_formed, h. cbn [bmpWidth bmpHeight bmpImageoffset].
    rewrite Hrs, Hlen. split_and!; lia. }
  assert (Hoff : offsets_ok 0 0 (paint w1)).
  { unfold offsets_ok, w1. cbn [paint with_paint]. rewrite EW, EH. lia. }
  assert (Hcw : crop_w h 0 (paint w1) = GetWidth p).
  { unfold crop_w, w1, h. cbn [paint with_paint bmpWidth]. rewrite EW.
    rewrite i32_small by lia.
    destruct (Z.leb_spec (GetWidth p) (0 + GetWidth p - 1)); [lia|done]. }
  assert (Hch : crop_h h 0 (paint w1) = GetHeight p).
  { unfold crop_h, w1. cbn [paint with_paint]. rewrite EH.
    rewrite abs_height_exact by (unfold h; cbn; lia). unfold h. cbn [bmpHeight].
    rewrite Z.abs_eq by lia. rewrite i32_small by lia.
    destruct (Z.leb_spec (GetHeight p) (0 + GetHeight p - 1)); [lia|done]. }
  destruct (bmpDraw_pixels outfile 0 0 w1 bytes h (mkFile bytes 34)) as (w' & E & _ & P);
    try done.
  { unfold w1, snapshot. cbn [files with_paint]. apply lookup_insert_eq. }
  { apply parse_header_snapshot; lia. }
  { left. unfold flip, h. cbn [bmpHeight].
    destruct (Z.ltb_spec (GetHeight p) 0); [lia|done]. }
  exists w'. split; [done|]. intros x y [Hx Hy].
  rewrite P, Hcw, Hch. unfold w1. cbn [paint with_paint].
  unfold GetWidth, GetHeight in *.
  destruct (Z.ltb_spec x (height p)) as [Hxh|Hxh];
    [destruct (Z.ltb_spec y (width p)) as [Hyw|Hyw]|]; cbn [andb].
  - rewrite (get_pixel_apply_draws_hit _ fresh x y
               (colour_of (file_pixel bytes (row_pos h x + 3 * y)))).
    + rewrite colour_of_idem.
      rewrite (row_pos_exact bytes) by (done || (unfold h; cbn; lia)).
      assert (flip h = true) as ->.
      { unfold flip, h. cbn [bmpHeight].
        destruct (Z.ltb_spec (height p) 0); [lia|done]. }
      unfold h. cbn [bmpHeight bmpImageoffset bmpWidth].
      unfold GetWidth in Hrs. rewrite Hrs, Z.abs_eq by lia.
      unfold file_pixel.
      pose proof (at_index_snapshot_bytes p (height p - 1 - x) y) as A.
      unfold GetWidth, GetHeight in A. fold bytes in A.
      pose proof (A 0 ltac:(lia) H4 ltac:(lia) ltac:(lia) ltac:(lia)) as A0.
      rewrite Z.add_0_r in A0.
      rewrite A0, !A by lia.
      replace (height p - 1 - (height p - 1 - x)) with x by lia.
      rewrite colour_of_pack_gray by apply snapshot_rgb_gray.
      apply (snapshot_rgb_get_pixel p x y); unfold GetWidth; lia.
    + rewrite decode_draws_coords. apply NoDup_grid.
    + apply elem_of_decode_draws; lia.
    + unfold in_bounds. lia.
    + destruct Hff as (_ & _ & Hcap). unfold pixel_index. nia.
  - apply get_pixel_apply_draws_frame. intros d Hd Hb Ei.
    assert ((d.1.1, d.1.2) ∈ grid 0 (height p) (width p)) as Hg.
    { rewrite <- (decode_draws_coords bytes h). apply list_elem_of_fmap. by exists d. }
    apply elem_of_grid in Hg.
    destruct (pixel_index_inj fresh _ _ x y Hb ltac:(unfold in_bounds; lia) Ei). lia.
  - apply get_pixel_apply_draws_frame. intros d Hd Hb Ei.
    assert ((d.1.1, d.1.2) ∈ grid 0 (height p) (width p)) as Hg.
    { rewrite <- (decode_draws_coords bytes h). apply list_elem_of_fmap. by exists d. }
    apply elem_of_grid in Hg.
    destruct (pixel_index_inj fresh _ _ x y Hb ltac:(unfold in_bounds; lia) Ei). lia.
Qed.

(** ** Row addressing *)

Lemma row_pos_scanline_offset bytes h r :
  well_formed bytes h -> 0 <= r < Z.abs (bmpHeight h) ->
  row_pos h r = scanline_offset h r.
Proof.
  intros Hwf Hr. rewrite (row_pos_exact bytes) by done.
  destruct Hwf as (HW & HW3 & HH & _). rewrite rowSize_exact by lia.
  unfold scanline_offset, flip. cbn zeta.
  destruct (Z.ltb_spec (bmpHeight h) 0); destruct (Z.ltb_spec 0 (bmpHeight h));
    cbn [negb]; lia.
Qed.

Lemma position_seek_if_needed pos d :
  position (bmpFile (seek_if_needed pos d)) = pos.
Proof.
  unfold seek_if_needed.
  destruct (Z.eqb_spec (position (bmpFile d)) pos); done.
Qed.

Lemma decode_draws_scanline_offset bytes h n w :
  well_formed bytes h -> n <= Z.abs (bmpHeight h) ->
  decode_draws bytes h 0 n w =
  r ← seqZ 0 n; row_draws bytes r (scanline_offset h r) w.
Proof.
  intros Hwf Hn. unfold decode_draws.
  assert (Hin : forall r, r ∈ seqZ 0 n -> 0 <= r < Z.abs (bmpHeight h)).
  { intros r Hr%elem_of_seqZ. lia. }
  induction (seqZ 0 n) as [|r l IH]; [done|].
  cbn [mbind list_bind]. rewrite IH by (intros; apply Hin; by right).
  rewrite (row_pos_scanline_offset bytes) by (done || apply Hin; by left). done.
Qed.

(** X20: row addressing on a well-formed file.  The row stride is
    ((width*3 + 3) / 4) * 4, which is what [(width*3 + 3) & ~3] computes; a
    positive header height leaves the flip flag set and a negative one
    clears it; the position the decoder asks for before scanline [r] is
    [bmpImageoffset + (height-1-r)*row_bytes] bottom-up and
    [bmpImageoffset + r*row_bytes] top-down; and, where no scanline inherits
    buffered bytes from the one before it ([no_stale_buffer]: a bottom-up
    file, a cropped width that is a multiple of 20, or a stride other than
    the bytes a scanline reads), the pixel written for scanline [r], column
    [c], is the one stored at that offset plus 3c. *)
Theorem bmp_row_addressing (filename : string) (x y : Z) (w : World)
    (bytes : list Z) (h : BmpHeader) (f : File) :
  offsets_ok x y (paint w) ->
  files w !! filename = Some bytes ->
  parse_header (mkFile bytes 0) = Some (Some h, f) ->
  well_formed bytes h ->
  rowSize (bmpWidth h) = (bmpWidth h * 3 + 3) / 4 * 4 /\
  Z.land (bmpWidth h * 3 + 3) (Z.lnot 3) = (bmpWidth h * 3 + 3) / 4 * 4 /\
  (0 < bmpHeight h -> flip h = true) /\
  (bmpHeight h < 0 -> flip h = false) /\
  (forall r d, 0 <= r < Z.abs (bmpHeight h) ->
     position (bmpFile (seek_if_needed (row_pos h r) d)) = scanline_offset h r) /\
  (no_stale_buffer h (crop_w h x (paint w)) ->
   exists w',
     bmpDraw filename x y w = Some w' /\
     draws (trace w') =
       draws (trace w)
         ++ (r ← seqZ 0 (crop_h h y (paint w));
             row_draws bytes r (scanline_offset h r) (crop_w h x (paint w)))).
Proof.
  intros Hoff Hf Hp Hwf. pose proof Hwf as (HW & HW3 & HH & _).
  split; [apply rowSize_exact; lia|]. split; [apply land_lnot3|].
  split; [|split; [|split]].
  - intros H. unfold flip. destruct (Z.ltb_spec (bmpHeight h) 0); [lia|done].
  - intros H. unfold flip. destruct (Z.ltb_spec (bmpHeight h) 0); [done|lia].
  - intros r d Hr. rewrite position_seek_if_needed.
    by apply (row_pos_scanline_offset bytes).
  - intros Hns.
    destruct (bmpDraw_pixels filename x y w bytes h f) as (w' & E & D & _); try done.
    exists w'. split; [done|]. rewrite D. f_equal.
    apply decode_draws_scanline_offset; [done|].
    destruct Hoff as (_ & _ & Hy & Hph). by apply crop_h_bounds.
Qed.

(** ** Files the decoder does not accept *)

Lemma read_ok bytes q n :
  0 <= q -> 0 <= n -> q + n <= Z.of_nat (length bytes) ->
  read n (mkFile bytes q) = Some (field bytes q n, mkFile bytes (q + n)).
Proof.
  intros Hq Hn Hlen. unfold read, field, file_peek. cbn [content position].
  rewrite length_take, length_drop.
  destruct (Z.eqb_spec (Z.of_nat (Z.to_nat n `min` (length bytes - Z.to_nat q))) n);
    [done|lia].
Qed.

(** A file of at least 34 bytes is turned down when the signature is not
    "BM", or the plane count is not 1, or the low byte of the depth field is
    not 24, or the compression field is not 0. *)
Lemma parse_header_rejects bytes :
  34 <= Z.of_nat (length bytes) ->
  field bytes 0 2 <> 19778 \/ field bytes 26 2 <> 1 \/
  u8 (field bytes 28 2) <> 24 \/ field bytes 30 4 <> 0 ->
  exists f, parse_header (mkFile bytes 0) = Some (None, f).
Proof.
  intros Hlen Hrej. unfold parse_header, read16, read32.
  erewrite rd_bind_some; [|by apply read_ok; lia].
  destruct (Z.eqb_spec (field bytes 0 2) 19778) as [E1|E1]; [|by eexists].
  do 6 (erewrite rd_bind_some; [|by apply read_ok; lia]).
  erewrite rd_bind_some; [|by apply read_ok; lia].
  change (0 + 2 + 4 + 4 + 4 + 4 + 4 + 4) with 26.
  destruct (Z.eqb_spec (field bytes 26 2) 1) as [E2|E2]; [|by eexists].
  erewrite rd_bind_some; [|by apply read_ok; lia].
  change (26 + 2) with 28.
  destruct (Z.eqb_spec (u8 (field bytes 28 2)) 24) as [E3|E3]; [|by eexists].
  erewrite rd_bind_some; [|by apply read_ok; lia].
  change (28 + 2) with 30.
  destruct (Z.eqb_spec (field bytes 30 4) 0) as [E4|E4]; [|by eexists].
  destruct Hrej as [?|[?|[?|?]]]; done.
Qed.

(** X2: a file of at least 34 bytes with a wrong signature, a plane count
    other than 1, a depth whose low byte is not 24 or a compression other
    than 0 is opened and closed, and nothing is drawn: the framebuffer is
    byte for byte what it was. *)
Lemma bmpDraw_rejects_unchanged filename x y w bytes :
  x < GetWidth (paint w) -> y < GetHeight (paint w) ->
  files w !! filename = Some bytes ->
  34 <= Z.of_nat (length bytes) ->
  field bytes 0 2 <> 19778 \/ field bytes 26 2 <> 1 \/
  u8 (field bytes 28 2) <> 24 \/ field bytes 30 4 <> 0 ->
  exists w',
    bmpDraw filename x y w = Some w' /\
    paint w' = paint w /\ draws (trace w') = draws (trace w).
Proof.
  intros Hx Hy Hf Hlen Hrej.
  destruct (parse_header_rejects bytes Hlen Hrej) as [f Hp].
  eexists. split; [by eapply bmpDraw_rejected|]. cbn [paint trace].
  split; [done|]. rewrite draws_app. cbn. by rewrite app_nil_r.
Qed.

(** ** The sample files *)

Lemma bmpDraw_coordinates_witness :
  exists w' new,
    bmpDraw outfile 0 0 small_world = Some w' /\
    draws (trace w') = draws (trace small_world) ++ new /\
    (fun d => (d.1.1, d.1.2)) <$> new
      = grid 0 (crop_h (mkHeader 54 8 8) 0 (paint small_world))
               (crop_w (mkHeader 54 8 8) 0 (paint small_world)) /\
    draw_coords (trace w') =
      draw_coords (trace small_world)
        ++ grid 0 (crop_h (mkHeader 54 8 8) 0 (paint small_world))
                  (crop_w (mkHeader 54 8 8) 0 (paint small_world)) /\
    paint w' = apply_draws new (paint small_world) /\
    (fits (paint small_world) ->
     forall r c colour, (r, c, colour) ∈ new -> in_bounds (paint small_world) r c ->
       get_pixel (paint w') r c = colour_of colour) /\
    forall x' y',
      x' < GetWidth (paint small_world) -> y' < GetHeight (paint small_world) ->
      crop_w (mkHeader 54 8 8) x' (paint small_world)
        = crop_w (mkHeader 54 8 8) 0 (paint small_world) ->
      crop_h (mkHeader 54 8 8) y' (paint small_world)
        = crop_h (mkHeader 54 8 8) 0 (paint small_world) ->
      exists w'' new',
        bmpDraw outfile x' y' small_world = Some w'' /\
        draws (trace w'') = draws (trace small_world) ++ new' /\
        (fun d => (d.1.1, d.1.2)) <$> new' = (fun d => (d.1.1, d.1.2)) <$> new /\
        draw_coords (trace w'') = draw_coords (trace w') /\
        paint w'' = apply_draws new' (paint small_world).
Proof.
  apply (bmpDraw_coordinates outfile 0 0 small_world
           (snapshot_bytes small_paint) (mkHeader 54 8 8)
           (mkFile (snapshot_bytes small_paint) 34)).
  - cbn. lia.
  - cbn. lia.
  - vm_compute. reflexivity.
  - vm_compute. reflexivity.
Defined.

(** C4 at a depth field of 280: [bmpDepth] is a [uint8_t], 280 narrows to
    24, the file is accepted and its pixel is drawn; the framebuffer
    changes. *)
Theorem bmpDraw_depth280_draws :
  exists w',
    bmpDraw "/depth280.bmp" 0 0 sample_world = Some w' /\
    draws (trace w') = [(0, 0, BLACK)] /\
    image (paint w') <> image (paint sample_world).
Proof.
  eexists. split; [vm_compute; reflexivity|]. split; [vm_compute; reflexivity|].
  vm_compute. discriminate.
Qed.

(** C7 on a top-down file 19 pixels wide: after scanline 0 the file
    position is already the offset of scanline 1, no seek takes place, and
    the three bytes left in the buffer (the padding of scanline 0) are taken
    for the first pixel of scanline 1.  The decoder writes BLACK at (1, 0)
    where the reference decode writes WHITE. *)
Theorem bmpDraw_topdown19_differs :
  exists w1 w2,
    bmpDraw "/topdown19.bmp" 0 0 sample_world = Some w1 /\
    ref_bmpDraw "/topdown19.bmp" 0 0 sample_world = Some w2 /\
    seeks (trace w1) = [54] /\
    seeks (trace w2) = [54; 114] /\
    draws (trace w1) !! 19%nat = Some (1, 0, BLACK) /\
    draws (trace w2) !! 19%nat = Some (1, 0, WHITE) /\
    draws (trace w1) <> draws (trace w2).
Proof.
  do 2 eexists. split; [vm_compute; reflexivity|].
  split; [vm_compute; reflexivity|].
  split; [vm_compute; reflexivity|].
  split; [vm_compute; reflexivity|].
  split; [vm_compute; reflexivity|].
  split; [vm_compute; reflexivity|].
  vm_compute. discriminate.
Qed.

(** C8 fails on a mixed-case suffix: "/photo.Bmp" ends in ".bmp" up to
    letter case and names a well-formed bitmap file, yet nothing is decoded
    and the panel is not driven. *)
Lemma display_image_mixed_case :
  has_suffix (lower_string "/photo.Bmp") ".bmp" /\
  display_image no_png "/photo.Bmp" sample_world = Some sample_world /\
  display_image no_png "/photo.BMP" sample_world <> Some sample_world.
Proof.
  split; [by exists "/photo"|]. split; [vm_compute; reflexivity|].
  vm_compute. discriminate.
Qed.

Lemma display_image_dispatch_witness :
  display_image no_png "/photo.BMP" sample_world =
  display_bmp "/photo.BMP" sample_world.
Proof.
  apply (display_image_dispatch no_png "/photo.BMP" sample_world).
  - apply endsWith_false. reflexivity.
  - right. by exists "/photo".
Defined.

(** C1 fails on an 8 by 8 framebuffer that is white except for the pixel
    (1, 0): [pushColours] passes the scanline number to [DrawPixel] as x and
    the column as y, so after [snapshot] and [bmpDraw] into a fresh
    framebuffer of the same dimensions the black pixel is at (0, 1) and the
    bit pattern is not the original one. *)
Lemma roundtrip_moves_pixel :
  exists w',
    bmpDraw outfile 0 0 small_world = Some w' /\
    image (paint w') <> image small_paint /\
    get_pixel small_paint 1 0 = BLACK /\
    get_pixel (paint w') 1 0 = WHITE /\
    get_pixel (paint w') 0 1 = BLACK.
Proof.
  eexists. split; [vm_compute; reflexivity|].
  split; [vm_compute; discriminate|].
  repeat split; vm_compute; reflexivity.
Qed.

(** C5 fails on the top-down file 19 pixels wide.  The file is well formed,
    its header height is negative and the flip flag is cleared, and scanline
    1 is stored at [bmpImageoffset + 1 * row_bytes] = 114, where the file
    holds a white pixel; but the decoder does not read scanline 1 from
    there: it takes the first pixel from the bytes left in the buffer and
    writes BLACK at scanline 1, column 0.  The pixel writes are not those
    of the scanlines read at their offsets. *)
Theorem bmp_row_addressing_topdown19 :
  let h := mkHeader 54 19 (-2) in
  parse_header (mkFile topdown19_bmp 0) = Some (Some h, mkFile topdown19_bmp 34) /\
  well_formed topdown19_bmp h /\
  flip h = false /\
  rowSize (bmpWidth h) = 60 /\
  scanline_offset h 1 = 54 + 1 * 60 /\
  colour_of (file_pixel topdown19_bmp (scanline_offset h 1)) = WHITE /\
  exists w',
    bmpDraw "/topdown19.bmp" 0 0 sample_world = Some w' /\
    draws (trace w') !! 19%nat = Some (1, 0, BLACK) /\
    draws (trace w') <>
      draws (trace sample_world)
        ++ (r ← seqZ 0 2; row_draws topdown19_bmp r (scanline_offset h r) 19).
Proof.
  cbv zeta. split; [vm_compute; reflexivity|].
  split; [unfold well_formed; split_and!; vm_compute; done|].
  split; [reflexivity|]. split; [reflexivity|]. split; [reflexivity|].
  split; [vm_compute; reflexivity|].
  eexists. split; [vm_compute; reflexivity|].
  split; [vm_compute; reflexivity|].
  vm_compute. discriminate.
Qed.

(** ** Instances of the general theorems *)

Lemma small_world_file : files small_world !! outfile = Some (snapshot_bytes small_paint).
Proof. vm_compute. reflexivity. Defined.

Lemma small_world_header :
  parse_header (mkFile (snapshot_bytes small_paint) 0) =
  Some (Some (mkHeader 54 8 8), mkFile (snapshot_bytes small_paint) 34).
Proof. vm_compute. reflexivity. Defined.

Lemma small_world_offsets : offsets_ok 0 0 (paint small_world).
Proof. unfold offsets_ok. cbn. lia. Defined.

Lemma small_world_well_formed : well_formed (snapshot_bytes small_paint) (mkHeader 54 8 8).
Proof. unfold well_formed. split_and!; vm_compute; done. Defined.

Lemma small_world_no_stale :
  no_stale_buffer (mkHeader 54 8 8) (crop_w (mkHeader 54 8 8) 0 (paint small_world)).
Proof. left. reflexivity. Defined.

Lemma bmp_row_addressing_witness :
  let h := mkHeader 54 8 8 in
  let bytes := snapshot_bytes small_paint in
  rowSize (bmpWidth h) = (bmpWidth h * 3 + 3) / 4 * 4 /\
  Z.land (bmpWidth h * 3 + 3) (Z.lnot 3) = (bmpWidth h * 3 + 3) / 4 * 4 /\
  (0 < bmpHeight h -> flip h = true) /\
  (bmpHeight h < 0 -> flip h = false) /\
  (forall r d, 0 <= r < Z.abs (bmpHeight h) ->
     position (bmpFile (seek_if_needed (row_pos h r) d)) = scanline_offset h r) /\
  exists w',
    bmpDraw outfile 0 0 small_world = Some w' /\
    draws (trace w') =
      draws (trace small_world)
        ++ (r ← seqZ 0 (crop_h h 0 (paint small_world));
            row_draws bytes r (scanline_offset h r) (crop_w h 0 (paint small_world))).
Proof.
  destruct (bmp_row_addressing outfile 0 0 small_world (snapshot_bytes small_paint)
              (mkHeader 54 8 8) (mkFile (snapshot_bytes small_paint) 34)
              small_world_offsets small_world_file small_world_header
              small_world_well_formed) as (A & B & C & D & E & F).
  exact (conj A (conj B (conj C (conj D (conj E (F small_world_no_stale)))))).
Defined.

Lemma small_paint_fits : fits small_paint.
Proof. unfold fits. split_and!; vm_compute; done. Defined.

Lemma small_fresh_fits : fits small_fresh.
Proof. unfold fits. split_and!; vm_compute; done. Defined.

Lemma snapshot_bmpDraw_transposes_witness :
  exists w',
    bmpDraw outfile 0 0 small_world = Some w' /\
    forall x y, in_bounds small_fresh x y ->
      get_pixel (paint w') x y =
      if (x <? GetHeight small_paint) && (y <? GetWidth small_paint)
      then get_pixel small_paint y x else get_pixel small_fresh x y.
Proof.
  apply (snapshot_bmpDraw_transposes small_paint small_fresh (world_of small_paint ∅)).
  - cbn. lia.
  - reflexivity.
  - cbn. lia.
  - cbn. lia.
  - exact small_paint_fits.
  - exact small_fresh_fits.
  - reflexivity.
  - reflexivity.
Defined.

Lemma large_world_file :
  files large_world !! outfile = Some (snapshot_bytes (mkPaint (replicate 5000 170) 16 16)).
Proof. vm_compute. reflexivity. Defined.

Lemma large_world_header :
  parse_header (mkFile (snapshot_bytes (mkPaint (replicate 5000 170) 16 16)) 0) =
  Some (Some (mkHeader 54 16 16),
        mkFile (snapshot_bytes (mkPaint (replicate 5000 170) 16 16)) 34).
Proof. vm_compute. reflexivity. Defined.

Lemma bmpDraw_clipping_witness :
  exists w' new,
    bmpDraw outfile 0 0 large_world = Some w' /\
    draws (trace w') = draws (trace large_world) ++ new /\
    (forall r c colour, (r, c, colour) ∈ new ->
       0 <= r < GetHeight (paint large_world) - 0 /\
       0 <= c < GetWidth (paint large_world) - 0) /\
    GetWidth (paint w') = GetWidth (paint large_world) /\
    GetHeight (paint w') = GetHeight (paint large_world) /\
    length (GetImage (paint w')) = length (GetImage (paint large_world)) /\
    (forall k : nat,
       (forall px py, in_bounds (paint large_world) px py ->
                      clip_region (mkHeader 54 16 16) 0 0 (paint large_world) px py ->
                      pixel_index (paint large_world) px py / 8 <> Z.of_nat k) ->
       GetImage (paint w') !! k = GetImage (paint large_world) !! k) /\
    (forall px py, in_bounds (paint large_world) px py ->
                   ~ clip_region (mkHeader 54 16 16) 0 0 (paint large_world) px py ->
                   get_pixel (paint w') px py = get_pixel (paint large_world) px py).
Proof.
  apply (bmpDraw_clipping outfile 0 0 large_world
           (snapshot_bytes (mkPaint (replicate 5000 170) 16 16)) (mkHeader 54 16 16)
           (mkFile (snapshot_bytes (mkPaint (replicate 5000 170) 16 16)) 34)).
  - cbn. lia.
  - cbn. lia.
  - cbn. lia.
  - cbn. lia.
  - cbn. lia.
  - cbn. lia.
  - exact large_world_file.
  - exact large_world_header.
Defined.


(** * Further properties of the code *)

(** ** What [bmpDraw] leaves alone *)

(** X3: whenever [bmpDraw] returns, the framebuffer has the dimensions and
    the backing store size it had, the file system, [epdState] and
    [currentImage] are untouched, and the trace has only grown: by nothing
    (offset guard), by the failed open, or by an open that is matched by a
    close.  A file that was opened is never left open. *)
Theorem bmpDraw_preserves (filename : string) (x y : Z) (w w' : World) :
  bmpDraw filename x y w = Some w' ->
  GetWidth (paint w') = GetWidth (paint w) /\
  GetHeight (paint w') = GetHeight (paint w) /\
  length (GetImage (paint w')) = length (GetImage (paint w)) /\
  files w' = files w /\ epdState w' = epdState w /\
  currentImage w' = currentImage w /\
  exists evs,
    trace w' = trace w ++ evs /\
    (evs = [] \/ (evs = [EvOpen filename] /\ files w !! filename = None) \/
     exists mid, evs = EvOpen filename :: mid ++ [EvClose]).
Proof.
  unfold bmpDraw.
  destruct ((GetWidth (paint w) <=? x) || (GetHeight (paint w) <=? y)).
  { intros [= <-]. split_and!; try done. exists []. rewrite app_nil_r. auto. }
  destruct (files w !! filename) as [bytes|] eqn:Hf.
  2: { intros [= <-]. split_and!; try done. exists [EvOpen filename]. auto. }
  destruct (parse_header (mkFile bytes 0)) as [[[h|] f]|] eqn:Hp; [| |done].
  - intros [= <-].
    destruct (start_decoder_shape f (log (EvOpen filename) w)) as [Hl Hs].
    destruct (replays_decode h x y _ Hl Hs) as (evs & T & P).
    unfold finish, GetWidth, GetHeight, GetImage. cbn [paint files epdState currentImage trace log].
    rewrite T, P. cbn [d_trace d_paint start_decoder log trace paint].
    destruct (apply_draws_dims (draws evs) (paint w)) as (E1 & E2 & E3).
    split_and!; try done.
    exists (EvOpen filename :: evs ++ [EvClose]). split.
    + rewrite <- !app_assoc. done.
    + right. right. by exists evs.
  - intros [= <-]. unfold finish. cbn. split_and!; try done.
    exists (EvOpen filename :: [] ++ [EvClose]). split.
    + by rewrite <- app_assoc.
    + right. right. by exists [].
Qed.

(** ** The pixels [bmpDraw] leaves on the framebuffer *)

Lemma at_index_byte bytes i : all_bytes bytes -> 0 <= at_index bytes i < 256.
Proof.
  intros H. unfold at_index. case_match; [lia|].
  destruct (bytes !! Z.to_nat i) as [v|] eqn:E; cbn; [|lia].
  by apply (Forall_lookup_1 _ _ _ _ H E).
Qed.

Lemma i32_shiftl24_zero r : 0 <= r < 256 -> i32 (Z.shiftl r 24) = 0 -> r = 0.
Proof.
  intros Hr. rewrite Z.shiftl_mul_pow2 by lia. unfold i32.
  change (2 ^ 24) with 16777216. intros H.
  destruct (Z.lt_ge_cases r 128).
  - rewrite Z.mod_small in H by lia. lia.
  - replace (r * 16777216 + 2147483648)
      with (r * 16777216 - 2147483648 + 1 * 4294967296) in H by lia.
    rewrite Z.mod_add, Z.mod_small in H by lia. lia.
Qed.

(** [main.cpp:903] with [main.cpp:742]: a pixel is shown black exactly when
    its three bytes are zero. *)
Lemma colour_of_file_pixel bytes q :
  all_bytes bytes -> colour_of (file_pixel bytes q) = shown_colour bytes q.
Proof.
  intros H. unfold file_pixel, shown_colour, black_triple, pack_colour, colour_of.
  pose proof (at_index_byte bytes q H) as Hb.
  pose proof (at_index_byte bytes (q + 1) H) as Hg.
  pose proof (at_index_byte bytes (q + 2) H) as Hr.
  destruct (Z.eqb_spec (at_index bytes q) 0) as [Eb|Eb]; cbn [andb negb orb];
    [|by rewrite orb_true_r].
  rewrite orb_false_r.
  destruct (Z.eqb_spec (at_index bytes (q + 1)) 0) as [Eg|Eg]; cbn [andb].
  - rewrite Eg, Z.shiftl_0_l, Z.lor_0_r.
    destruct (Z.eqb_spec (at_index bytes (q + 2)) 0) as [Er|Er].
    + by rewrite Er.
    + destruct (Z.eqb_spec (i32 (Z.shiftl (at_index bytes (q + 2)) 24)) 0) as [E|E];
        [|done].
      by apply i32_shiftl24_zero in E.
  - destruct (Z.eqb_spec (Z.lor (i32 (Z.shiftl (at_index bytes (q + 2)) 24))
                            (Z.shiftl (at_index bytes (q + 1)) 8)) 0) as [E|E]; [|done].
    apply Z.lor_eq_0_iff in E as [_ E]. apply Z.shiftl_eq_0_iff in E; lia.
Qed.

(** The pixels after replaying the writes of a decode: a pixel of the
    cropped region holds the colour the file stores for it, any other
    pixel is unchanged. *)
Lemma get_pixel_decode_draws bytes h n cw p px py :
  well_formed bytes h -> n <= Z.abs (bmpHeight h) ->
  fits p -> in_bounds p px py ->
  get_pixel (apply_draws (decode_draws bytes h 0 n cw) p) px py =
  if (px <? n) && (py <? cw)
  then colour_of (file_pixel bytes (scanline_offset h px + 3 * py))
  else get_pixel p px py.
Proof.
  intros Hwf Hn Hfit Hin.
  destruct ((px <? n) && (py <? cw)) eqn:E.
  - apply andb_true_iff in E as [E1 E2].
    apply Z.ltb_lt in E1. apply Z.ltb_lt in E2.
    assert (0 <= px /\ 0 <= py) as [? ?] by (unfold in_bounds in Hin; lia).
    rewrite <- (row_pos_scanline_offset bytes) by (done || lia).
    rewrite <- colour_of_idem.
    apply get_pixel_apply_draws_hit; [| |done|by apply fits_pixel_index].
    + rewrite decode_draws_coords. apply NoDup_grid.
    + apply elem_of_decode_draws; lia.
  - apply get_pixel_apply_draws_frame. intros d Hd Hb Hi.
    apply (pixel_index_inj _ _ _ _ _ Hb Hin) in Hi as [<- <-].
    assert ((d.1.1, d.1.2) ∈ grid 0 n cw) as Hg.
    { rewrite <- (decode_draws_coords bytes h). apply list_elem_of_fmap. by exists d. }
    apply elem_of_grid in Hg. apply andb_false_iff in E as [E|E];
      apply Z.ltb_ge in E; lia.
Qed.

(** X4: the framebuffer after [bmpDraw], pixel by pixel, for a well-formed
    file of bytes in which no scanline inherits buffered bytes from the one
    before it ([no_stale_buffer]: the file is bottom-up, or the cropped
    width is a multiple of 20, or the row stride is not the number of bytes
    a scanline reads in chunks of 60), drawn with offsets inside a
    framebuffer that fits its backing store.  Scanline [px], column [py] of
    the cropped picture lands on the pixel [(px, py)] and is black exactly
    when the three bytes stored for it are zero, white otherwise; every
    other pixel keeps its colour.  (Without the condition on the buffer the
    statement fails: see C7.) *)
Theorem bmpDraw_get_pixel (filename : string) (x y : Z) (w : World)
    (bytes : list Z) (h : BmpHeader) (f : File) :
  offsets_ok x y (paint w) ->
  files w !! filename = Some bytes ->
  parse_header (mkFile bytes 0) = Some (Some h, f) ->
  well_formed bytes h ->
  no_stale_buffer h (crop_w h x (paint w)) ->
  all_bytes bytes ->
  fits (paint w) ->
  exists w',
    bmpDraw filename x y w = Some w' /\
    forall px py, in_bounds (paint w) px py ->
      get_pixel (paint w') px py =
      if (px <? crop_h h y (paint w)) && (py <? crop_w h x (paint w))
      then shown_colour bytes (scanline_offset h px + 3 * py)
      else get_pixel (paint w) px py.
Proof.
  intros Ho Hf Hp Hwf Hns Hb Hfit.
  destruct (bmpDraw_pixels filename x y w bytes h f Ho Hf Hp Hwf Hns)
    as (w' & Hr & _ & Hpaint).
  exists w'. split; [done|]. intros px py Hin. rewrite Hpaint.
  rewrite get_pixel_decode_draws; try done.
  - by rewrite colour_of_file_pixel.
  - destruct Ho as (? & ? & ? & ?). destruct Hwf as (? & ? & ? & ?).
    apply crop_h_bounds; lia.
Qed.


(** ** Showing a bitmap *)

Lemma get_pixel_Clear_WHITE p px py :
  fits p -> in_bounds p px py -> get_pixel (Clear WHITE p) px py = WHITE.
Proof.
  intros Hfit Hin. pose proof (fits_pixel_index p px py Hfit Hin) as Hi.
  unfold get_pixel, Clear, pixel_index in *. cbv zeta. cbn [image width height].
  change (WHITE =? 0) with false. cbv iota.
  destruct Hfit as (HW & HH & Hlen). destruct Hin as [Hx Hy].
  set (i := py * width p + px) in *.
  assert (0 <= i < width p * height p) as Hr by (subst i; nia).
  assert (0 <= i / 8 < (width p * height p + 7) / 8 /\
          i / 8 < Z.of_nat (length (image p))) as [Hq Hq']
    by (Z.div_mod_to_equations; lia).
  assert (at_index
            (replicate (Z.to_nat ((width p * height p + 7) / 8)
                          `min` length (image p)) 255
             ++ drop (Z.to_nat ((width p * height p + 7) / 8)) (image p)) (i / 8)
          = 255) as ->.
  { rewrite at_index_app_l.
    - unfold at_index. case_match; [lia|].
      rewrite lookup_replicate_2; [done|]. lia.
    - rewrite length_replicate. lia. }
  rewrite pixel_mask_pow2.
  assert (Z.land 255 (2 ^ (7 - i mod 8)) = 2 ^ (7 - i mod 8)) as ->.
  { pose proof (Z.mod_pos_bound i 8 ltac:(lia)).
    assert (i mod 8 = 0 \/ i mod 8 = 1 \/ i mod 8 = 2 \/ i mod 8 = 3 \/
            i mod 8 = 4 \/ i mod 8 = 5 \/ i mod 8 = 6 \/ i mod 8 = 7) as Hm by lia.
    destruct Hm as [-> | [-> | [-> | [-> | [-> | [-> | [-> | ->]]]]]]]; done. }
  destruct (Z.eqb_spec (2 ^ (7 - i mod 8)) 0) as [E|E]; [|done].
  pose proof (Z.mod_pos_bound i 8 ltac:(lia)).
  pose proof (Z.pow_pos_nonneg 2 (7 - i mod 8) ltac:(lia) ltac:(lia)). lia.
Qed.

(** ** Drawing a file again *)

(** The pixel writes of the decoder depend on its locals and on the file,
    not on the framebuffer it draws on. *)














Lemma length_Clear c p : length (image (Clear c p)) = length (image p).
Proof.
  unfold Clear. cbn [image]. rewrite length_app, length_replicate, length_drop. lia.
Qed.

(** [bmpDraw] touches neither the file system nor the state strings. *)
Lemma bmpDraw_state filename x y w w' :
  bmpDraw filename x y w = Some w' ->
  files w' = files w /\ epdState w' = epdState w /\
  currentImage w' = currentImage w.
Proof.
  unfold bmpDraw.
  destruct ((GetWidth (paint w) <=? x) || (GetHeight (paint w) <=? y));
    [by intros [= <-]|].
  destruct (files w !! filename) as [bytes|]; [|by intros [= <-]].
  destruct (parse_header (mkFile bytes 0)) as [[[h|] f]|]; [| |done];
    by intros [= <-].
Qed.

(** The framebuffer [display_image] hands to the decoder: a white panel. *)
Lemma prepare_paint_white w :
  holds_panel (paint w) ->
  GetWidth (paint (prepare_paint w)) = image_width /\
  GetHeight (paint (prepare_paint w)) = image_height /\
  fits (paint (prepare_paint w)) /\
  forall px py, 0 <= px < image_width -> 0 <= py < image_height ->
    get_pixel (paint (prepare_paint w)) px py = WHITE.
Proof.
  intros Hh. unfold prepare_paint, with_paint. cbn [paint].
  set (p := SetHeight image_height (SetWidth image_width (paint w))).
  assert (fits p) as Hp.
  { unfold fits, p, SetHeight, SetWidth. cbn [width height image].
    unfold holds_panel, image_width, image_height in *. lia. }
  split_and!; try done.
  - unfold fits in *. by rewrite length_Clear.
  - intros px py Hx Hy. by apply get_pixel_Clear_WHITE.
Qed.

Lemma crop_shown h p :
  0 < bmpWidth h -> bmpWidth h * 3 + 3 < 2147483648 ->
  -2147483648 < bmpHeight h < 2147483648 ->
  GetWidth p = image_width -> GetHeight p = image_height ->
  crop_w h 0 p = shown_w h /\ crop_h h 0 p = shown_h h.
Proof.
  intros H0 H1 H2 EW EH. unfold crop_w, crop_h, shown_w, shown_h.
  rewrite EW, EH, abs_height_exact by done. unfold image_width, image_height.
  rewrite !i32_small by lia. split; case_match; lia.
Qed.

(** X6: [display_image] on the name of a well-formed bitmap of bytes in
    which no scanline inherits buffered bytes from the one before it
    ([no_stale_buffer] at the width shown: the file is bottom-up, or that
    width is a multiple of 20, or the row stride is not the number of bytes
    a scanline reads in chunks of 60).  The panel is initialised and
    cleared, the picture is decoded onto a white 200 by 200 framebuffer, and
    that framebuffer is the last thing sent to the panel: scanline [px],
    column [py] of the part that fits is at [(px, py)], black when its three
    bytes are zero; everything else is white.  Afterwards [epdState] is
    "active" and [currentImage] is the name. *)
Theorem display_image_bmp_shown
    (png_lines : string -> gmap string (list Z) -> option (list (PNGDRAW * list Z)))
    (filename : string) (w : World) (bytes : list Z) (h : BmpHeader) (f : File) :
  endsWith filename ".png" = false ->
  endsWith filename ".bmp" || endsWith filename ".BMP" = true ->
  files w !! filename = Some bytes ->
  parse_header (mkFile bytes 0) = Some (Some h, f) ->
  well_formed bytes h ->
  no_stale_buffer h (shown_w h) ->
  all_bytes bytes ->
  holds_panel (paint w) ->
  exists w',
    display_image png_lines filename w = Some w' /\
    epdState w' = "active" /\ currentImage w' = filename /\
    files w' = files w /\
    last (trace w') = Some (EvEpd (DisplayPart (GetImage (paint w')))) /\
    forall px py, 0 <= px < image_width -> 0 <= py < image_height ->
      get_pixel (paint w') px py =
      if (px <? shown_h h) && (py <? shown_w h)
      then shown_colour bytes (scanline_offset h px + 3 * py)
      else WHITE.
Proof.
  intros Hpng Hbmp Hf Hp Hwf Hns Hb Hh.
  unfold display_image. rewrite Hpng, Hbmp. unfold display_bmp.
  set (w1 := epd EpdClear (epd LDirInit (set_epdState "active" w))).
  destruct (prepare_paint_white w1 Hh) as (EW & EH & Hfit & Hwhite).
  set (w2 := prepare_paint w1) in *.
  pose proof Hwf as (W0 & W1 & W2 & W3).
  destruct (crop_shown h (paint w2) W0 W1 W2 EW EH) as [Ecw Ech].
  assert (offsets_ok 0 0 (paint w2)) as Ho.
  { unfold offsets_ok. rewrite EW, EH. unfold image_width, image_height. lia. }
  destruct (bmpDraw_pixels filename 0 0 w2 bytes h f) as (w3 & Hr & _ & P);
    try done.
  { by rewrite Ecw. }
  destruct (bmpDraw_state filename 0 0 w2 w3 Hr) as (Efs & Est & _).
  rewrite Hr. eexists. split; [done|].
  cbn [set_currentImage epd log epdState currentImage files trace paint].
  split_and!; try done.
  - by rewrite last_snoc.
  - intros px py Hx Hy. rewrite P, Ecw, Ech.
    rewrite get_pixel_decode_draws; try done.
    all: try (unfold shown_h; lia).
    all: try (unfold in_bounds, GetWidth, GetHeight in *; rewrite EW, EH; lia).
    rewrite colour_of_file_pixel by done. by rewrite Hwhite.
Qed.

(** X7: [display_image] on a bitmap name that is not in the file system
    still initialises and clears the panel, sends it an all-white frame and
    records the name as [currentImage]: a missing file is shown as a blank
    screen, not reported. *)
Theorem display_image_bmp_missing
    (png_lines : string -> gmap string (list Z) -> option (list (PNGDRAW * list Z)))
    (filename : string) (w : World) :
  endsWith filename ".png" = false ->
  endsWith filename ".bmp" || endsWith filename ".BMP" = true ->
  files w !! filename = None ->
  holds_panel (paint w) ->
  exists w',
    display_image png_lines filename w = Some w' /\
    epdState w' = "active" /\ currentImage w' = filename /\
    files w' = files w /\
    trace w' = trace w ++ [EvEpd LDirInit; EvEpd EpdClear; EvOpen filename;
                           EvEpd (DisplayPart (GetImage (paint w')))] /\
    forall px py, 0 <= px < image_width -> 0 <= py < image_height ->
      get_pixel (paint w') px py = WHITE.
Proof.
  intros Hpng Hbmp Hf Hh.
  unfold display_image. rewrite Hpng, Hbmp. unfold display_bmp.
  set (w1 := epd EpdClear (epd LDirInit (set_epdState "active" w))).
  destruct (prepare_paint_white w1 Hh) as (EW & EH & _ & Hwhite).
  unfold bmpDraw. rewrite EW, EH.
  change ((image_width <=? 0) || (image_height <=? 0)) with false. cbv iota.
  change (files (prepare_paint w1)) with (files w). rewrite Hf.
  eexists. split; [done|].
  cbn [set_currentImage epd log epdState currentImage files trace paint].
  split_and!; try done.
  cbn. by rewrite <- !app_assoc.
Qed.

(** ** The pixels [PNGDraw] leaves on the framebuffer *)

Lemma elem_of_png_writes d i n y usPixels :
  d ∈ png_writes i n y usPixels <->
  exists j, i <= j < i + n /\ d = (j, y, png_colour (at_index usPixels j)).
Proof.
  unfold png_writes. rewrite list_elem_of_fmap. split.
  - intros (j & -> & Hj%elem_of_seqZ). eauto.
  - intros (j & Hj & ->). exists j. by rewrite elem_of_seqZ.
Qed.

Lemma NoDup_png_writes i n y usPixels :
  NoDup ((fun d => (d.1.1, d.1.2)) <$> png_writes i n y usPixels).
Proof.
  unfold png_writes. rewrite <- list_fmap_compose.
  apply NoDup_fmap_2; [|apply NoDup_seqZ].
  intros a b [= ->]. done.
Qed.

(** The framebuffer after one call of [PNGDraw], pixel by pixel: on line
    [y] the columns below [iWidth] hold WHITE where the decoded value is 0
    and BLACK where it is not; every other pixel is unchanged. *)
Lemma PNGDraw_pixel (pDraw : PNGDRAW) (usPixels : list Z) (w : World) :
  fits (paint w) ->
  forall px py, in_bounds (paint w) px py ->
    get_pixel (paint (PNGDraw pDraw usPixels w)) px py =
    if (py =? png_y pDraw) && (px <? iWidth pDraw)
    then png_colour (at_index usPixels px)
    else get_pixel (paint w) px py.
Proof.
  intros Hfit px py Hin. unfold PNGDraw. rewrite PNGDraw_from_spec. cbn [paint].
  set (n := Z.min (iWidth pDraw) (GetWidth (paint w))).
  assert (Hn : Z.of_nat (Z.to_nat n) = Z.max 0 n) by lia. rewrite Hn.
  pose proof Hin as [Hx Hy]. unfold GetWidth in n.
  destruct ((py =? png_y pDraw) && (px <? iWidth pDraw)) eqn:E.
  - apply andb_true_iff in E as [->%Z.eqb_eq E2%Z.ltb_lt].
    rewrite (get_pixel_apply_draws_hit _ _ _ _ (png_colour (at_index usPixels px))).
    + unfold png_colour. by destruct (at_index usPixels px =? 0).
    + apply NoDup_png_writes.
    + apply elem_of_png_writes. exists px. split; [subst n; lia|done].
    + done.
    + by apply fits_pixel_index.
  - apply get_pixel_apply_draws_frame. intros d Hd Hb Hi.
    apply elem_of_png_writes in Hd as (j & Hj & ->). cbn in Hb, Hi.
    apply (pixel_index_inj _ _ _ _ _ Hb Hin) in Hi as [Ej Ey].
    subst n. apply andb_false_iff in E as [E%Z.eqb_neq|E%Z.ltb_ge]; lia.
Qed.

Lemma PNGDraw_keeps pDraw usPixels w :
  width (paint (PNGDraw pDraw usPixels w)) = width (paint w) /\
  height (paint (PNGDraw pDraw usPixels w)) = height (paint w) /\
  length (image (paint (PNGDraw pDraw usPixels w))) = length (image (paint w)) /\
  files (PNGDraw pDraw usPixels w) = files w /\
  epdState (PNGDraw pDraw usPixels w) = epdState w /\
  currentImage (PNGDraw pDraw usPixels w) = currentImage w /\
  exists evs, trace (PNGDraw pDraw usPixels w) = trace w ++ evs.
Proof.
  unfold PNGDraw. rewrite PNGDraw_from_spec.
  cbn [paint files epdState currentImage trace].
  destruct (apply_draws_dims
              (png_writes 0 (Z.of_nat (Z.to_nat (Z.min (iWidth pDraw) (GetWidth (paint w)))))
                          (png_y pDraw) usPixels) (paint w)) as (E1 & E2 & E3).
  split_and!; try done. by eexists.
Qed.

Lemma png_decode_pixels lines w :
  fits (paint w) ->
  width (paint (png_decode lines w)) = width (paint w) /\
  height (paint (png_decode lines w)) = height (paint w) /\
  files (png_decode lines w) = files w /\
  epdState (png_decode lines w) = epdState w /\
  currentImage (png_decode lines w) = currentImage w /\
  (exists evs, trace (png_decode lines w) = trace w ++ evs) /\
  forall px py, in_bounds (paint w) px py ->
    get_pixel (paint (png_decode lines w)) px py =
    png_pixel_over (get_pixel (paint w) px py) lines px py.
Proof.
  revert w. induction lines as [|l lines IH]; intros w Hfit.
  { split_and!; try done. exists []. by rewrite app_nil_r. }
  unfold png_decode, png_pixel_over in *. cbn [foldl].
  destruct (PNGDraw_keeps l.1 l.2 w) as (E1 & E2 & E3 & E4 & E5 & E6 & evs1 & E7).
  destruct (IH (PNGDraw l.1 l.2 w)) as (I1 & I2 & I3 & I4 & I5 & (evs2 & I7) & I6).
  { unfold fits in *. by rewrite E1, E2, E3. }
  split_and!; try congruence.
  - exists (evs1 ++ evs2). by rewrite I7, E7, app_assoc.
  - intros px py Hin. rewrite I6.
    + by rewrite PNGDraw_pixel.
    + unfold in_bounds in *. by rewrite E1, E2.
Qed.

(** X8: [display_image] on a name that ends in ".png".  The file is opened
    through the library in every case.  When the library finds no image in
    it, that attempted open is all that happens: nothing is drawn, the panel
    is not touched and the file is not closed.  When it does, the panel is
    initialised and cleared, the scanlines are drawn onto a white 200 by 200
    framebuffer, the file is closed, and that framebuffer is the last thing
    sent to the panel: a pixel has the colour of the last scanline that
    covers it (WHITE for the value 0, BLACK otherwise) and is white when
    none does.  [epdState] ends as "active"; [currentImage] is not
    updated. *)
Theorem display_image_png_shown
    (png_lines : string -> gmap string (list Z) -> option (list (PNGDRAW * list Z)))
    (filename : string) (w : World) :
  endsWith filename ".png" = true ->
  holds_panel (paint w) ->
  match png_lines filename (files w) with
  | None =>
      display_image png_lines filename w =
      Some (mkWorld (paint w) (files w) (epdState w) (currentImage w)
                    (trace w ++ [EvOpen filename]))
  | Some lines =>
      exists w' evs,
        display_image png_lines filename w = Some w' /\
        epdState w' = "active" /\ currentImage w' = currentImage w /\
        files w' = files w /\
        trace w' =
          trace w ++ [EvOpen filename; EvEpd LDirInit; EvEpd EpdClear] ++ evs
                  ++ [EvClose; EvEpd WaitUntilIdle;
                      EvEpd (DisplayPart (GetImage (paint w')))] /\
        forall px py, 0 <= px < image_width -> 0 <= py < image_height ->
          get_pixel (paint w') px py = png_pixel_over WHITE lines px py
  end.
Proof.
  intros Hpng Hh. unfold display_image. rewrite Hpng. unfold display_png.
  destruct (png_lines filename (files w)) as [lines|]; [|done].
  set (w1 := epd EpdClear (epd LDirInit (set_epdState "active" (log (EvOpen filename) w)))).
  destruct (prepare_paint_white w1 Hh) as (EW & EH & Hfit & Hwhite).
  destruct (png_decode_pixels lines (prepare_paint w1) Hfit)
    as (I1 & I2 & I3 & I4 & I5 & (evs & I7) & I6).
  exists (epd (DisplayPart (GetImage (paint (png_decode lines (prepare_paint w1)))))
            (epd WaitUntilIdle (log EvClose (png_decode lines (prepare_paint w1))))).
  exists evs. split; [done|].
  cbn [epd log epdState currentImage files trace paint].
  split_and!; try done.
  - rewrite I7. cbn. by rewrite <- !app_assoc.
  - intros px py Hx Hy. rewrite I6.
    + by rewrite Hwhite.
    + unfold in_bounds. unfold GetWidth, GetHeight in *. rewrite EW, EH. lia.
Qed.

(** ** The file [snapshot] writes *)

(** X9: [snapshot] writes one file and nothing else: every other file, the
    framebuffer and the state strings are as before.  The header it writes
    is one [bmpDraw] accepts, and what [bmpDraw] reads back from it is the
    pixel offset 54 and the width and height of the framebuffer. *)
Theorem snapshot_header_accepted (p : Paint) (w : World) :
  0 <= GetWidth p < 2147483648 -> 0 <= GetHeight p < 2147483648 ->
  exists bytes,
    files (snapshot p w) !! outfile = Some bytes /\
    parse_header (mkFile bytes 0) =
      Some (Some (mkHeader 54 (GetWidth p) (GetHeight p)), mkFile bytes 34) /\
    (forall name, name <> outfile ->
       files (snapshot p w) !! name = files w !! name) /\
    paint (snapshot p w) = paint w /\
    epdState (snapshot p w) = epdState w /\
    currentImage (snapshot p w) = currentImage w.
Proof.
  intros HW HH. exists (snapshot_bytes p). unfold snapshot. cbn [files paint epdState currentImage].
  split_and!; try done.
  - by rewrite lookup_insert_eq.
  - by apply parse_header_snapshot.
  - intros name Hn. by rewrite lookup_insert_ne.
Qed.

Lemma length_snapshot_rows_stride n img W top :
  0 <= W ->
  Z.of_nat (length (snapshot_rows n img W top)) = Z.of_nat n * snapshot_stride W.
Proof.
  intros HW. revert top. induction n as [|n IH]; intros top; [done|].
  cbn [snapshot_rows]. rewrite length_app, Nat2Z.inj_add, IH, length_snapshot_row by done.
  assert (3 * W + (if W mod 4 =? 0 then 0 else 4 - W mod 4) = snapshot_stride W) as ->.
  { unfold snapshot_stride. by rewrite Z.rem_mod_nonneg by lia. }
  lia.
Qed.

Lemma length_snapshot_bytes_stride p :
  0 <= GetWidth p -> 0 <= GetHeight p ->
  Z.of_nat (length (snapshot_bytes p)) = 54 + GetHeight p * snapshot_stride (GetWidth p).
Proof.
  intros HW HH. unfold snapshot_bytes.
  rewrite !length_app, !Nat2Z.inj_add, length_snapshot_rows_stride by done.
  rewrite length_bmpfileheader, length_bmpinfoheader, Z2Nat.id by done. lia.
Qed.

Lemma field_snapshot_filesize p :
  field (snapshot_bytes p) 2 4 =
  u32 (i32 (14 + 40 + 3 * GetWidth p * GetHeight p)).
Proof.
  set (fs := i32 (14 + 40 + 3 * GetWidth p * GetHeight p)).
  assert (field (snapshot_bytes p) 2 4 =
          byte_of fs 0 + 256 * (byte_of fs 8 + 256 * (byte_of fs 16
            + 256 * (byte_of fs 24 + 256 * 0)))) as -> by reflexivity.
  unfold byte_of, u8, u32. rewrite !Z.shiftr_div_pow2 by lia.
  change (2 ^ 0) with 1. change (2 ^ 8) with 256. change (2 ^ 16) with 65536.
  change (2 ^ 24) with 16777216.
  Z.div_mod_to_equations. lia.
Qed.

(** X10: the file-size field of the header [snapshot] writes counts three
    bytes for each pixel and no padding, while the file holds
    [snapshot_stride] bytes for each row: the field is the size of the file
    exactly when the width is a multiple of four (or there is no row). *)
Theorem snapshot_filesize_field (p : Paint) :
  0 <= GetWidth p -> 0 <= GetHeight p ->
  54 + 3 * GetWidth p * GetHeight p < 2147483648 ->
  field (snapshot_bytes p) 2 4 = 54 + 3 * GetWidth p * GetHeight p /\
  Z.of_nat (length (snapshot_bytes p)) =
    54 + GetHeight p * snapshot_stride (GetWidth p) /\
  (field (snapshot_bytes p) 2 4 = Z.of_nat (length (snapshot_bytes p)) <->
   GetHeight p = 0 \/ GetWidth p mod 4 = 0).
Proof.
  intros HW HH Hs.
  assert (field (snapshot_bytes p) 2 4 = 54 + 3 * GetWidth p * GetHeight p) as E1.
  { rewrite field_snapshot_filesize, i32_small, u32_small; nia. }
  pose proof (length_snapshot_bytes_stride p HW HH) as E2.
  split_and!; try done. rewrite E1, E2. unfold snapshot_stride.
  rewrite Z.rem_mod_nonneg by lia.
  pose proof (Z.mod_pos_bound (GetWidth p) 4 ltac:(lia)).
  destruct (Z.eqb_spec (GetWidth p mod 4) 0); nia.
Qed.

(** X11: where [snapshot] stores a pixel.  For a framebuffer whose width is
    a multiple of eight, the pixel [(c, r)] is the three equal bytes at
    offset [54 + (height - 1 - r) * 3 * width + 3 * c]: 0 when the pixel is
    black, 255 when it is white.  Rows are stored bottom-up. *)
Theorem snapshot_pixel_bytes (p : Paint) (r c j : Z) :
  0 <= GetWidth p -> GetWidth p mod 8 = 0 ->
  0 <= r < GetHeight p -> 0 <= c < GetWidth p -> 0 <= j < 3 ->
  at_index (snapshot_bytes p)
           (54 + (GetHeight p - 1 - r) * (3 * GetWidth p) + 3 * c + j) =
  if get_pixel p c r =? BLACK then 0 else 255.
Proof.
  intros HW H8 Hr Hc Hj.
  rewrite at_index_snapshot_bytes; try lia.
  2: { Z.div_mod_to_equations. lia. }
  replace (GetHeight p - 1 - (GetHeight p - 1 - r)) with r by lia.
  rewrite <- (snapshot_rgb_get_pixel p r c) by lia.
  destruct (snapshot_rgb_gray (GetImage p) (GetWidth p) r c) as [-> | ->]; done.
Qed.

(** ** Reading back what was written *)

Lemma lookup_middle_list (pre l post : list Z) (k : nat) :
  (k < length l)%nat -> (pre ++ l ++ post) !! (length pre + k)%nat = l !! k.
Proof.
  intros Hk. rewrite lookup_app_r by lia.
  replace (length pre + k - length pre)%nat with k by lia.
  by rewrite lookup_app_l.
Qed.

(** X18: [read16] and [read32] read back what [snapshot] writes for a
    number.  The bytes [v], [v >> 8], ... narrowed to [uint8_t], found at
    any position of a file, are read as [v] again, and the position
    advances by the size read. *)
Theorem read_roundtrip (pre post : list Z) (v16 v32 : Z) :
  0 <= v16 < 65536 -> 0 <= v32 < 4294967296 ->
  let q := Z.of_nat (length pre) in
  let f16 := pre ++ [byte_of v16 0; byte_of v16 8] ++ post in
  let f32 := pre ++ [byte_of v32 0; byte_of v32 8; byte_of v32 16; byte_of v32 24]
                 ++ post in
  read16 (mkFile f16 q) = Some (v16, mkFile f16 (q + 2)) /\
  read32 (mkFile f32 q) = Some (v32, mkFile f32 (q + 4)).
Proof.
  intros H16 H32. cbv zeta. split.
  - rewrite (read16_at _ _ (byte_of v16 0) (byte_of v16 8)); [| lia | |].
    + do 2 f_equal. unfold byte_of, u8. rewrite !Z.shiftr_div_pow2 by lia.
      change (2 ^ 0) with 1. change (2 ^ 8) with 256.
      Z.div_mod_to_equations. lia.
    + rewrite Nat2Z.id. rewrite <- (Nat.add_0_r (length pre)).
      by rewrite lookup_middle_list by (cbn; lia).
    + rewrite Nat2Z.id. rewrite <- Nat.add_1_r.
      by rewrite lookup_middle_list by (cbn; lia).
  - rewrite (read32_at _ _ (byte_of v32 0) (byte_of v32 8) (byte_of v32 16)
               (byte_of v32 24)); [| lia | | | |].
    + do 2 f_equal. by apply byte_of_le.
    + rewrite Nat2Z.id. rewrite <- (Nat.add_0_r (length pre)).
      by rewrite lookup_middle_list by (cbn; lia).
    + rewrite Nat2Z.id. rewrite <- Nat.add_1_r.
      by rewrite lookup_middle_list by (cbn; lia).
    + rewrite Nat2Z.id.
      replace (S (S (length pre))) with (length pre + 2)%nat by lia.
      by rewrite lookup_middle_list by (cbn; lia).
    + rewrite Nat2Z.id.
      replace (S (S (S (length pre)))) with (length pre + 3)%nat by lia.
      by rewrite lookup_middle_list by (cbn; lia).
Qed.

(** ** Uploads *)

(** One call of [handleUpload] appends its chunk to the file of the
    upload and touches no other file. *)
Lemma handleUpload_step filename index c final st acc :
  upload_inv filename index acc st ->
  let st' := handleUpload filename index c final st in
  files (world st'.1) !! ("/" +:+ filename) = Some (acc ++ c) /\
  (forall name, name <> "/" +:+ filename ->
     files (world st'.1) !! name = files (world st.1) !! name) /\
  paint (world st'.1) = paint (world st.1) /\
  (if final
   then currentImage (world st'.1) = filename /\
        epdState (world st'.1) = "displaying image" /\
        loadTicker st'.1 = Some filename /\ tempFile st'.2 = None /\
        responses st'.2 = responses st.2 ++ [Redirect "/"]
   else tempFile st'.2 = Some ("/" +:+ filename) /\
        responses st'.2 = responses st.2).
Proof.
  intros [Hi Hopen]. cbv zeta. unfold handleUpload.
  set (path := "/" +:+ filename) in *.
  destruct (Z.eqb_spec index 0) as [E0|E0].
  - assert (acc = []) as -> by (destruct acc; [done|cbn in Hi; lia]).
    destruct (Z.eqb_spec (Z.of_nat (length c)) 0) as [Ec|Ec].
    + assert (c = []) as -> by (destruct c; [done|cbn in Ec; lia]).
      destruct final; cbn; rewrite lookup_insert_eq; split_and!; try done;
        intros name Hn; by rewrite lookup_insert_ne.
    + destruct final; cbn; rewrite lookup_alter_eq, lookup_insert_eq;
        split_and!; try done;
        intros name Hn; by rewrite lookup_alter_ne, lookup_insert_ne.
  - destruct (Hopen E0) as [Ht Hf]. rewrite Ht.
    destruct (Z.eqb_spec (Z.of_nat (length c)) 0) as [Ec|Ec].
    + assert (c = []) as -> by (destruct c; [done|cbn in Ec; lia]).
      rewrite app_nil_r. destruct final; cbn; split_and!; done.
    + destruct final; cbn; rewrite lookup_alter_eq; fold path; rewrite Hf;
        split_and!; try done;
        intros name Hn; by rewrite lookup_alter_ne.
Qed.

Lemma upload_from_spec filename chunks :
  chunks <> [] ->
  forall index st acc,
  upload_inv filename index acc st ->
  let st' := upload_from filename index chunks st in
  files (world st'.1) !! ("/" +:+ filename) = Some (acc ++ concat chunks) /\
  (forall name, name <> "/" +:+ filename ->
     files (world st'.1) !! name = files (world st.1) !! name) /\
  paint (world st'.1) = paint (world st.1) /\
  currentImage (world st'.1) = filename /\
  epdState (world st'.1) = "displaying image" /\
  loadTicker st'.1 = Some filename /\ tempFile st'.2 = None /\
  responses st'.2 = responses st.2 ++ [Redirect "/"].
Proof.
  induction chunks as [|c chunks IH]; [done|]. intros _ index st acc Hinv.
  destruct chunks as [|c' chunks].
  - cbn [upload_from concat]. rewrite app_nil_r.
    destruct (handleUpload_step filename index c true st acc Hinv)
      as (H1 & H2 & H3 & H4). cbv zeta. split_and!; try done; apply H4.
  - destruct (handleUpload_step filename index c false st acc Hinv)
      as (H1 & H2 & H3 & H4 & H5).
    change (upload_from filename index (c :: c' :: chunks) st)
      with (upload_from filename (index + Z.of_nat (length c)) (c' :: chunks)
              (handleUpload filename index c false st)).
    cbv zeta in *.
    destruct (IH ltac:(done) (index + Z.of_nat (length c))
                (handleUpload filename index c false st) (acc ++ c))
      as (I1 & I2 & I3 & I4 & I5 & I6 & I7 & I8).
    { destruct Hinv as [Hi _]. split; [rewrite length_app; lia|]. done. }
    split_and!; try done.
    + rewrite I1. by rewrite <- app_assoc.
    + intros name Hn. by rewrite I2, H2.
    + by rewrite I3.
Qed.

(** X12: an upload stores what was sent.  After the calls for the chunks of
    one file, the file system holds the concatenation of the chunks under
    "/" followed by the name, whatever was stored there before and however
    the bytes were cut into chunks; no other file and no pixel has changed;
    the file is closed, [currentImage] is the name as sent (without the
    "/"), [epdState] is "displaying image", [display_image] is scheduled
    with that name and the browser is redirected to "/". *)
Theorem upload_stores_file (filename : string) (chunks : list (list Z))
    (s : Server) :
  chunks <> [] ->
  let st := upload filename chunks s in
  files (world st.1) !! ("/" +:+ filename) = Some (concat chunks) /\
  (forall name, name <> "/" +:+ filename ->
     files (world st.1) !! name = files (world s) !! name) /\
  paint (world st.1) = paint (world s) /\
  currentImage (world st.1) = filename /\
  epdState (world st.1) = "displaying image" /\
  loadTicker st.1 = Some filename /\ tempFile st.2 = None /\
  responses st.2 = [Redirect "/"].
Proof.
  intros Hne. unfold upload.
  apply (upload_from_spec filename chunks Hne 0 (s, mkRequest None []) []).
  split; [done|]. done.
Qed.

(** ** The routes [/display] and [/delete] *)

(** A file of at least 34 bytes has a header [bmpDraw] can read to the
    end. *)
Lemma parse_header_total bytes :
  34 <= Z.of_nat (length bytes) ->
  exists r, parse_header (mkFile bytes 0) = Some r.
Proof.
  intros Hlen. unfold parse_header, read16, read32.
  erewrite rd_bind_some; [|by apply read_ok; lia].
  destruct (field bytes 0 2 =? 19778); [|by eexists].
  do 7 (erewrite rd_bind_some; [|by apply read_ok; lia]).
  destruct (field bytes (0 + 2 + 4 + 4 + 4 + 4 + 4 + 4) 2 =? 1); [|by eexists].
  erewrite rd_bind_some; [|by apply read_ok; lia].
  destruct (u8 (field bytes (0 + 2 + 4 + 4 + 4 + 4 + 4 + 4 + 2) 2) =? 24);
    [|by eexists].
  erewrite rd_bind_some; [|by apply read_ok; lia].
  destruct (field bytes (0 + 2 + 4 + 4 + 4 + 4 + 4 + 4 + 2 + 2) 4 =? 0); by eexists.
Qed.

Lemma bmpDraw_total filename x y w :
  (forall bytes, files w !! filename = Some bytes ->
                 34 <= Z.of_nat (length bytes)) ->
  exists w', bmpDraw filename x y w = Some w'.
Proof.
  intros Hlen. unfold bmpDraw.
  destruct ((GetWidth (paint w) <=? x) || (GetHeight (paint w) <=? y));
    [by eexists|].
  destruct (files w !! filename) as [bytes|] eqn:Hf; [|by eexists].
  destruct (parse_header_total bytes (Hlen bytes eq_refl)) as ([[h|] f] & ->);
    by eexists.
Qed.

(** X13: what [/display] answers for a name that does not end in ".png".
    A name that is not in the file system gets a 404 and nothing changes.
    A name that is there without the suffix ".bmp" or ".BMP" gets "Loaded
    image file" and becomes [currentImage], although nothing is drawn or
    sent to the panel, and [epdState] stays "displaying image".  A name
    that is there with one of these suffixes, its file holding at least the
    34 header bytes [bmpDraw] reads, gets the same answer and becomes
    [currentImage]; the panel is redrawn and [epdState] ends as "active". *)
Theorem route_display_reply
    (png_lines : string -> gmap string (list Z) -> option (list (PNGDRAW * list Z)))
    (name : string) (w : World) :
  endsWith name ".png" = false ->
  (endsWith name ".bmp" || endsWith name ".BMP" = true ->
   forall bytes, files w !! name = Some bytes -> 34 <= Z.of_nat (length bytes)) ->
  match files w !! name with
  | None =>
      route_display png_lines (Some name) w =
      Some (w, [Send 404 "text/plain" ("Image file " +:+ name +:+ " not found")])
  | Some _ =>
      exists w',
        route_display png_lines (Some name) w =
        Some (w', [Send 200 "text/plain" ("Loaded image file: " +:+ name)]) /\
        currentImage w' = name /\ files w' = files w /\
        if endsWith name ".bmp" || endsWith name ".BMP"
        then epdState w' = "active" /\
             last (trace w') = Some (EvEpd (DisplayPart (GetImage (paint w'))))
        else epdState w' = "displaying image" /\
             paint w' = paint w /\ trace w' = trace w
  end.
Proof.
  intros Hpng Hlen. unfold route_display.
  destruct (files w !! name) as [bytes|] eqn:Hf.
  2: { rewrite bool_decide_eq_false_2; [done|]. by intros [? ?]. }
  rewrite bool_decide_eq_true_2 by done.
  unfold display_image. rewrite Hpng.
  destruct (endsWith name ".bmp" || endsWith name ".BMP").
  - unfold display_bmp.
    set (w2 := prepare_paint _).
    destruct (bmpDraw_total name 0 0 w2) as [w3 Hr].
    { intros bs Hbs. apply (Hlen eq_refl). by rewrite <- Hbs. }
    destruct (bmpDraw_state name 0 0 w2 w3 Hr) as (Efs & Est & _).
    rewrite Hr. cbn [mbind option_bind]. eexists. split; [done|].
    cbn [set_currentImage epd log epdState currentImage files trace paint].
    split_and!; try done. by rewrite last_snoc.
  - cbn. eexists. by split_and!.
Qed.

(** X14: [/delete] removes the named file and nothing else, answers
    "Deleted File" whether or not there was such a file, and leaves the
    framebuffer, the panel and [currentImage] alone, also when the file
    deleted is the one on show.  A [/display] of the name that follows
    gets a 404 and changes nothing. *)
Theorem route_delete_then_display
    (png_lines : string -> gmap string (list Z) -> option (list (PNGDRAW * list Z)))
    (name : string) (w : World) :
  exists w1,
    route_delete (Some name) w =
      Some (w1, [Send 200 "text/plain" ("Deleted File: " +:+ name)]) /\
    files w1 !! name = None /\
    (forall other, other <> name -> files w1 !! other = files w !! other) /\
    paint w1 = paint w /\ trace w1 = trace w /\
    currentImage w1 = currentImage w /\ epdState w1 = epdState w /\
    route_display png_lines (Some name) w1 =
      Some (w1, [Send 404 "text/plain" ("Image file " +:+ name +:+ " not found")]).
Proof.
  eexists. split; [done|]. cbn [with_files files paint trace currentImage epdState].
  split_and!; try done.
  - by rewrite lookup_delete_eq.
  - intros other Hn. by rewrite lookup_delete_ne.
  - unfold route_display. cbn [files with_files].
    rewrite bool_decide_eq_false_2; [done|].
    rewrite lookup_delete_eq. by intros [? ?].
Qed.

(** ** Status messages *)

(** X15: where the lines of a status message go.  The first message is
    drawn at the given offset in the given font; the [k]-th further message
    is drawn in [Font16], at the offset of the first plus the height of its
    font plus [k] heights of [Font16]: every line starts where the line
    before it ends, all at the left edge and in black. *)
Theorem display_status_message_lines (Font16 : sFONT) (offset : Z)
    (font : sFONT) (item : string) (args : list string) :
  0 <= Height font -> 0 <= Height Font16 -> -2147483648 <= offset ->
  offset + Height font + Z.of_nat (length args) * Height Font16 < 2147483648 ->
  display_status_message_at Font16 offset font item args =
  mkDrawString 0 offset item font BLACK ::
  imap (fun k a =>
          mkDrawString 0 (offset + Height font + Z.of_nat k * Height Font16)
                       a Font16 BLACK) args.
Proof.
  intros Hf H16. revert offset font item Hf.
  induction args as [|a rest IH]; intros offset font item Hf Ho Hlen; [done|].
  cbn [display_status_message_at imap]. f_equal.
  cbn [length] in Hlen. rewrite i32_small by nia.
  rewrite IH by (done || nia). f_equal.
  - f_equal. lia.
  - apply imap_ext. intros k b _. cbn. f_equal. lia.
Qed.

(** ** The geometry of the generated code *)

Lemma qr_fits_le epd_width epd_height qr_size :
  qr_fits epd_width epd_height qr_size = true ->
  qr_size <= epd_height /\ qr_size <= epd_width.
Proof.
  unfold qr_fits. intros [H1 H2]%negb_true_iff%orb_false_iff.
  apply Z.ltb_ge in H1. apply Z.ltb_ge in H2. done.
Qed.

(** A block is at least one pixel, and the blocks of a row or a column
    fit the panel. *)
Lemma blockSize_bounds epd_width epd_height qr_code_scale qr_size :
  1 <= qr_size <= 255 ->
  qr_fits epd_width epd_height qr_size = true ->
  epd_width < 32768 -> epd_height < 32768 ->
  1 <= blockSize epd_width epd_height qr_code_scale qr_size /\
  qr_size * blockSize epd_width epd_height qr_code_scale qr_size <= epd_height /\
  qr_size * blockSize epd_width epd_height qr_code_scale qr_size <= epd_width.
Proof.
  intros Hsize Hfits Hw Hh.
  destruct (qr_fits_le _ _ _ Hfits) as [L1 L2]. unfold blockSize, u16.
  destruct qr_code_scale.
  - rewrite i32_small by lia. rewrite Z.quot_div_nonneg by lia.
    set (m := Z.min epd_height epd_width).
    assert (qr_size <= m < 32768) as Hm by (subst m; lia).
    pose proof (Z.mul_div_le m qr_size ltac:(lia)).
    assert (1 <= m / qr_size) by (apply Z.div_le_lower_bound; lia).
    assert (m / qr_size <= m) by (apply Z.div_le_upper_bound; nia).
    rewrite Z.mod_small by lia. subst m. lia.
  - rewrite Z.mod_small by lia. lia.
Qed.

(** X16: the generated code never leaves the framebuffer.  For a code
    that passes the size check, on a panel whose sides are below 32768,
    every rectangle [display_qr_code] draws lies inside the framebuffer;
    the rectangles of neighbouring modules are side by side, one block
    apart; and the code is centred: the margins on opposite sides differ by
    at most one pixel. *)
Theorem qr_rectangles_inside (epd_width epd_height : Z) (qr_code_scale : bool)
    (qr_size : Z) (qr_module : Z -> Z -> bool) (p : Paint) :
  1 <= qr_size <= 255 ->
  qr_fits epd_width epd_height qr_size = true ->
  epd_width < 32768 -> epd_height < 32768 ->
  let p' := qr_paint epd_width epd_height p in
  let bs := blockSize epd_width epd_height qr_code_scale qr_size in
  let dx := display_x epd_width epd_height qr_code_scale qr_size p' in
  let dy := display_y epd_width epd_height qr_code_scale qr_size p' in
  let rx := rect_x epd_width epd_height qr_code_scale qr_size p' in
  let ry := rect_y epd_width epd_height qr_code_scale qr_size p' in
  (forall r,
     r ∈ qr_rectangles epd_width epd_height qr_code_scale qr_size qr_module p' ->
     0 <= rx0 r <= rx1 r /\ rx1 r < GetWidth p' /\
     0 <= ry0 r <= ry1 r /\ ry1 r < GetHeight p') /\
  (forall k, 0 <= k -> k + 1 < qr_size ->
     rx (k + 1) = rx k + bs /\ ry (k + 1) = ry k + bs) /\
  dx <= GetWidth p' - (dx + qr_size * bs) <= dx + 1 /\
  dy <= GetHeight p' - (dy + qr_size * bs) <= dy + 1.
Proof.
  intros Hsize Hfits Hw Hh. cbv zeta.
  destruct (blockSize_bounds epd_width epd_height qr_code_scale qr_size
              Hsize Hfits Hw Hh) as (B1 & B2 & B3).
  set (p' := qr_paint epd_width epd_height p).
  assert (GetWidth p' = epd_height) as EW by done.
  assert (GetHeight p' = epd_width) as EH by done.
  set (mx := (epd_height - qr_size * blockSize epd_width epd_height qr_code_scale qr_size) / 2).
  set (my := (epd_width - qr_size * blockSize epd_width epd_height qr_code_scale qr_size) / 2).
  assert (display_x epd_width epd_height qr_code_scale qr_size p' = mx /\
          display_y epd_width epd_height qr_code_scale qr_size p' = my /\
          0 <= mx /\ 0 <= my) as (Dx & Dy & X1 & Y1).
  { unfold display_x, display_y, u16. rewrite EW, EH.
    rewrite !i32_small by nia. rewrite !Z.quot_div_nonneg by lia.
    fold mx my.
    assert (0 <= mx < 32768) by (subst mx; Z.div_mod_to_equations; lia).
    assert (0 <= my < 32768) by (subst my; Z.div_mod_to_equations; lia).
    rewrite !Z.mod_small by lia. lia. }
  set (bs := blockSize epd_width epd_height qr_code_scale qr_size) in *.
  assert (2 * mx <= epd_height - qr_size * bs <= 2 * mx + 1) as X2
    by (subst mx; Z.div_mod_to_equations; lia).
  assert (2 * my <= epd_width - qr_size * bs <= 2 * my + 1) as Y2
    by (subst my; Z.div_mod_to_equations; lia).
  assert (forall k, 0 <= k < qr_size ->
            rect_x epd_width epd_height qr_code_scale qr_size p' k = mx + k * bs /\
            rect_y epd_width epd_height qr_code_scale qr_size p' k = my + k * bs /\
            k * bs + bs <= qr_size * bs) as Hk.
  { intros k Hk. assert (k * bs + bs <= qr_size * bs) by nia.
    unfold rect_x, rect_y, u16. rewrite Dx, Dy. fold bs.
    rewrite !Z.mod_small by nia. done. }
  rewrite Dx, Dy, EW, EH.
  split_and!; try lia.
  - intros r Hr. unfold qr_rectangles in Hr.
    apply list_elem_of_bind in Hr as (x & Hr & Hx%elem_of_seqZ).
    apply list_elem_of_bind in Hr as (y & Hr & Hy%elem_of_seqZ).
    apply list_elem_of_singleton in Hr as ->. cbn [rx0 rx1 ry0 ry1].
    fold bs.
    destruct (Hk x ltac:(lia)) as (-> & _ & ?).
    destruct (Hk y ltac:(lia)) as (_ & -> & ?). nia.
  - intros k Hk0 Hk1.
    destruct (Hk k ltac:(lia)) as (-> & -> & _).
    destruct (Hk (k + 1) ltac:(lia)) as (-> & -> & _). lia.
Qed.

(** ** The credentials of the configuration access point *)

Lemma c_str_terminated l rest :
  Forall (fun v => v <> 0) l -> c_str (l ++ 0 :: rest) = l.
Proof.
  induction 1 as [|v l Hv _ IH]; [done|]. cbn.
  destruct (Z.eqb_spec v 0); [done|]. by rewrite IH.
Qed.

Lemma random_digit_range esp_random k : 48 <= random_digit esp_random k <= 57.
Proof.
  unfold random_digit, u8, u32.
  pose proof (Z.mod_pos_bound (esp_random k mod 4294967296) 10 ltac:(lia)).
  rewrite (Z.mod_small (_ + 48) 4294967296) by lia.
  rewrite (Z.mod_small (_ + 48) 256) by lia. lia.
Qed.

(** X17: the credentials [setup] generates on the [ESP32], for every
    sequence of random numbers.  The network name is "ImageLoad" followed
    by three decimal digits, and the password is eight decimal digits and
    nothing more: nothing of the initial "PassWord348" is left in it. *)
Theorem setup_credentials (esp_random : nat -> Z) :
  c_str (setup_ssid esp_random) =
    codes "ImageLoad" ++ (random_digit esp_random <$> seq 0 3) /\
  c_str (setup_password esp_random) = random_digit esp_random <$> seq 3 8 /\
  forall k, 48 <= random_digit esp_random k <= 57.
Proof.
  assert (forall l, Forall (fun v => v <> 0) (random_digit esp_random <$> l)) as Hd.
  { intros l. apply Forall_fmap, Forall_true. intros k. cbn.
    pose proof (random_digit_range esp_random k). lia. }
  split_and!.
  - change (setup_ssid esp_random)
      with ((codes "ImageLoad" ++ (random_digit esp_random <$> seq 0 3))
            ++ 0 :: replicate 51 0).
    apply c_str_terminated, Forall_app. split; [|apply Hd].
    by repeat constructor.
  - change (setup_password esp_random)
      with ((random_digit esp_random <$> seq 3 8)
            ++ 0 :: codes "48" ++ replicate 53 0).
    apply c_str_terminated, Hd.
  - apply random_digit_range.
Qed.

(** ** The further properties on the sample inputs *)

Lemma small_world_bytes : all_bytes (snapshot_bytes small_paint).
Proof. unfold all_bytes. apply (bool_decide_unpack _). vm_compute. exact I. Defined.

Lemma bmpDraw_seek_avoidance_witness :
  exists w1 w2,
    bmpDraw outfile 0 0 small_world = Some w1 /\
    ref_bmpDraw outfile 0 0 small_world = Some w2 /\
    draws (trace w1) = draws (trace w2).
Proof.
  exact (bmpDraw_seek_avoidance outfile 0 0 small_world _ _ _
           small_world_offsets small_world_file small_world_header
           small_world_well_formed small_world_no_stale).
Defined.

Lemma depth16_world_file : files depth16_world !! "/depth16.bmp" = Some depth16_bmp.
Proof. vm_compute. reflexivity. Defined.

Lemma bmpDraw_rejects_unchanged_witness :
  exists w',
    bmpDraw "/depth16.bmp" 0 0 depth16_world = Some w' /\
    paint w' = paint depth16_world /\
    draws (trace w') = draws (trace depth16_world).
Proof.
  apply (bmpDraw_rejects_unchanged "/depth16.bmp" 0 0 depth16_world depth16_bmp).
  - cbn. lia.
  - cbn. lia.
  - exact depth16_world_file.
  - vm_compute. discriminate.
  - right. right. left. vm_compute. discriminate.
Defined.

Lemma small_world_decoded :
  bmpDraw outfile 0 0 small_world =
  Some (finish (decode (mkHeader 54 8 8) 0 0
                  (start_decoder (mkFile (snapshot_bytes small_paint) 34)
                                 (log (EvOpen outfile) small_world)))
               (log (EvOpen outfile) small_world)).
Proof.
  apply (bmpDraw_accepted outfile 0 0 small_world (snapshot_bytes small_paint)).
  - cbn. lia.
  - cbn. lia.
  - exact small_world_file.
  - exact small_world_header.
Defined.

Lemma bmpDraw_preserves_witness :
  exists w',
    bmpDraw outfile 0 0 small_world = Some w' /\
    GetWidth (paint w') = GetWidth (paint small_world) /\
    files w' = files small_world /\ currentImage w' = currentImage small_world.
Proof.
  destruct (bmpDraw_preserves outfile 0 0 small_world _ small_world_decoded)
    as (A & _ & _ & B & _ & C & _).
  eexists. split; [exact small_world_decoded|]. exact (conj A (conj B C)).
Defined.

Lemma bmpDraw_get_pixel_witness :
  exists w',
    bmpDraw outfile 0 0 small_world = Some w' /\
    forall px py, in_bounds (paint small_world) px py ->
      get_pixel (paint w') px py =
      if (px <? crop_h (mkHeader 54 8 8) 0 (paint small_world))
         && (py <? crop_w (mkHeader 54 8 8) 0 (paint small_world))
      then shown_colour (snapshot_bytes small_paint)
             (scanline_offset (mkHeader 54 8 8) px + 3 * py)
      else get_pixel (paint small_world) px py.
Proof.
  exact (bmpDraw_get_pixel outfile 0 0 small_world _ _ _
           small_world_offsets small_world_file small_world_header
           small_world_well_formed small_world_no_stale small_world_bytes
           small_fresh_fits).
Defined.


Lemma sample_world_photo :
  files sample_world !! "/photo.BMP" = Some (snapshot_bytes small_paint).
Proof. vm_compute. reflexivity. Defined.

Lemma sample_world_panel : holds_panel (paint sample_world).
Proof. unfold holds_panel. vm_compute. discriminate. Defined.

Lemma display_image_bmp_shown_witness :
  exists w',
    display_image no_png "/photo.BMP" sample_world = Some w' /\
    epdState w' = "active" /\ currentImage w' = "/photo.BMP" /\
    files w' = files sample_world /\
    last (trace w') = Some (EvEpd (DisplayPart (GetImage (paint w')))) /\
    forall px py, 0 <= px < image_width -> 0 <= py < image_height ->
      get_pixel (paint w') px py =
      if (px <? shown_h (mkHeader 54 8 8)) && (py <? shown_w (mkHeader 54 8 8))
      then shown_colour (snapshot_bytes small_paint)
             (scanline_offset (mkHeader 54 8 8) px + 3 * py)
      else WHITE.
Proof.
  apply (display_image_bmp_shown no_png "/photo.BMP" sample_world
           (snapshot_bytes small_paint) (mkHeader 54 8 8)
           (mkFile (snapshot_bytes small_paint) 34)).
  - reflexivity.
  - reflexivity.
  - exact sample_world_photo.
  - exact small_world_header.
  - exact small_world_well_formed.
  - left. reflexivity.
  - exact small_world_bytes.
  - exact sample_world_panel.
Defined.

Lemma display_image_bmp_missing_witness :
  exists w',
    display_image no_png "/none.bmp" sample_world = Some w' /\
    epdState w' = "active" /\ currentImage w' = "/none.bmp" /\
    files w' = files sample_world /\
    trace w' = trace sample_world
               ++ [EvEpd LDirInit; EvEpd EpdClear; EvOpen "/none.bmp";
                   EvEpd (DisplayPart (GetImage (paint w')))] /\
    forall px py, 0 <= px < image_width -> 0 <= py < image_height ->
      get_pixel (paint w') px py = WHITE.
Proof.
  apply (display_image_bmp_missing no_png "/none.bmp" sample_world).
  - reflexivity.
  - reflexivity.
  - vm_compute. reflexivity.
  - exact sample_world_panel.
Defined.

Lemma display_image_png_shown_witness :
  exists w' evs,
    display_image one_line_png "/a.png" sample_world = Some w' /\
    epdState w' = "active" /\ currentImage w' = currentImage sample_world /\
    files w' = files sample_world /\
    trace w' =
      trace sample_world ++ [EvOpen "/a.png"; EvEpd LDirInit; EvEpd EpdClear]
        ++ evs
        ++ [EvClose; EvEpd WaitUntilIdle;
            EvEpd (DisplayPart (GetImage (paint w')))] /\
    forall px py, 0 <= px < image_width -> 0 <= py < image_height ->
      get_pixel (paint w') px py =
      png_pixel_over WHITE [(mkPNGDRAW 2 0, [0; 5])] px py.
Proof.
  apply (display_image_png_shown one_line_png "/a.png" sample_world).
  - reflexivity.
  - exact sample_world_panel.
Defined.

Lemma snapshot_header_accepted_witness :
  exists bytes,
    files (snapshot small_paint (world_of small_paint ∅)) !! outfile = Some bytes /\
    parse_header (mkFile bytes 0) =
      Some (Some (mkHeader 54 (GetWidth small_paint) (GetHeight small_paint)),
            mkFile bytes 34) /\
    (forall name, name <> outfile ->
       files (snapshot small_paint (world_of small_paint ∅)) !! name =
       files (world_of small_paint ∅) !! name) /\
    paint (snapshot small_paint (world_of small_paint ∅)) =
      paint (world_of small_paint ∅) /\
    epdState (snapshot small_paint (world_of small_paint ∅)) =
      epdState (world_of small_paint ∅) /\
    currentImage (snapshot small_paint (world_of small_paint ∅)) =
      currentImage (world_of small_paint ∅).
Proof.
  apply (snapshot_header_accepted small_paint (world_of small_paint ∅)).
  - cbn. lia.
  - cbn. lia.
Defined.

Lemma snapshot_filesize_field_witness :
  field (snapshot_bytes small_paint) 2 4 = 54 + 3 * 8 * 8 /\
  Z.of_nat (length (snapshot_bytes small_paint)) = 54 + 8 * snapshot_stride 8.
Proof.
  destruct (snapshot_filesize_field small_paint) as (A & B & _).
  - cbn. lia.
  - cbn. lia.
  - cbn. lia.
  - exact (conj A B).
Defined.

Lemma snapshot_pixel_bytes_witness :
  at_index (snapshot_bytes small_paint)
           (54 + (GetHeight small_paint - 1 - 0) * (3 * GetWidth small_paint)
            + 3 * 1 + 0) =
  if get_pixel small_paint 1 0 =? BLACK then 0 else 255.
Proof.
  apply (snapshot_pixel_bytes small_paint 0 1 0).
  - cbn. lia.
  - reflexivity.
  - cbn. lia.
  - cbn. lia.
  - lia.
Defined.

Lemma upload_stores_file_witness :
  let st := upload "cat.bmp" sample_chunks (mkServer sample_world None) in
  files (world st.1) !! "/cat.bmp" = Some [66; 77; 58; 0; 0] /\
  currentImage (world st.1) = "cat.bmp" /\
  loadTicker st.1 = Some "cat.bmp" /\
  responses st.2 = [Redirect "/"].
Proof.
  destruct (upload_stores_file "cat.bmp" sample_chunks (mkServer sample_world None))
    as (A & _ & _ & B & _ & C & _ & D).
  - discriminate.
  - exact (conj A (conj B (conj C D))).
Defined.


Lemma route_display_reply_witness :
  exists w',
    route_display no_png (Some "/photo.BMP") sample_world =
    Some (w', [Send 200 "text/plain" "Loaded image file: /photo.BMP"]) /\
    currentImage w' = "/photo.BMP" /\ files w' = files sample_world /\
    epdState w' = "active" /\
    last (trace w') = Some (EvEpd (DisplayPart (GetImage (paint w')))).
Proof.
  assert (endsWith "/photo.BMP" ".bmp" || endsWith "/photo.BMP" ".BMP" = true ->
          forall bytes, files sample_world !! "/photo.BMP" = Some bytes ->
                        34 <= Z.of_nat (length bytes)) as Hlen.
  { intros _ bytes H. rewrite sample_world_photo in H. injection H as <-.
    vm_compute. discriminate. }
  pose proof (route_display_reply no_png "/photo.BMP" sample_world eq_refl Hlen) as H.
  rewrite sample_world_photo in H. exact H.
Defined.

Lemma display_status_message_lines_witness :
  display_status_message_at sample_Font16 0 sample_Font24 "Setup WiFi"
    ["Connect to"; "ImageLoad123"; "12345678"] =
  [mkDrawString 0 0 "Setup WiFi" sample_Font24 BLACK;
   mkDrawString 0 24 "Connect to" sample_Font16 BLACK;
   mkDrawString 0 40 "ImageLoad123" sample_Font16 BLACK;
   mkDrawString 0 56 "12345678" sample_Font16 BLACK].
Proof.
  apply (display_status_message_lines sample_Font16 0 sample_Font24 "Setup WiFi"
           ["Connect to"; "ImageLoad123"; "12345678"]).
  - cbn. lia.
  - cbn. lia.
  - lia.
  - cbn. lia.
Defined.

Lemma qr_rectangles_inside_witness :
  let p' := qr_paint 200 200 white_paint in
  let dx := display_x 200 200 true 21 p' in
  dx <= GetWidth p' - (dx + 21 * blockSize 200 200 true 21) <= dx + 1.
Proof.
  destruct (qr_rectangles_inside 200 200 true 21 (fun x y => Z.even (x + y))
              white_paint) as (_ & _ & A & _).
  - lia.
  - reflexivity.
  - lia.
  - lia.
  - exact A.
Defined.

Lemma read_roundtrip_witness :
  let f16 := [66; 77] ++ [byte_of 280 0; byte_of 280 8] ++ [0] in
  let f32 := [66; 77] ++ [byte_of 40054 0; byte_of 40054 8; byte_of 40054 16;
                          byte_of 40054 24] ++ [0] in
  read16 (mkFile f16 2) = Some (280, mkFile f16 (2 + 2)) /\
  read32 (mkFile f32 2) = Some (40054, mkFile f32 (2 + 4)).
Proof.
  apply (read_roundtrip [66; 77] [0] 280 40054).
  - lia.
  - lia.
Defined.
